(** * Level-1 readers of POLYMER: block partition and block production

    A shallow embedding of [level1_ascii.py] (class [Level1_ASCII]) and
    [level1_meris.py] (class [Level1_MERIS]).

    Python integers are [Z]; numpy arrays of rank 2 and 3 are nested lists
    (rows, then columns, then bands); dictionaries are [gmap]s; a raised
    exception is the [Raise] branch of [result]. *)

From Stdlib Require Import ZArith Lia Bool Ascii String.
From Stdlib Require Floats.SpecFloat Floats.PrimFloat Floats.FloatOps.
From Stdlib Require Numbers.Cyclic.Int63.Uint63.
From stdpp Require Import base option list list_numbers gmap strings.

Local Open Scope Z_scope.

(** ** Exceptions and the error monad *)

(** Keys of a failed dictionary lookup: a string, an integer band, [None]. *)
Inductive pykey :=
  | KStr (s : string)
  | KInt (z : Z)
  | KNone.

Inductive exn :=
  | KeyError (k : pykey)
  | ValueError
  | IndexError
  | TypeError
  | AssertionError
  | AttributeError
  | ZeroDivisionError
  | IOError
  | Exception (msg : string)
  | UserError (class : string).   (* an exception class of the program's own *)

Inductive result (A : Type) :=
  | Ok (a : A)
  | Raise (e : exn).
Arguments Ok {A} a.
Arguments Raise {A} e.

#[global] Instance result_ret : MRet result := fun A a => Ok a.
#[global] Instance result_bind : MBind result := fun A B f m =>
  match m with Ok a => f a | Raise e => Raise e end.
#[global] Instance result_fmap : FMap result := fun A B f m =>
  match m with Ok a => Ok (f a) | Raise e => Raise e end.

Definition is_Ok {A} (r : result A) : Prop := exists a, r = Ok a.

(** [for x in l: f x], stopping at the first exception. *)
Fixpoint mapR {A B} (f : A -> result B) (l : list A) : result (list B) :=
  match l with
  | [] => Ok []
  | a :: l' => b ← f a; bs ← mapR f l'; Ok (b :: bs)
  end.

(** ** The blocking strategy ([blocks] of both classes) *)

Module Blocking.

(** [int(np.ceil(float(height)/blocksize))]: the quotient rounded up.
    The division is carried out on binary64 numbers, which is exact on
    the quotient's ceiling as long as [height] is below [2^53]; the model
    is the exact ceiling.  A zero [blocksize] raises. *)
Definition ceil_div (h b : Z) : Z := - ((- h) / b).

Definition nblocks (height blocksize : Z) : result Z :=
  if decide (blocksize = 0) then Raise ZeroDivisionError
  else Ok (ceil_div height blocksize).

(** [xrange(n)] *)
Definition xrange (n : Z) : list Z := seqZ 0 n.

(** The body of the loop up to the call of [read_block]: the pair
    [(size, offset)] of block [iblock]. *)
Definition tile (height width blocksize nb iblock : Z) : (Z * Z) * (Z * Z) :=
  let xsize := width in
  let ysize :=
    if decide (iblock = nb - 1) then height - (nb - 1) * blocksize
    else blocksize in
  let size := (ysize, xsize) in
  let xoffset := 0 in
  let yoffset := iblock * blocksize in
  let offset := (yoffset, xoffset) in
  (size, offset).

Definition tiles (height width blocksize : Z) : result (list ((Z * Z) * (Z * Z))) :=
  nb ← nblocks height blocksize;
  Ok (tile height width blocksize nb <$> xrange nb).

(** What a generator has produced when it stops: the values it yielded
    and the exception that ended it, if any. *)
Definition gen (B : Type) : Type := list B * option exn.

Fixpoint yield_all {A B} (f : A -> result B) (l : list A) : gen B :=
  match l with
  | [] => ([], None)
  | a :: l' =>
      match f a with
      | Ok b => let r := yield_all f l' in (b :: r.1, r.2)
      | Raise e => ([], Some e)
      end
  end.

(** [blocks(self, bands_read)], over the [read_block] of the class. *)
Definition blocks {B} (read_block : Z * Z -> Z * Z -> list Z -> result B)
    (height width blocksize : Z) (bands_read : list Z) : gen B :=
  match tiles height width blocksize with
  | Raise e => ([], Some e)
  | Ok ts => yield_all (fun t => read_block t.1 t.2 bands_read) ts
  end.

Definition tile_height (t : (Z * Z) * (Z * Z)) : Z := t.1.1.
Definition tile_width (t : (Z * Z) * (Z * Z)) : Z := t.1.2.
Definition tile_row (t : (Z * Z) * (Z * Z)) : Z := t.2.1.


End Blocking.

Section blocking_facts.
Import Blocking.

Lemma ceil_div_bounds h b :
  0 < b -> (ceil_div h b - 1) * b < h <= ceil_div h b * b.
Proof.
  intros Hb. unfold ceil_div.
  pose proof (Z.div_mod (- h) b ltac:(lia)) as Hdm.
  pose proof (Z.mod_pos_bound (- h) b Hb) as Hm.
  nia.
Qed.

Lemma ceil_div_unique h b n :
  0 < b -> (n - 1) * b < h <= n * b -> ceil_div h b = n.
Proof.
  intros Hb Hn. pose proof (ceil_div_bounds h b Hb). nia.
Qed.

Lemma ceil_div_pos h b : 0 < b -> 0 < h -> 0 < ceil_div h b.
Proof. intros Hb Hh. pose proof (ceil_div_bounds h b Hb). nia. Qed.


Lemma tile_eq_min h w b i :
  0 < b -> 0 <= i < ceil_div h b ->
  tile h w b (ceil_div h b) i = ((Z.min b (h - i * b), w), (i * b, 0)).
Proof.
  intros Hb Hi. pose proof (ceil_div_bounds h b Hb) as Hc.
  unfold tile. case_decide as Hlast.
  - subst i. repeat f_equal. lia.
  - repeat f_equal. nia.
Qed.

Lemma tiles_lookup h w b i :
  0 < b -> 0 <= i < ceil_div h b ->
  (tile h w b (ceil_div h b) <$> xrange (ceil_div h b)) !! Z.to_nat i
  = Some ((Z.min b (h - i * b), w), (i * b, 0)).
Proof.
  intros Hb Hi. rewrite list_lookup_fmap. unfold xrange.
  rewrite lookup_seqZ_lt by lia. simpl.
  rewrite Z2Nat.id, Z.add_0_l by lia. by rewrite tile_eq_min.
Qed.


End blocking_facts.

(** ** The runtime: numbers, text and dates

    Floating-point arithmetic, [str.format] and [datetime.strptime] belong
    to the interpreter and its libraries; the readers only move their
    results around.  They are the operations of a class, and the theorems
    hold for every instance of it. *)

Class Runtime := {
  float : Type;                  (* a float64 value *)
  nan : float;                   (* np.NaN *)
  float32 : float -> float;      (* rounding to a float32 array element *)
  isnan : float -> bool;         (* np.isnan *)
  ltz : float -> bool;           (* x < 0 *)
  of_int : Z -> float;           (* float(n) *)
  to_int : float -> Z;           (* astype('int') *)
  hypot2 : float -> float -> float;   (* np.sqrt(z**2 + m**2) *)
  absdiff : float -> float -> float;  (* |a - b| *)
  str_format : string -> Z -> result string;   (* template.format(n) *)
  datetime : Type;
  strptime : string -> string -> result datetime;
  tm_yday : datetime -> Z;
  tm_mon : datetime -> Z;
}.

(** ** numpy arrays and Python sequences *)

Module np.

Abbreviation array2 A := (list (list A)).
Abbreviation array3 A := (list (list (list A))).

(** An index of a slice, brought into [0, len]. *)
Definition clip (len i : Z) : Z :=
  if decide (i < 0) then Z.max 0 (i + len) else Z.min i len.

(** [l[start:stop]] *)
Definition slice {A} (l : list A) (sl : Z * Z) : list A :=
  let n := Z.of_nat (length l) in
  let a := clip n sl.1 in
  let b := clip n sl.2 in
  take (Z.to_nat (b - a)) (drop (Z.to_nat a) l).

(** [n] consecutive rows of [w] elements. *)
Fixpoint rows {A} (n w : nat) (l : list A) : array2 A :=
  match n with
  | O => []
  | S n' => take w l :: rows n' w (drop w l)
  end.

(** [a.reshape(size)] of a flat array; one dimension may be [-1]. *)
Definition reshape {A} (l : list A) (size : Z * Z) : result (array2 A) :=
  let len := Z.of_nat (length l) in
  let '(ysize, xsize) := size in
  if decide (0 <= ysize /\ 0 <= xsize) then
    if decide (len = ysize * xsize)
    then Ok (rows (Z.to_nat ysize) (Z.to_nat xsize) l)
    else Raise ValueError
  else if decide (ysize = -1 /\ 0 < xsize /\ len `mod` xsize = 0) then
    Ok (rows (Z.to_nat (len `div` xsize)) (Z.to_nat xsize) l)
  else if decide (xsize = -1 /\ 0 < ysize /\ len `mod` ysize = 0) then
    Ok (rows (Z.to_nat ysize) (Z.to_nat (len `div` ysize)) l)
  else Raise ValueError.

(** [np.zeros(shape) + v]; a negative dimension raises. *)
Definition full2 {A} (size : Z * Z) (v : A) : result (array2 A) :=
  if decide (0 <= size.1 /\ 0 <= size.2)
  then Ok (replicate (Z.to_nat size.1) (replicate (Z.to_nat size.2) v))
  else Raise ValueError.

Definition full3 {A} (ysize xsize nbands : Z) (v : A) : result (array3 A) :=
  if decide (0 <= ysize /\ 0 <= xsize /\ 0 <= nbands)
  then Ok (replicate (Z.to_nat ysize)
             (replicate (Z.to_nat xsize) (replicate (Z.to_nat nbands) v)))
  else Raise ValueError.

(** [arr[:,:,iband] = plane], for a plane of the shape of the two
    leading axes of [arr]. *)
Definition set_band {A} (arr : array3 A) (iband : nat) (plane : array2 A) : array3 A :=
  zip_with (zip_with (fun px v => <[iband := v]> px)) arr plane.

(** [arr[:,:,iband] = v] *)
Definition fill_band {A} (arr : array3 A) (iband : nat) (v : A) : array3 A :=
  (fun row : list (list A) => (fun px : list A => <[iband := v]> px) <$> row) <$> arr.

(** [arr[:,:,iband]]; an axis too short raises. *)
Definition get_band {A} (arr : array3 A) (iband : nat) : result (array2 A) :=
  mapR (mapR (fun px : list A =>
                match px !! iband with Some v => Ok v | None => Raise IndexError end)) arr.

(** [l[i]] with an integer index: negative indices count from the end. *)
Definition index {A} (l : list A) (i : Z) : result A :=
  let n := Z.of_nat (length l) in
  let j := if decide (i < 0) then i + n else i in
  if decide (0 <= j) then
    match l !! Z.to_nat j with Some a => Ok a | None => Raise IndexError end
  else Raise IndexError.

(** [l[di]] with an array of indices: the array of the [l[di[y,x]]]. *)
Definition take_ {A} (l : list A) (di : array2 Z) : result (array2 A) :=
  mapR (mapR (index l)) di.

Definition map2 {A B} (f : A -> B) (a : array2 A) : array2 B :=
  (fun row : list A => f <$> row) <$> a.

Definition zip2 {A B C} (f : A -> B -> C) (a : array2 A) (b : array2 B) : array2 C :=
  zip_with (zip_with f) a b.

(** Element [(y, x)] and element [(y, x, i)]. *)
Definition at2 {A} (a : array2 A) (y x : nat) : option A :=
  a !! y ≫= fun row => row !! x.

Definition at3 {A} (a : array3 A) (y x i : nat) : option A :=
  a !! y ≫= fun row => row !! x ≫= fun px => px !! i.

(** The array has [ysize] rows of [xsize] elements. *)
Definition shape2 {A} (a : array2 A) (ysize xsize : Z) : Prop :=
  Z.of_nat (length a) = ysize /\ Forall (fun row => Z.of_nat (length row) = xsize) a.

Definition shape3 {A} (a : array3 A) (ysize xsize nbands : Z) : Prop :=
  Z.of_nat (length a) = ysize /\
  Forall (fun row => Z.of_nat (length row) = xsize /\
                     Forall (fun px => Z.of_nat (length px) = nbands) row) a.

End np.

(** [enumerate(l)] *)
Definition enumerate {A} (l : list A) : list (Z * A) :=
  imap (fun i a => (Z.of_nat i, a)) l.

(** [dict(pairs)]: a later pair overrides an earlier one with its key. *)
Definition dict `{Countable K} {V} (pairs : list (K * V)) : gmap K V :=
  fold_left (fun m p => <[p.1 := p.2]> m) pairs ∅.

(** [d[k]] *)
Definition getitem `{Countable K} {V} (d : gmap K V) (k : K) (err : pykey) : result V :=
  match d !! k with Some v => Ok v | None => Raise (KeyError err) end.

Definition of_bool (b : bool) : Z := if b then 1 else 0.

(** ** Blocks, tables and data frames *)

Module data.
Section data.
Context `{Runtime}.

(** The day of the year: one per pixel, or one for the scene. *)
Inductive jday_t :=
| jday_pixels (a : list (list Z))
| jday_scene (d : Z).

(** An object of class [Block] after [Block(offset=, size=, bands=)] and
  the attribute assignments of a reader; an attribute that was not
  assigned is [None]. *)
Record Block := {
offset : Z * Z;
size : Z * Z;
bands : list Z;
latitude : option (list (list float));
longitude : option (list (list float));
sza : option (list (list float));
vza : option (list (list float));
_raa : option (list (list float));
saa : option (list (list float));
vaa : option (list (list float));
Rtoa : option (list (list (list float)));
Ltoa : option (list (list (list float)));
F0 : option (list (list (list float)));
wavelen : option (list (list (list float)));
jday : option jday_t;
month : option (list (list Z));
bitmask : option (list (list Z));
ozone : option (list (list float));
wind_speed : option (list (list float));
surf_press : option (list (list float));
}.

(** Modelled from the spec: the property [raa] of class [Block]
  ([block.py] is not part of the sources): the relative azimuth is
  used directly if provided, otherwise derived as the absolute
  difference between sun and view azimuth. *)
Definition raa (_raa saa vaa : option (list (list float))) : result (list (list float)) :=
match _raa with
| Some a => Ok a
| None =>
    match saa, vaa with
    | Some s, Some v => Ok (np.zip2 absdiff s v)
    | _, _ => Raise (Exception "raa")
    end
end.

(** A structured array read by [np.genfromtxt(path, names=True)]: one
  column of numbers per field name. *)
Definition getfield (t : gmap string (list float)) (name : string) : result (list float) :=
match t !! name with Some c => Ok c | None => Raise ValueError end.

(** A column of a [pandas.DataFrame]: numbers (float64) or text. *)
Inductive Column :=
| NumCol (l : list float)
| ObjCol (l : list string).

Definition column_length (c : Column) : Z :=
match c with NumCol l => Z.of_nat (length l) | ObjCol l => Z.of_nat (length l) end.

Record DataFrame := {
nrows : Z;                       (* shape[0] *)
columns : gmap string Column;
}.

(** The numbers of a column.  The columns that go into a block are
  numeric in the extraction files; a text column in their place is
  refused with the error of a failed conversion. *)
Definition values (c : Column) : result (list float) :=
match c with NumCol l => Ok l | ObjCol _ => Raise ValueError end.

(** The flags of [common.L2FLAGS] that the readers use ([common.py] is
  not part of the sources; the values are parameters). *)
Record L2FLAGS_t := {
LAND : Z;
L1_INVALID : Z;
}.

(** Addition and multiplication on [uint16]. *)
Definition uint16 (z : Z) : Z := z `mod` 2 ^ 16.

(** [flag*mask.astype('uint16')] *)
Definition flag_mask (flag : Z) (mask : list (list bool)) : list (list Z) :=
  np.map2 (fun b => uint16 (flag * of_bool b)) mask.

(** [bitmask += flag*mask] on a [uint16] bitmask. *)
Definition add_flag (flag : Z) (bitmask : list (list Z)) (mask : list (list bool))
    : list (list Z) :=
  np.zip2 (fun m v => uint16 (m + v)) bitmask (flag_mask flag mask).

(** An ENVISAT product opened with [epr.Product] (the library is not part
    of the sources): the scene, the value of each band dataset at a
    (row, column) of the scene, the value of each flag expression there,
    and the start of sensing in the main product header.  Band datasets
    are read as floating-point numbers. *)
Record Product := {
  get_scene_width : Z;
  get_scene_height : Z;
  get_band : string -> option (Z -> Z -> float);
  bitmask_expr : string -> Z -> Z -> bool;
  SENSING_START : string;
}.

(** [band.read_as_array(xoffset, yoffset, width, height)]: the window
    must be non-empty and inside the scene. *)
Definition read_as_array (band : Z -> Z -> float) (scene : Z * Z)
    (xoffset yoffset width height : Z) : result (list (list float)) :=
  if decide (0 <= xoffset /\ 0 <= yoffset /\ 0 < width /\ 0 < height /\
             xoffset + width <= scene.2 /\ yoffset + height <= scene.1)
  then Ok ((fun y => (fun x => band (yoffset + y) (xoffset + x)) <$> seqZ 0 width)
             <$> seqZ 0 height)
  else Raise ValueError.

(** [epr.create_bitmask_raster(width, height)] followed by
    [prod.read_bitmask_raster(bmexpr, xoffset, yoffset, raster)]: the
    data of the raster, one truth value per pixel. *)
Definition read_bitmask_raster (expr : Z -> Z -> bool) (scene : Z * Z)
    (xoffset yoffset width height : Z) : result (list (list bool)) :=
  if decide (0 <= xoffset /\ 0 <= yoffset /\ 0 < width /\ 0 < height /\
             xoffset + width <= scene.2 /\ yoffset + height <= scene.1)
  then Ok ((fun y => (fun x => expr (yoffset + y) (xoffset + x)) <$> seqZ 0 width)
             <$> seqZ 0 height)
  else Raise ValueError.

End data.
End data.
Import data.

(** The files and the working directory, as the constructor sees them. *)
Record World `{Runtime} := {
  getcwd : string;
  genfromtxt : string -> result (gmap string (list float));
  epr_Product : string -> result Product;
  read_csv : string -> string -> list string -> result DataFrame;
}.

(** What a constructor has read. *)
Inductive event :=
  | ReadTable (path : string)
  | OpenProduct (filename : string)
  | ReadCsv (filename sep : string) (usecols : list string).

(** Computations that read files: the events are appended to a log. *)
Definition IO (A : Type) : Type := list event -> result A * list event.

#[global] Instance IO_ret : MRet IO := fun A a log => (Ok a, log).
#[global] Instance IO_bind : MBind IO := fun A B f m log =>
  match m log with
  | (Ok a, log') => f a log'
  | (Raise e, log') => (Raise e, log')
  end.

Definition pure {A} (r : result A) : IO A := fun log => (r, log).
Definition perform {A} (e : event) (r : result A) : IO A := fun log => (r, log ++ [e]).

(** [os.path.join(a, b)] *)
Fixpoint ends_with_slash (s : string) : bool :=
  match s with
  | EmptyString => false
  | String c EmptyString => bool_decide (c = "/"%char)
  | String _ s' => ends_with_slash s'
  end.

Definition join (a b : string) : string :=
  match b with
  | String "/" _ => b
  | _ => if decide (a = EmptyString) then b
         else if ends_with_slash a then a +:+ b
         else a +:+ "/" +:+ b
  end.

(** Loops over [enumerate(bands)] that assign one band slice per turn. *)
Fixpoint assign_bands {A} (plane_of : Z -> result (list (list A)))
    (arr : list (list (list A))) (iband : nat) (bands : list Z)
    : result (list (list (list A))) :=
  match bands with
  | [] => Ok arr
  | band :: rest =>
      plane ← plane_of band;
      assign_bands plane_of (np.set_band arr iband plane) (S iband) rest
  end.

Fixpoint assign_scalars {A} (value_of : Z -> A)
    (arr : list (list (list A))) (iband : nat) (bands : list Z)
    : list (list (list A)) :=
  match bands with
  | [] => arr
  | band :: rest =>
      assign_scalars value_of (np.fill_band arr iband (value_of band)) (S iband) rest
  end.

(** [arr[:,:,iband]] of an array whose last axis has length [nbands]. *)
Definition band_slice {A} (arr : list (list (list A))) (nbands : Z) (iband : nat)
    : result (list (list A)) :=
  if decide (Z.of_nat iband < nbands) then np.get_band arr iband
  else Raise IndexError.

(** ** The reader of ASCII extractions: class [Level1_ASCII] *)

Module Level1_ASCII.

Definition BANDS_MODIS : list Z :=
  [412;443;469;488;531;547;555;645;667;678;748;858;869;1240].
Definition BANDS_SEAWIFS : list Z := [412;443;490;510;555;670;765;865].
Definition BANDS_VIIRS : list Z := [410;443;486;551;671;745;862;1238;1601;2257].

Definition headers_default : gmap string string :=
  dict [("TOA", "TOAR_{:02d}");
        ("LAT", "LAT");
        ("LON", "LON");
        ("DATETIME", "TIME");
        ("DETECTOR_INDEX", "DETECTOR");
        ("OZONE", "OZONE_ECMWF");
        ("WIND", "WINDM");
        ("SURFACE_PRESSURE", "PRESS_ECMWF");
        ("SZA", "SUN_ZENITH");
        ("VZA", "VIEW_ZENITH");
        ("RAA", "DELTA_AZIMUTH")]%string.

(** [sensor in ['MERIS', 'MERIS_RR', 'MERIS_FR']] *)
Definition is_meris (sensor : option string) : bool :=
  bool_decide (sensor ∈ [Some "MERIS"; Some "MERIS_RR"; Some "MERIS_FR"]%string).

(** The arguments of the constructor. *)
Module kw.
Record t := {
  filename : string;
  square : Z;
  blocksize : Z;
  additional_headers : list string;
  dir_smile : option string;
  sensor : option string;
  BANDS : option (list Z);
  TOAR : string;
  headers : gmap string string;
  relative_azimuth : bool;
  wind_module : bool;
  datetime_fmt : string;
  verbose : bool;
  sep : string;
}.

Definition defaults (filename : string) : t :=
  {| filename := filename; square := 1; blocksize := 100;
     additional_headers := []; dir_smile := None;
     sensor := None; BANDS := None; TOAR := "radiance";
     headers := headers_default;
     relative_azimuth := true; wind_module := true;
     datetime_fmt := "%Y%m%dT%H%M%SZ"; verbose := true; sep := ";" |}%string.
End kw.

Section reader.
Context `{Runtime}.

(** [BANDS_MERIS] is imported from [level1_meris], whose source does
    not define it: a parameter. *)
Variable BANDS_MERIS : list Z.
Variable L2FLAGS : L2FLAGS_t.

Record Source := {
  sensor : option string;
  filename : string;
  TOAR : string;
  headers : gmap string string;
  relative_azimuth : bool;
  wind_module : bool;
  verbose : bool;
  band_names : gmap Z string;
  F0 : option (gmap string (list float));
  detector_wavelength : option (gmap string (list float));
  F0_band_names : option (gmap Z string);
  wav_band_names : option (gmap Z string);
  csv : DataFrame;
  height : Z;
  width : Z;
  shape : Z * Z;
  blocksize : Z;
  dates : list datetime;
}.

Definition default_bands : gmap string (list Z) :=
  dict [("MERIS", BANDS_MERIS);
        ("MERIS_RR", BANDS_MERIS);
        ("MERIS_FR", BANDS_MERIS);
        ("SeaWiFS", BANDS_SEAWIFS);
        ("MODIS", BANDS_MODIS);
        ("VIIRS", BANDS_VIIRS)]%string.

(** [dict(map(lambda (i,b): (b, template.format(i+shift)), enumerate(BANDS)))] *)
Definition names_of_bands (template : result string) (shift : Z) (BANDS : list Z)
    : result (gmap Z string) :=
  pairs ← mapR (fun ib : Z * Z =>
                  t ← template;
                  n ← str_format t (ib.1 + shift);
                  Ok (ib.2, n)) (enumerate BANDS);
  Ok (dict pairs).

Definition header (headers : gmap string string) (c : string) : result string :=
  getitem headers c (KStr c).

(** The list [columns] handed to [read_csv] as [usecols]. *)
Definition assemble_columns (a : kw.t) (band_names : gmap Z string)
    : result (list string) :=
  c1 ← mapR (header (kw.headers a))
        ["LAT"; "LON"; "DATETIME"; "OZONE"; "SURFACE_PRESSURE"; "SZA"; "VZA"]%string;
  c2 ← (if kw.relative_azimuth a then
          r ← header (kw.headers a) "RAA"; Ok [r]
        else
          s ← header (kw.headers a) "SAA";
          v ← header (kw.headers a) "VAA"; Ok [s; v]);
  c3 ← (if kw.wind_module a then
          w ← header (kw.headers a) "WIND"; Ok [w]
        else
          z ← header (kw.headers a) "ZONAL_WIND";
          m ← header (kw.headers a) "MERID_WIND"; Ok [z; m]);
  c4 ← (if is_meris (kw.sensor a) then
          d ← header (kw.headers a) "DETECTOR_INDEX"; Ok [d]
        else Ok []);
  Ok (c1 ++ c2 ++ c3 ++ c4 ++ kw.additional_headers a
         ++ (map_to_list band_names).*2).

(** The calibration tables and the names of their fields, for the
    sensors of the MERIS family. *)
Definition load_smile (w : World) (a : kw.t) (BANDS : list Z)
    : IO (option (gmap string (list float)) * option (gmap string (list float))
          * option (gmap Z string) * option (gmap Z string)) :=
  if is_meris (kw.sensor a) then
    let dir_smile :=
      match kw.dir_smile a with
      | None => join (getcwd w) "auxdata/meris/smile/v2/"
      | Some d => d
      end in
    let '(flux, wavelen) :=
      if decide (kw.sensor a = Some "MERIS_FR"%string)
      then ("sun_spectral_flux_fr.txt", "central_wavelen_fr.txt")%string
      else ("sun_spectral_flux_rr.txt", "central_wavelen_rr.txt")%string in
    F0 ← perform (ReadTable (join dir_smile flux)) (genfromtxt w (join dir_smile flux));
    detector_wavelength ←
      perform (ReadTable (join dir_smile wavelen)) (genfromtxt w (join dir_smile wavelen));
    F0_band_names ← pure (names_of_bands (Ok "E0_band{:d}"%string) 0 BANDS);
    wav_band_names ← pure (names_of_bands (Ok "lam_band{:d}"%string) 0 BANDS);
    mret (Some F0, Some detector_wavelength, Some F0_band_names, Some wav_band_names)
  else mret (None, None, None, None).

(** [assert nrows % square == 0] *)
Definition check_square (nrows square : Z) : result unit :=
  if decide (square = 0) then Raise ZeroDivisionError
  else if decide (nrows `mod` square = 0) then Ok tt
  else Raise AssertionError.

(** [map(lambda x: datetime.strptime(x, datetime_fmt), csv[headers['DATETIME']])] *)
Definition parse_dates (a : kw.t) (csv : DataFrame) : result (list datetime) :=
  cname ← header (kw.headers a) "DATETIME";
  col ← getitem (columns csv) cname (KStr cname);
  match col with
  | ObjCol l => mapR (fun x => strptime x (kw.datetime_fmt a)) l
  | NumCol [] => Ok []
  | NumCol (_ :: _) => Raise TypeError
  end.

(** [if BANDS is None: BANDS = {...}[sensor]] *)
Definition resolve_bands (a : kw.t) : result (list Z) :=
  match kw.BANDS a with
  | Some B => Ok B
  | None =>
      match kw.sensor a with
      | Some s => getitem default_bands s (KStr s)
      | None => Raise (KeyError KNone)
      end
  end.

(** The constructor.  Its messages on the standard output are left
    out. *)
Definition __init__ (w : World) (a : kw.t) : IO Source :=
  BANDS ← pure (resolve_bands a);
  band_names ← pure (names_of_bands (header (kw.headers a) "TOA") 1 BANDS);
  smile ← load_smile w a BANDS;
  columns ← pure (assemble_columns a band_names);
  csv ← perform (ReadCsv (kw.filename a) (kw.sep a) columns)
                (read_csv w (kw.filename a) (kw.sep a) columns);
  let nrows := nrows csv in
  _ ← pure (check_square nrows (kw.square a));
  let height := nrows `div` kw.square a in
  let width := kw.square a in
  dates ← pure (parse_dates a csv);
  mret {| sensor := kw.sensor a;
          filename := kw.filename a;
          TOAR := kw.TOAR a;
          headers := kw.headers a;
          relative_azimuth := kw.relative_azimuth a;
          wind_module := kw.wind_module a;
          verbose := kw.verbose a;
          band_names := band_names;
          F0 := smile.1.1.1;
          detector_wavelength := smile.1.1.2;
          F0_band_names := smile.1.2;
          wav_band_names := smile.2;
          csv := csv;
          height := height;
          width := width;
          shape := (height, width);
          blocksize := kw.blocksize a;
          dates := dates |}.

(** [self.csv[cname][sl].reshape(size)] *)
Definition csv_block (s : Source) (cname : string) (sl size : Z * Z)
    : result (list (list float)) :=
  col ← getitem (columns (csv s)) cname (KStr cname);
  v ← values col;
  np.reshape (np.slice v sl) size.

Definition get_field (s : Source) (fname : string) (sl size : Z * Z)
    : result (list (list float)) :=
  cname ← header (headers s) fname;
  a ← csv_block s cname sl size;
  Ok (np.map2 float32 a).

(** An attribute that only the MERIS branch of the constructor sets. *)
Definition attr {A} (o : option A) : result A :=
  match o with Some a => Ok a | None => Raise AttributeError end.

(** [table[names[band]][di]] *)
Definition lookup_table (table : gmap string (list float)) (names : gmap Z string)
    (di : list (list Z)) (band : Z) : result (list (list float)) :=
  name ← getitem names band (KInt band);
  column ← getfield table name;
  np.take_ column di.

(** [self.csv[self.headers['DETECTOR_INDEX']][sl].reshape(size).astype('int')] *)
Definition detector_index (s : Source) (sl size : Z * Z) : result (list (list Z)) :=
  cname ← header (headers s) "DETECTOR_INDEX";
  d ← csv_block s cname sl size;
  Ok (np.map2 to_int d).

(** The bodies of the loops over the bands: the plane that goes into the
    slice of a band. *)
Definition TOA_band (s : Source) (sl size : Z * Z) (band : Z)
    : result (list (list float)) :=
  name ← getitem (band_names s) band (KInt band);
  csv_block s name sl size.

Definition wavelen_band (table : gmap string (list float)) (names : gmap Z string)
    (di : list (list Z)) (band : Z) : result (list (list float)) :=
  a ← lookup_table table names di band;
  Ok (np.map2 float32 a).

Definition read_block (s : Source) (size offset : Z * Z) (bands : list Z)
    : result Block :=
  let '(ysize, xsize) := size in
  let nbands := Z.of_nat (length bands) in
  let sl := (offset.1 * xsize, (offset.1 + ysize) * xsize) in
  wavelen0 ← np.full3 ysize xsize nbands (float32 nan);
  (* coordinates *)
  latitude ← get_field s "LAT" sl size;
  longitude ← get_field s "LON" sl size;
  (* geometry *)
  sza ← get_field s "SZA" sl size;
  vza ← get_field s "VZA" sl size;
  az ← (if relative_azimuth s then
          r ← get_field s "RAA" sl size; Ok (Some r, None, None)
        else
          sa ← get_field s "SAA" sl size;
          va ← get_field s "VAA" sl size; Ok (None, Some sa, Some va));
  let '(_raa, saa, vaa) := az in
  (* TOA *)
  TOA0 ← np.full3 ysize xsize nbands nan;
  TOA ← assign_bands (TOA_band s sl size) TOA0 0 bands;
  toa ← (if decide (TOAR s = "reflectance"%string) then Ok (Some TOA, None)
         else if decide (TOAR s = "radiance"%string) then Ok (None, Some TOA)
         else Raise (Exception "Invalid TOAR type"));
  let '(Rtoa, Ltoa) := toa in
  (* detector index, solar flux, wavelength *)
  cal ← (if is_meris (sensor s) then
           di ← detector_index s sl size;
           F00 ← np.full3 ysize xsize nbands nan;
           tF0 ← attr (F0 s);
           nF0 ← attr (F0_band_names s);
           F0 ← assign_bands (lookup_table tF0 nF0 di) F00 0 bands;
           wavelen1 ← np.full3 ysize xsize nbands (float32 nan);
           twav ← attr (detector_wavelength s);
           nwav ← attr (wav_band_names s);
           wavelen ← assign_bands (wavelen_band twav nwav di) wavelen1 0 bands;
           Ok (Some F0, wavelen)
         else
           Ok (None, assign_scalars (fun band => float32 (of_int band))
                       wavelen0 0 bands));
  let '(F0, wavelen) := cal in
  (* dates *)
  jday ← np.reshape (tm_yday <$> np.slice (dates s) sl) size;
  month ← np.reshape (tm_mon <$> np.slice (dates s) sl) size;
  (* bitmask *)
  bitmask0 ← np.full2 size 0;
  r ← raa _raa saa vaa;
  let invalid := np.map2 isnan r in
  toa0 ← band_slice TOA nbands 0;
  let invalid := np.zip2 orb invalid (np.map2 ltz toa0) in
  let bitmask := add_flag (L1_INVALID L2FLAGS) bitmask0 invalid in
  (* ozone *)
  cname ← header (headers s) "OZONE";
  ozone ← csv_block s cname sl size;
  (* wind speed *)
  wind_speed ← (if wind_module s then
                  cname ← header (headers s) "WIND";
                  csv_block s cname sl size
                else
                  cname ← header (headers s) "ZONAL_WIND";
                  zwind ← csv_block s cname sl size;
                  cname ← header (headers s) "MERID_WIND";
                  mwind ← csv_block s cname sl size;
                  Ok (np.zip2 hypot2 zwind mwind));
  (* surface pressure *)
  cname ← header (headers s) "SURFACE_PRESSURE";
  surf_press ← csv_block s cname sl size;
  Ok {| offset := offset; size := size; bands := bands;
        latitude := Some latitude; longitude := Some longitude;
        sza := Some sza; vza := Some vza;
        data._raa := _raa; data.saa := saa; data.vaa := vaa;
        data.Rtoa := Rtoa; data.Ltoa := Ltoa;
        data.F0 := F0; data.wavelen := Some wavelen;
        data.jday := Some (jday_pixels jday); data.month := Some month;
        data.bitmask := Some bitmask;
        data.ozone := Some ozone; data.wind_speed := Some wind_speed;
        data.surf_press := Some surf_press |}.

Definition blocks (s : Source) (bands_read : list Z) : Blocking.gen Block :=
  Blocking.blocks (read_block s) (height s) (width s) (blocksize s) bands_read.

End reader.
End Level1_ASCII.

(** ** The partition into blocks *)

Section blocking_theorems.
Import Blocking.



End blocking_theorems.

(** ** The reader of MERIS products: class [Level1_MERIS] *)

(** [s.replace(old, new)] for a non-empty [old]. *)
Fixpoint replace_from (old new : string) (skip : nat) (s : string) : string :=
  match s with
  | EmptyString => EmptyString
  | String c s' =>
      match skip with
      | S k => replace_from old new k s'
      | O =>
          if String.prefix old s
          then new +:+ replace_from old new (String.length old - 1) s'
          else String c (replace_from old new 0 s')
      end
  end.

Definition replace (old new s : string) : string := replace_from old new 0 s.

Module Level1_MERIS.
Section reader.
Context `{Runtime}.
Variable L2FLAGS : L2FLAGS_t.

Record Source := {
  sensor : string;
  filename : string;
  prod : Product;
  width : Z;
  totalheight : Z;
  blocksize : Z;
  sline : Z;
  eline : Z;
  height : Z;
  shape : Z * Z;
  band_names : gmap Z string;
  F0 : gmap string (list float);
  F0_band_names : gmap Z string;
  wav_band_names : gmap Z string;
  detector_wavelength : gmap string (list float);
  date : datetime;
}.

Definition band_names_const : gmap Z string :=
  dict [(412, "Radiance_1"); (443, "Radiance_2");
        (490, "Radiance_3"); (510, "Radiance_4");
        (560, "Radiance_5"); (620, "Radiance_6");
        (665, "Radiance_7"); (681, "Radiance_8");
        (709, "Radiance_9"); (754, "Radiance_10");
        (760, "Radiance_11"); (779, "Radiance_12");
        (865, "Radiance_13"); (885, "Radiance_14");
        (900, "Radiance_15")]%string.

Definition F0_band_names_const : gmap Z string :=
  dict [(412, "E0_band0"); (443, "E0_band1");
        (490, "E0_band2"); (510, "E0_band3");
        (560, "E0_band4"); (620, "E0_band5");
        (665, "E0_band6"); (681, "E0_band7");
        (709, "E0_band8"); (754, "E0_band9");
        (760, "E0_band10"); (779, "E0_band11");
        (865, "E0_band12"); (885, "E0_band13");
        (900, "E0_band14")]%string.

Definition wav_band_names_const : gmap Z string :=
  dict [(412, "lam_band0"); (443, "lam_band1");
        (490, "lam_band2"); (510, "lam_band3");
        (560, "lam_band4"); (620, "lam_band5");
        (665, "lam_band6"); (681, "lam_band7");
        (709, "lam_band8"); (754, "lam_band9");
        (760, "lam_band10"); (779, "lam_band11");
        (865, "lam_band12"); (885, "lam_band13");
        (900, "lam_band14")]%string.

Definition months : list (string * string) :=
  [("-JAN-", "-01-"); ("-FEB-", "-02-"); ("-MAR-", "-03-"); ("-APR-", "-04-");
   ("-MAY-", "-05-"); ("-JUN-", "-06-"); ("-JUL-", "-07-"); ("-AUG-", "-08-");
   ("-SEP-", "-09-"); ("-OCT-", "-10-"); ("-NOV-", "-11-"); ("-DEC-", "-12-")]%string.

(** The number of lines of the area of interest. *)
Definition active_height (totalheight sline eline : Z) : Z :=
  if decide (eline < 0) then totalheight - sline + (eline + 1)
  else eline - sline.

Definition smile_dir : string := "/home/francois/MERIS/POLYMER/auxdata/meris/smile/v2/".

(** The constructor.  Its message on the standard output is left out. *)
Definition __init__ (w : World) (filename : string) (sline eline blocksize : Z)
    : IO Source :=
  prod ← perform (OpenProduct filename) (epr_Product w filename);
  let width := get_scene_width prod in
  let totalheight := get_scene_height prod in
  let height := active_height totalheight sline eline in
  F0 ← perform (ReadTable (smile_dir +:+ "sun_spectral_flux_rr.txt"))
               (genfromtxt w (smile_dir +:+ "sun_spectral_flux_rr.txt"));
  detector_wavelength ←
    perform (ReadTable (smile_dir +:+ "central_wavelen_rr.txt"))
            (genfromtxt w (smile_dir +:+ "central_wavelen_rr.txt"));
  let dat := fold_left (fun d m => replace m.1 m.2 d) months (SENSING_START prod) in
  date ← pure (strptime dat "%d-%m-%Y %H:%M:%S.%f");
  mret {| sensor := "MERIS";
          filename := filename;
          prod := prod;
          width := width;
          totalheight := totalheight;
          blocksize := blocksize;
          sline := sline;
          eline := eline;
          height := height;
          shape := (height, width);
          band_names := band_names_const;
          F0 := F0;
          F0_band_names := F0_band_names_const;
          wav_band_names := wav_band_names_const;
          detector_wavelength := detector_wavelength;
          date := date |}.

Definition scene (s : Source) : Z * Z :=
  (get_scene_height (prod s), get_scene_width (prod s)).

(** [offset]: within the area of interest. *)
Definition read_band (s : Source) (band_name : string) (size offset : Z * Z)
    : result (list (list float)) :=
  let '(ysize, xsize) := size in
  let '(yoffset, xoffset) := offset in
  match get_band (prod s) band_name with
  | None => Raise ValueError
  | Some band => read_as_array band (scene s) xoffset (yoffset + sline s) xsize ysize
  end.

Definition read_bitmask (s : Source) (size offset : Z * Z) (bmexpr : string)
    : result (list (list bool)) :=
  let '(ysize, xsize) := size in
  let '(yoffset, xoffset) := offset in
  read_bitmask_raster (bitmask_expr (prod s) bmexpr) (scene s)
    xoffset (yoffset + sline s) xsize ysize.

(** [table[names[band]][di]] *)
Definition lookup_table (table : gmap string (list float)) (names : gmap Z string)
    (di : list (list Z)) (band : Z) : result (list (list float)) :=
  name ← getitem names band (KInt band);
  column ← getfield table name;
  np.take_ column di.

(** [self.read_band('detector_index', size, offset)], as indices. *)
Definition detector_index (s : Source) (size offset : Z * Z) : result (list (list Z)) :=
  d ← read_band s "detector_index" size offset;
  Ok (np.map2 to_int d).

(** The bodies of the loops over the bands. *)
Definition wavelen_band (table : gmap string (list float)) (names : gmap Z string)
    (di : list (list Z)) (band : Z) : result (list (list float)) :=
  a ← lookup_table table names di band;
  Ok (np.map2 float32 a).

Definition Ltoa_band (s : Source) (size offset : Z * Z) (band : Z)
    : result (list (list float)) :=
  name ← getitem (band_names s) band (KInt band);
  read_band s name size offset.

Definition read_block (s : Source) (size offset : Z * Z) (bands : list Z)
    : result Block :=
  let '(ysize, xsize) := size in
  let nbands := Z.of_nat (length bands) in
  latitude ← read_band s "latitude" size offset;
  longitude ← read_band s "longitude" size offset;
  (* geometry *)
  sza ← read_band s "sun_zenith" size offset;
  vza ← read_band s "view_zenith" size offset;
  saa ← read_band s "sun_azimuth" size offset;
  vaa ← read_band s "view_azimuth" size offset;
  (* detector index *)
  di ← detector_index s size offset;
  (* F0 for each band *)
  F00 ← np.full3 ysize xsize nbands nan;
  F0 ← assign_bands (lookup_table (F0 s) (F0_band_names s) di) F00 0 bands;
  (* detector wavelength for each band *)
  wavelen0 ← np.full3 ysize xsize nbands (float32 nan);
  wavelen ← assign_bands (wavelen_band (detector_wavelength s) (wav_band_names s) di)
               wavelen0 0 bands;
  (* TOA *)
  Ltoa0 ← np.full3 ysize xsize nbands nan;
  Ltoa ← assign_bands (Ltoa_band s size offset) Ltoa0 0 bands;
  (* wind speed (zonal and meridional) *)
  zwind ← read_band s "zonal_wind" size offset;
  mwind ← read_band s "merid_wind" size offset;
  let wind_speed := np.zip2 hypot2 zwind mwind in
  (* ozone *)
  ozone ← read_band s "ozone" size offset;
  (* surface pressure *)
  surf_press ← read_band s "atm_press" size offset;
  (* julian day *)
  let jday := tm_yday (date s) in
  (* bitmask *)
  land ← read_bitmask s size offset "l1_flags.LAND_OCEAN";
  let bitmask0 := flag_mask (LAND L2FLAGS) land in
  invalid ← read_bitmask s size offset
              "(l1_flags.INVALID) OR (l1_flags.SUSPECT) OR (l1_flags.COSMETIC)";
  let bitmask := add_flag (L1_INVALID L2FLAGS) bitmask0 invalid in
  Ok {| offset := offset; size := size; bands := bands;
        latitude := Some latitude; longitude := Some longitude;
        sza := Some sza; vza := Some vza;
        data._raa := None; data.saa := Some saa; data.vaa := Some vaa;
        data.Rtoa := None; data.Ltoa := Some Ltoa;
        data.F0 := Some F0; data.wavelen := Some wavelen;
        data.jday := Some (jday_scene jday); data.month := None;
        data.bitmask := Some bitmask;
        data.ozone := Some ozone; data.wind_speed := Some wind_speed;
        data.surf_press := Some surf_press |}.

Definition blocks (s : Source) (bands_read : list Z) : Blocking.gen Block :=
  Blocking.blocks (read_block s) (height s) (width s) (blocksize s) bands_read.

End reader.
End Level1_MERIS.

(** ** The readers over a store of arrays *)

(** The readers above give the values that a block holds.  Here the same
    statements are read with the arrays as objects of a store: a statement
    makes a new array, binds a view that shares the data of another array,
    or updates an array in place.  An array lives in the store when an
    attribute of the source or of a block keeps it or when a statement
    updates it in place; an array that the statements only read and that
    no attribute keeps is a value, and so are the dictionaries and the
    dates of a source, which are only read. *)

Module Store.
Section arrays.
Context {RT : Runtime}.

(** The data of an array object. *)
Inductive ndarray :=
  | floats1 (v : list float)
  | objects1 (v : list string)
  | floats2 (a : np.array2 float)
  | floats3 (a : np.array3 float)
  | ints2 (a : np.array2 Z)
  | bools2 (a : np.array2 bool)
  | fields (t : gmap string (list float)).   (* a structured array *)

End arrays.

Abbreviation loc := nat.
Abbreviation store := (list ndarray).

Section store.
Context {RT : Runtime}.

(** Statements: they run from a store to a value or an exception, and the
    store that they leave. *)
Definition ST (A : Type) : Type := store -> result A * store.

#[global] Instance ST_ret : MRet ST := fun A a h => (Ok a, h).
#[global] Instance ST_bind : MBind ST := fun A B f m h =>
  match m h with
  | (Ok a, h') => f a h'
  | (Raise e, h') => (Raise e, h')
  end.

Definition lift {A} (r : result A) : ST A := fun h => (r, h).

(** A new array object: [np.zeros], [astype], the value of an arithmetic
    expression, an array that a library returns. *)
Definition new (a : ndarray) : ST loc := fun h => (Ok (length h), h ++ [a]).

Definition get (l : loc) : ST ndarray := fun h =>
  (match h !! l with Some a => Ok a | None => Raise (Exception "no such object") end, h).

(** The data of the object at [l] is replaced: every name and view bound
    to it sees the new data. *)
Definition put (l : loc) (a : ndarray) : ST unit := fun h => (Ok tt, <[l := a]> h).

Definition get_floats3 (l : loc) : ST (np.array3 float) :=
  a ← get l; lift (match a with floats3 v => Ok v | _ => Raise TypeError end).

Definition get_ints2 (l : loc) : ST (np.array2 Z) :=
  a ← get l; lift (match a with ints2 v => Ok v | _ => Raise TypeError end).

Definition get_bools2 (l : loc) : ST (np.array2 bool) :=
  a ← get l; lift (match a with bools2 v => Ok v | _ => Raise TypeError end).

Definition get_fields (l : loc) : ST (gmap string (list float)) :=
  a ← get l; lift (match a with fields t => Ok t | _ => Raise TypeError end).

(** What a name or an attribute is bound to, for a two-dimensional array
    of numbers: an array of the store, or the view [base[sl].reshape(size)]
    of a one-dimensional one. *)
Inductive ref :=
  | array (l : loc)
  | view (l : loc) (sl size : Z * Z).

Definition read (r : ref) : ST (np.array2 float) :=
  match r with
  | array l =>
      a ← get l; lift (match a with floats2 v => Ok v | _ => Raise TypeError end)
  | view l sl size =>
      a ← get l;
      lift (match a with
            | floats1 v => np.reshape (np.slice v sl) size
            | objects1 _ => Raise ValueError
            | _ => Raise TypeError
            end)
  end.

Definition fetch (o : option ref) : ST (option (np.array2 float)) :=
  match o with
  | None => mret None
  | Some r => a ← read r; mret (Some a)
  end.

Definition fetch3 (o : option loc) : ST (option (np.array3 float)) :=
  match o with
  | None => mret None
  | Some l => a ← get_floats3 l; mret (Some a)
  end.

Definition fetch_ints (o : option loc) : ST (option (np.array2 Z)) :=
  match o with
  | None => mret None
  | Some l => a ← get_ints2 l; mret (Some a)
  end.

(** The statements that update an array in place. *)

(** [arr[:,:,iband] = plane] *)
Definition setitem_band (arr : loc) (iband : nat) (plane : np.array2 float) : ST unit :=
  a ← get_floats3 arr; put arr (floats3 (np.set_band a iband plane)).

(** [arr[:,:,iband] = v] *)
Definition setitem_scalar (arr : loc) (iband : nat) (v : float) : ST unit :=
  a ← get_floats3 arr; put arr (floats3 (np.fill_band a iband v)).

(** [mask |= other] *)
Definition ior (mask : loc) (other : np.array2 bool) : ST unit :=
  a ← get_bools2 mask; put mask (bools2 (np.zip2 orb a other)).

(** [bitmask += flag*mask] on a [uint16] bitmask. *)
Definition iadd_flag (bitmask : loc) (flag : Z) (mask : np.array2 bool) : ST unit :=
  a ← get_ints2 bitmask; put bitmask (ints2 (add_flag flag a mask)).

(** Loops over [enumerate(bands)] that assign one band slice per turn. *)
Fixpoint fill_bands (plane_of : Z -> ST (np.array2 float))
    (arr : loc) (iband : nat) (bands : list Z) : ST unit :=
  match bands with
  | [] => mret tt
  | band :: rest =>
      plane ← plane_of band;
      setitem_band arr iband plane;;
      fill_bands plane_of arr (S iband) rest
  end.

Fixpoint fill_scalars (value_of : Z -> float)
    (arr : loc) (iband : nat) (bands : list Z) : ST unit :=
  match bands with
  | [] => mret tt
  | band :: rest =>
      setitem_scalar arr iband (value_of band);;
      fill_scalars value_of arr (S iband) rest
  end.

(** The day of the year of a block: an array of the store, or a number. *)
Inductive jday_ref :=
  | pixels_at (l : loc)
  | scene_day (d : Z).

(** An object of class [Block]: what its attributes are bound to. *)
Record Block := {
  offset : Z * Z;
  size : Z * Z;
  bands : list Z;
  latitude : option ref;
  longitude : option ref;
  sza : option ref;
  vza : option ref;
  _raa : option ref;
  saa : option ref;
  vaa : option ref;
  Rtoa : option loc;
  Ltoa : option loc;
  F0 : option loc;
  wavelen : option loc;
  jday : option jday_ref;
  month : option loc;
  bitmask : option loc;
  ozone : option ref;
  wind_speed : option ref;
  surf_press : option ref;
}.

(** The property [raa] of a block. *)
Definition raa (_raa saa vaa : option ref) : ST (np.array2 float) :=
  r ← fetch _raa;
  s ← fetch saa;
  v ← fetch vaa;
  lift (data.raa r s v).

(** The values that a block holds in a store. *)
Definition contents (b : Block) : ST data.Block :=
  latitude ← fetch (latitude b);
  longitude ← fetch (longitude b);
  sza ← fetch (sza b);
  vza ← fetch (vza b);
  _raa ← fetch (_raa b);
  saa ← fetch (saa b);
  vaa ← fetch (vaa b);
  Rtoa ← fetch3 (Rtoa b);
  Ltoa ← fetch3 (Ltoa b);
  F0 ← fetch3 (F0 b);
  wavelen ← fetch3 (wavelen b);
  jday ← match jday b with
         | None => mret None
         | Some (pixels_at l) => a ← get_ints2 l; mret (Some (data.jday_pixels a))
         | Some (scene_day d) => mret (Some (data.jday_scene d))
         end;
  month ← fetch_ints (month b);
  bitmask ← fetch_ints (bitmask b);
  ozone ← fetch (ozone b);
  wind_speed ← fetch (wind_speed b);
  surf_press ← fetch (surf_press b);
  mret {| data.offset := offset b; data.size := size b; data.bands := bands b;
          data.latitude := latitude; data.longitude := longitude;
          data.sza := sza; data.vza := vza;
          data._raa := _raa; data.saa := saa; data.vaa := vaa;
          data.Rtoa := Rtoa; data.Ltoa := Ltoa;
          data.F0 := F0; data.wavelen := wavelen;
          data.jday := jday; data.month := month;
          data.bitmask := bitmask;
          data.ozone := ozone; data.wind_speed := wind_speed;
          data.surf_press := surf_press |}.

(** What a call gives, read in the store [h]: the values of the block that
    it returned, or the exception that it raised. *)
Definition gives (h : store) (r : result Block) (v : result data.Block) : Prop :=
  match r, v with
  | Ok b, Ok d => (contents b h).1 = Ok d
  | Raise e, Raise e' => e = e'
  | _, _ => False
  end.

(** A sequence of calls, one after the other on the same store: what each
    returned, and the store at the end. *)
Fixpoint session {C} (call : C -> ST Block) (cs : list C) (h : store)
    : list (result Block) * store :=
  match cs with
  | [] => ([], h)
  | c :: cs' =>
      let '(r, h1) := call c h in
      let '(rs, h2) := session call cs' h1 in
      (r :: rs, h2)
  end.

End store.

(** *** The reader of extractions *)

Module ASCII.
Section reader.
Context {RT : Runtime}.
Variable L2FLAGS : L2FLAGS_t.
Import Level1_ASCII.

(** Where the arrays of a source are: the columns of [self.csv], and the
    two tables of the sensors of the MERIS family. *)
Record places := {
  columns_at : gmap string loc;
  F0_at : option loc;
  detector_wavelength_at : option loc;
}.

(** [self.csv[cname][sl].reshape(size)]: a view of the column. *)
Definition csv_block (p : places) (cname : string) (sl size : Z * Z) : ST ref :=
  l ← lift (getitem (columns_at p) cname (KStr cname));
  _ ← read (view l sl size);
  mret (view l sl size).

(** The place of a column and of a table that the source has. *)
Definition column_at (p : places) (cname : string) : loc :=
  default 0%nat (columns_at p !! cname).

Definition table_at (o : option loc) : loc := default 0%nat o.

Definition get_field (s : Source) (p : places) (fname : string) (sl size : Z * Z)
    : ST ref :=
  cname ← lift (header (headers s) fname);
  v ← csv_block p cname sl size;
  a ← read v;
  l ← new (floats2 (np.map2 float32 a));
  mret (array l).

(** [table[names[band]][di]] *)
Definition lookup_table (table : loc) (names : gmap Z string)
    (di : np.array2 Z) (band : Z) : ST (np.array2 float) :=
  t ← get_fields table;
  lift (Level1_ASCII.lookup_table t names di band).

Definition detector_index (s : Source) (p : places) (sl size : Z * Z)
    : ST (np.array2 Z) :=
  cname ← lift (header (headers s) "DETECTOR_INDEX");
  v ← csv_block p cname sl size;
  d ← read v;
  mret (np.map2 to_int d).

Definition TOA_band (s : Source) (p : places) (sl size : Z * Z) (band : Z)
    : ST (np.array2 float) :=
  name ← lift (getitem (band_names s) band (KInt band));
  v ← csv_block p name sl size;
  read v.

Definition wavelen_band (table : loc) (names : gmap Z string)
    (di : np.array2 Z) (band : Z) : ST (np.array2 float) :=
  a ← lookup_table table names di band;
  mret (np.map2 float32 a).

Definition read_block (s : Source) (p : places) (size offset : Z * Z) (bands : list Z)
    : ST Block :=
  let '(ysize, xsize) := size in
  let nbands := Z.of_nat (length bands) in
  let sl := (offset.1 * xsize, (offset.1 + ysize) * xsize) in
  z ← lift (np.full3 ysize xsize nbands (float32 nan));
  wavelen0 ← new (floats3 z);
  (* coordinates *)
  latitude ← get_field s p "LAT" sl size;
  longitude ← get_field s p "LON" sl size;
  (* geometry *)
  sza ← get_field s p "SZA" sl size;
  vza ← get_field s p "VZA" sl size;
  az ← (if relative_azimuth s then
          r ← get_field s p "RAA" sl size; mret (Some r, None, None)
        else
          sa ← get_field s p "SAA" sl size;
          va ← get_field s p "VAA" sl size; mret (None, Some sa, Some va));
  let '(_raa, saa, vaa) := az in
  (* TOA *)
  z ← lift (np.full3 ysize xsize nbands nan);
  TOA ← new (floats3 z);
  fill_bands (TOA_band s p sl size) TOA 0 bands;;
  toa ← lift (if decide (TOAR s = "reflectance"%string) then Ok (Some TOA, None)
              else if decide (TOAR s = "radiance"%string) then Ok (None, Some TOA)
              else Raise (Exception "Invalid TOAR type"));
  let '(Rtoa, Ltoa) := toa in
  (* detector index, solar flux, wavelength *)
  cal ← (if is_meris (sensor s) then
           di ← detector_index s p sl size;
           z ← lift (np.full3 ysize xsize nbands nan);
           F0 ← new (floats3 z);
           tF0 ← lift (attr (F0_at p));
           nF0 ← lift (attr (F0_band_names s));
           fill_bands (lookup_table tF0 nF0 di) F0 0 bands;;
           z ← lift (np.full3 ysize xsize nbands (float32 nan));
           wavelen ← new (floats3 z);
           twav ← lift (attr (detector_wavelength_at p));
           nwav ← lift (attr (wav_band_names s));
           fill_bands (wavelen_band twav nwav di) wavelen 0 bands;;
           mret (Some F0, wavelen)
         else
           fill_scalars (fun band => float32 (of_int band)) wavelen0 0 bands;;
           mret (None, wavelen0));
  let '(F0, wavelen) := cal in
  (* dates *)
  jd ← lift (np.reshape (tm_yday <$> np.slice (dates s) sl) size);
  jday ← new (ints2 jd);
  mo ← lift (np.reshape (tm_mon <$> np.slice (dates s) sl) size);
  month ← new (ints2 mo);
  (* bitmask *)
  z ← lift (np.full2 size 0);
  bitmask ← new (ints2 z);
  r ← raa _raa saa vaa;
  invalid ← new (bools2 (np.map2 isnan r));
  TOA_ ← get_floats3 TOA;
  toa0 ← lift (band_slice TOA_ nbands 0);
  ior invalid (np.map2 ltz toa0);;
  invalid_ ← get_bools2 invalid;
  iadd_flag bitmask (L1_INVALID L2FLAGS) invalid_;;
  (* ozone *)
  cname ← lift (header (headers s) "OZONE");
  ozone ← csv_block p cname sl size;
  (* wind speed *)
  wind_speed ← (if wind_module s then
                  cname ← lift (header (headers s) "WIND");
                  csv_block p cname sl size
                else
                  cname ← lift (header (headers s) "ZONAL_WIND");
                  zwind ← csv_block p cname sl size;
                  cname ← lift (header (headers s) "MERID_WIND");
                  mwind ← csv_block p cname sl size;
                  zwind_ ← read zwind;
                  mwind_ ← read mwind;
                  l ← new (floats2 (np.zip2 hypot2 zwind_ mwind_));
                  mret (array l));
  (* surface pressure *)
  cname ← lift (header (headers s) "SURFACE_PRESSURE");
  surf_press ← csv_block p cname sl size;
  mret {| offset := offset; size := size; bands := bands;
          latitude := Some latitude; longitude := Some longitude;
          sza := Some sza; vza := Some vza;
          _raa := _raa; saa := saa; vaa := vaa;
          Rtoa := Rtoa; Ltoa := Ltoa;
          Store.F0 := F0; wavelen := Some wavelen;
          jday := Some (pixels_at jday); month := Some month;
          bitmask := Some bitmask;
          ozone := Some ozone; wind_speed := Some wind_speed;
          surf_press := Some surf_press |}.

(** The columns and the tables of the source [s] are the arrays of the
    store at the places [p]. *)
Definition as_column (a : ndarray) : option Column :=
  match a with
  | floats1 v => Some (NumCol v)
  | objects1 v => Some (ObjCol v)
  | _ => None
  end.

Definition as_table (a : ndarray) : option (gmap string (list float)) :=
  match a with fields t => Some t | _ => None end.

Definition stored (s : Source) (p : places) (h : store) : Prop :=
  (fun l : loc => h !! l ≫= as_column) <$> columns_at p = Some <$> columns (csv s) /\
  (fun l : loc => h !! l ≫= as_table) <$> F0_at p = Some <$> Level1_ASCII.F0 s /\
  (fun l : loc => h !! l ≫= as_table) <$> detector_wavelength_at p
    = Some <$> detector_wavelength s.

End reader.
End ASCII.

(** *** The reader of products *)

Module MERIS.
Section reader.
Context {RT : Runtime}.
Variable L2FLAGS : L2FLAGS_t.
Import Level1_MERIS.

(** Where the two tables of a source are.  The product is a file behind
    the library: it is not an array of the store. *)
Record places := {
  F0_at : loc;
  detector_wavelength_at : loc;
}.

(** [read_as_array] returns a new array. *)
Definition read_band (s : Source) (band_name : string) (size offset : Z * Z)
    : ST ref :=
  a ← lift (Level1_MERIS.read_band s band_name size offset);
  l ← new (floats2 a);
  mret (array l).

(** [table[names[band]][di]] *)
Definition lookup_table (table : loc) (names : gmap Z string)
    (di : np.array2 Z) (band : Z) : ST (np.array2 float) :=
  t ← get_fields table;
  lift (Level1_MERIS.lookup_table t names di band).

Definition wavelen_band (table : loc) (names : gmap Z string)
    (di : np.array2 Z) (band : Z) : ST (np.array2 float) :=
  a ← lookup_table table names di band;
  mret (np.map2 float32 a).

(** [Ltoa_ = self.read_band(...)], read once as [Ltoa_[:,:]]. *)
Definition Ltoa_band (s : Source) (size offset : Z * Z) (band : Z)
    : ST (np.array2 float) :=
  lift (Level1_MERIS.Ltoa_band s size offset band).

Definition read_block (s : Source) (p : places) (size offset : Z * Z) (bands : list Z)
    : ST Block :=
  let '(ysize, xsize) := size in
  let nbands := Z.of_nat (length bands) in
  latitude ← read_band s "latitude" size offset;
  longitude ← read_band s "longitude" size offset;
  (* geometry *)
  sza ← read_band s "sun_zenith" size offset;
  vza ← read_band s "view_zenith" size offset;
  saa ← read_band s "sun_azimuth" size offset;
  vaa ← read_band s "view_azimuth" size offset;
  (* detector index *)
  di ← lift (Level1_MERIS.detector_index s size offset);
  (* F0 for each band *)
  z ← lift (np.full3 ysize xsize nbands nan);
  F0 ← new (floats3 z);
  fill_bands (lookup_table (F0_at p) (F0_band_names s) di) F0 0 bands;;
  (* detector wavelength for each band *)
  z ← lift (np.full3 ysize xsize nbands (float32 nan));
  wavelen ← new (floats3 z);
  fill_bands (wavelen_band (detector_wavelength_at p) (wav_band_names s) di)
    wavelen 0 bands;;
  (* TOA *)
  z ← lift (np.full3 ysize xsize nbands nan);
  Ltoa ← new (floats3 z);
  fill_bands (Ltoa_band s size offset) Ltoa 0 bands;;
  (* wind speed (zonal and meridional) *)
  zwind ← lift (Level1_MERIS.read_band s "zonal_wind" size offset);
  mwind ← lift (Level1_MERIS.read_band s "merid_wind" size offset);
  wind_speed ← new (floats2 (np.zip2 hypot2 zwind mwind));
  (* ozone *)
  ozone ← read_band s "ozone" size offset;
  (* surface pressure *)
  surf_press ← read_band s "atm_press" size offset;
  (* julian day *)
  let jday := tm_yday (date s) in
  (* bitmask *)
  land ← lift (Level1_MERIS.read_bitmask s size offset "l1_flags.LAND_OCEAN");
  bitmask ← new (ints2 (flag_mask (LAND L2FLAGS) land));
  invalid ← lift (Level1_MERIS.read_bitmask s size offset
              "(l1_flags.INVALID) OR (l1_flags.SUSPECT) OR (l1_flags.COSMETIC)");
  iadd_flag bitmask (L1_INVALID L2FLAGS) invalid;;
  mret {| offset := offset; size := size; bands := bands;
          latitude := Some latitude; longitude := Some longitude;
          sza := Some sza; vza := Some vza;
          _raa := None; saa := Some saa; vaa := Some vaa;
          Rtoa := None; Ltoa := Some Ltoa;
          Store.F0 := Some F0; wavelen := Some wavelen;
          jday := Some (scene_day jday); month := None;
          bitmask := Some bitmask;
          ozone := Some ozone; wind_speed := Some (array wind_speed);
          surf_press := Some surf_press |}.

Definition stored (s : Source) (p : places) (h : store) : Prop :=
  h !! F0_at p = Some (fields (F0 s)) /\
  h !! detector_wavelength_at p = Some (fields (detector_wavelength s)).

End reader.
End MERIS.
End Store.

(** ** An instance of the runtime: binary64 numbers

    The numbers are the primitive binary64 floats; a float32 element is the
    binary64 number rounded to 24 bits of precision (to nearest, ties to
    even) in the exponent range of binary32.  [str.format] is given for
    templates with one field [{}], [{:d}] or [{:0Nd}], and [strptime] for
    the default format of the extractions. *)

Module binary64.

Definition to_float32 (x : PrimFloat.float) : PrimFloat.float :=
  match FloatOps.Prim2SF x with
  | SpecFloat.S754_finite s m e =>
      FloatOps.SF2Prim (SpecFloat.binary_round 24 128 s m e)
  | _ => x
  end.

Definition float_of_int (z : Z) : PrimFloat.float :=
  if decide (z < 0) then PrimFloat.opp (PrimFloat.of_uint63 (Uint63.of_Z (- z)))
  else PrimFloat.of_uint63 (Uint63.of_Z z).

(** Truncation towards zero; what has no integer value gives the least
    64-bit integer. *)
Definition int_of_float (x : PrimFloat.float) : Z :=
  match FloatOps.Prim2SF x with
  | SpecFloat.S754_zero _ => 0
  | SpecFloat.S754_finite s m e =>
      let mag := if decide (0 <= e) then Z.pos m * 2 ^ e else Z.pos m `div` 2 ^ (- e) in
      let v := if s then - mag else mag in
      if decide (- 2 ^ 63 <= v < 2 ^ 63) then v else - 2 ^ 63
  | _ => - 2 ^ 63
  end.

Definition digit (n : Z) : ascii := ascii_of_nat (48 + Z.to_nat (n `mod` 10)).

Fixpoint digits_fuel (fuel : nat) (n : Z) (acc : string) : string :=
  match fuel with
  | O => acc
  | S k =>
      if decide (n < 10) then String (digit n) acc
      else digits_fuel k (n `div` 10) (String (digit n) acc)
  end.

(** The decimal numeral of an integer. *)
Definition decimal (n : Z) : string :=
  if decide (n < 0) then String "-" (digits_fuel (Z.to_nat (- n)) (- n) EmptyString)
  else digits_fuel (S (Z.to_nat n)) n EmptyString.

Fixpoint zeros (k : nat) : string :=
  match k with O => EmptyString | S k' => String "0" (zeros k') end.

(** [format(n, '0Wd')] *)
Definition zero_pad (width : nat) (n : Z) : string :=
  let d := decimal (Z.abs n) in
  let sign := if decide (n < 0) then "-"%string else EmptyString in
  sign +:+ zeros (width - String.length sign - String.length d) +:+ d.

(** The text of the field that starts a string, and the rest after [}]. *)
Fixpoint split_field (s : string) : option (string * string) :=
  match s with
  | EmptyString => None
  | String "}" rest => Some (EmptyString, rest)
  | String c rest =>
      match split_field rest with
      | Some (f, r) => Some (String c f, r)
      | None => None
      end
  end.

Definition format_field (field : string) (n : Z) : result string :=
  match field with
  | EmptyString => Ok (decimal n)
  | String ":" (String "d" EmptyString) => Ok (decimal n)
  | String ":" (String "0" (String w (String "d" EmptyString))) =>
      if decide (48 <= nat_of_ascii w <= 57)%nat
      then Ok (zero_pad (nat_of_ascii w - 48) n)
      else Raise ValueError
  | _ => Raise ValueError
  end.

(** [template.format(n)] for a template with at most one field. *)
Fixpoint format (template : string) (n : Z) : result string :=
  match template with
  | EmptyString => Ok EmptyString
  | String "{" rest =>
      match split_field rest with
      | Some (field, tail) => s ← format_field field n; Ok (s +:+ tail)
      | None => Raise ValueError
      end
  | String c rest => s ← format rest n; Ok (String c s)
  end.

Record date_time := {
  year : Z;
  mon : Z;
  mday : Z;
}.

Definition is_leap (y : Z) : bool :=
  bool_decide (y `mod` 4 = 0 /\ (y `mod` 100 <> 0 \/ y `mod` 400 = 0)).

Definition days_before_month (y m : Z) : Z :=
  let cum := [0; 31; 59; 90; 120; 151; 181; 212; 243; 273; 304; 334] in
  default 0 (cum !! Z.to_nat (m - 1)) + (if is_leap y && bool_decide (2 < m) then 1 else 0).

Definition yday (d : date_time) : Z := days_before_month (year d) (mon d) + mday d.

Fixpoint number (s : list ascii) (acc : Z) : option Z :=
  match s with
  | [] => Some acc
  | c :: s' =>
      if decide (48 <= nat_of_ascii c <= 57)%nat
      then number s' (10 * acc + Z.of_nat (nat_of_ascii c - 48))
      else None
  end.

(** [strptime(s, fmt)] for the format of the extractions,
    ['%Y%m%dT%H%M%SZ'], and for the format of the MERIS products,
    ['%d-%m-%Y %H:%M:%S.%f']; other formats are not provided. *)
Definition parse_time (s fmt : string) : result date_time :=
  let cs := list_ascii_of_string s in
  let field i n := number (take n (drop i cs)) 0 in
  let sep i c := bool_decide (cs !! i = Some c) in
  let date y m d :=
    if decide (1 <= m <= 12 /\ 1 <= d <= 31)
    then Ok {| year := y; mon := m; mday := d |}
    else Raise ValueError in
  if decide (fmt = "%Y%m%dT%H%M%SZ"%string) then
    match field 0%nat 4%nat, field 4%nat 2%nat, field 6%nat 2%nat, field 9%nat 6%nat with
    | Some y, Some m, Some d, Some _ =>
        if bool_decide (length cs = 16%nat) && sep 8%nat "T"%char && sep 15%nat "Z"%char
        then date y m d
        else Raise ValueError
    | _, _, _, _ => Raise ValueError
    end
  else if decide (fmt = "%d-%m-%Y %H:%M:%S.%f"%string) then
    match field 0%nat 2%nat, field 3%nat 2%nat, field 6%nat 4%nat,
          field 11%nat 2%nat, field 14%nat 2%nat, field 17%nat 2%nat,
          field 20%nat 6%nat with
    | Some d, Some m, Some y, Some _, Some _, Some _, Some _ =>
        if bool_decide (length cs = 26%nat) && sep 2%nat "-"%char && sep 5%nat "-"%char
           && sep 10%nat " "%char && sep 13%nat ":"%char && sep 16%nat ":"%char
           && sep 19%nat "."%char
        then date y m d
        else Raise ValueError
    | _, _, _, _, _, _, _ => Raise ValueError
    end
  else Raise ValueError.

#[export] Instance runtime : Runtime := {|
  float := PrimFloat.float;
  nan := PrimFloat.nan;
  float32 := to_float32;
  isnan := PrimFloat.is_nan;
  ltz := fun x => PrimFloat.ltb x PrimFloat.zero;
  of_int := float_of_int;
  to_int := int_of_float;
  hypot2 := fun z m => PrimFloat.sqrt (PrimFloat.add (PrimFloat.mul z z) (PrimFloat.mul m m));
  absdiff := fun a b => PrimFloat.abs (PrimFloat.sub a b);
  str_format := format;
  datetime := date_time;
  strptime := parse_time;
  tm_yday := yday;
  tm_mon := mon;
|}.

End binary64.

(** ** Facts on the error monad and on arrays *)

Lemma bind_Ok {A B} (f : A -> result B) (m : result A) (b : B) :
  mbind f m = Ok b -> exists a, m = Ok a /\ f a = Ok b.
Proof. destruct m as [a|e]; simpl; [eauto|discriminate]. Qed.

Lemma mapR_Forall2 {A B} (f : A -> result B) (l : list A) (r : list B) :
  mapR f l = Ok r <-> Forall2 (fun a b => f a = Ok b) l r.
Proof.
  revert r. induction l as [|a l IH]; intros r; simpl.
  - split.
    + intros [= <-]. constructor.
    + intros Hr. by inversion Hr.
  - split.
    + intros Hm. apply bind_Ok in Hm as (b & Hb & Hm).
      apply bind_Ok in Hm as (bs & Hbs & [= <-]).
      constructor; [done|]. by apply IH.
    + intros Hr. inversion Hr as [|? b ? bs Hb Hbs]; subst.
      rewrite Hb. simpl. apply IH in Hbs. rewrite Hbs. done.
Qed.

Lemma mapR_length {A B} (f : A -> result B) l r :
  mapR f l = Ok r -> length r = length l.
Proof. intros Hm. apply mapR_Forall2 in Hm. symmetry. by eapply Forall2_length. Qed.

Lemma mapR_lookup {A B} (f : A -> result B) l r i b :
  mapR f l = Ok r -> r !! i = Some b -> exists a, l !! i = Some a /\ f a = Ok b.
Proof.
  intros Hm Hi. apply mapR_Forall2 in Hm.
  destruct (Forall2_lookup_r _ _ _ _ _ Hm Hi) as (a & Ha & Hf). eauto.
Qed.

Lemma mapR_take_drop {A B} (f : A -> result B) l r n a :
  mapR f l = Ok r -> mapR f (take n (drop a l)) = Ok (take n (drop a r)).
Proof.
  intros Hm. apply mapR_Forall2. apply mapR_Forall2 in Hm.
  by apply Forall2_take, Forall2_drop.
Qed.

Section array_facts.
Context {A : Type}.
Implicit Types (l : list A) (n w m a y : nat).

Lemma length_rows n w l : length (np.rows n w l) = n.
Proof. revert l. induction n as [|n IH]; intros l; simpl; [done|]. by rewrite IH. Qed.

Lemma rows_width n w l :
  (n * w <= length l)%nat -> Forall (fun row => length row = w) (np.rows n w l).
Proof.
  revert l. induction n as [|n IH]; intros l Hl; simpl; constructor.
  - rewrite length_take. nia.
  - apply IH. rewrite length_drop. nia.
Qed.

Lemma rows_lookup n w l y :
  (y < n)%nat -> np.rows n w l !! y = Some (take w (drop (y * w) l)).
Proof.
  revert l y. induction n as [|n IH]; intros l y Hy; [lia|].
  destruct y as [|y]; simpl; [done|].
  rewrite IH by lia. by rewrite drop_drop, Nat.add_comm.
Qed.

Lemma rows_window n w l m a :
  (a + m <= n)%nat ->
  take m (drop a (np.rows n w l)) = np.rows m w (take (m * w) (drop (a * w) l)).
Proof.
  intros Ham. apply list_eq. intros y.
  destruct (decide (y < m)%nat) as [Hy|Hy].
  - rewrite lookup_take_lt, lookup_drop by done.
    rewrite !rows_lookup by lia. f_equal.
    rewrite (take_drop_commute (take _ _)), take_take, Nat.min_l by nia.
    rewrite <- take_drop_commute, drop_drop. f_equal. f_equal. lia.
  - rewrite lookup_take_ge by lia. symmetry.
    apply lookup_ge_None. rewrite length_rows. lia.
Qed.

End array_facts.

(** Rows [a], ..., [a + n - 1] of an array. *)
Definition window {A} (a n : Z) (arr : list A) : list A :=
  take (Z.to_nat n) (drop (Z.to_nat a) arr).

Section reshape_facts.
Context {A : Type}.
Implicit Types (l : list A) (a : list (list A)).

Lemma reshape_Ok l ys xs a :
  0 <= ys -> 0 <= xs -> np.reshape l (ys, xs) = Ok a ->
  Z.of_nat (length l) = ys * xs /\ a = np.rows (Z.to_nat ys) (Z.to_nat xs) l.
Proof.
  intros Hy Hx. unfold np.reshape.
  rewrite decide_True by done. case_decide; [|discriminate].
  intros [= <-]. done.
Qed.

Lemma reshape_intro l ys xs :
  0 <= ys -> 0 <= xs -> Z.of_nat (length l) = ys * xs ->
  np.reshape l (ys, xs) = Ok (np.rows (Z.to_nat ys) (Z.to_nat xs) l).
Proof.
  intros Hy Hx Hl. unfold np.reshape. by rewrite !decide_True by done.
Qed.

Lemma rows_shape l ys xs :
  0 <= ys -> 0 <= xs -> Z.of_nat (length l) = ys * xs ->
  np.shape2 (np.rows (Z.to_nat ys) (Z.to_nat xs) l) ys xs.
Proof.
  intros Hy Hx Hl. split.
  - rewrite length_rows. lia.
  - eapply Forall_impl; [apply rows_width; nia|].
    intros row Hrow. simpl in Hrow. lia.
Qed.

Lemma reshape_shape l ys xs a :
  0 <= ys -> 0 <= xs -> np.reshape l (ys, xs) = Ok a -> np.shape2 a ys xs.
Proof.
  intros Hy Hx Hr. apply reshape_Ok in Hr as [Hl ->]; [|done..].
  by apply rows_shape.
Qed.

Lemma slice_nonneg l (i j : Z) :
  0 <= i <= j ->
  np.slice l (i, j) = take (Z.to_nat (Z.min j (Z.of_nat (length l)) - Z.min i (Z.of_nat (length l))))
                        (drop (Z.to_nat (Z.min i (Z.of_nat (length l)))) l).
Proof.
  intros Hij. unfold np.slice, np.clip. simpl.
  by rewrite !decide_False by lia.
Qed.

Lemma slice_inside l (i j : Z) :
  0 <= i <= j -> j <= Z.of_nat (length l) ->
  np.slice l (i, j) = take (Z.to_nat (j - i)) (drop (Z.to_nat i) l).
Proof.
  intros Hij Hj. rewrite slice_nonneg by done.
  by rewrite !Z.min_l by lia.
Qed.

Lemma length_slice_nonneg l (i j : Z) :
  0 <= i <= j ->
  Z.of_nat (length (np.slice l (i, j)))
  = Z.min j (Z.of_nat (length l)) - Z.min i (Z.of_nat (length l)).
Proof.
  intros Hij. rewrite slice_nonneg by done.
  rewrite length_take, length_drop. lia.
Qed.

(** A tile of a source that can be read whole: its rows are the rows of
    the whole, from [a] on. *)
Lemma reshape_slice_window l (H W a n : Z) full :
  0 <= H -> 0 <= W -> 0 <= a -> 0 <= n -> a + n <= H ->
  np.reshape (np.slice l (0 * W, (0 + H) * W)) (H, W) = Ok full ->
  np.reshape (np.slice l (a * W, (a + n) * W)) (n, W) = Ok (window a n full).
Proof.
  intros HH HW Ha Hn Han Hfull.
  apply reshape_Ok in Hfull as [Hlen ->]; [|done..].
  rewrite length_slice_nonneg in Hlen by nia.
  assert (Hl : H * W <= Z.of_nat (length l)) by nia.
  rewrite (slice_inside l (a * W)) by nia.
  rewrite (slice_inside l (0 * W)) by nia.
  rewrite reshape_intro; [|done|done|].
  2:{ rewrite length_take, length_drop. nia. }
  f_equal. unfold window.
  rewrite (rows_window (Z.to_nat H)) by lia.
  replace (Z.to_nat (0 * W)) with 0%nat by lia. rewrite drop_0.
  rewrite (take_drop_commute (take _ _)), take_take, Nat.min_l by nia.
  rewrite <- take_drop_commute.
  rewrite <- !Z2Nat.inj_mul by lia.
  repeat f_equal; lia.
Qed.

End reshape_facts.

Lemma shape2_lookup {A} (a : list (list A)) ys xs :
  np.shape2 a ys xs <->
  Z.of_nat (length a) = ys /\ forall y row, a !! y = Some row -> Z.of_nat (length row) = xs.
Proof. unfold np.shape2. by rewrite Forall_lookup. Qed.

Lemma shape3_lookup {A} (arr : list (list (list A))) ys xs nb :
  np.shape3 arr ys xs nb <->
  Z.of_nat (length arr) = ys /\
  forall y row, arr !! y = Some row ->
    Z.of_nat (length row) = xs /\
    forall x px, row !! x = Some px -> Z.of_nat (length px) = nb.
Proof.
  unfold np.shape3. rewrite Forall_lookup.
  by setoid_rewrite Forall_lookup.
Qed.

Section shape_facts.
Context {A B C : Type}.

Lemma map2_shape (f : A -> B) a ys xs :
  np.shape2 a ys xs -> np.shape2 (np.map2 f a) ys xs.
Proof.
  rewrite !shape2_lookup. intros [Hl Hw]. unfold np.map2. split.
  - by rewrite length_fmap.
  - intros y row Hrow. rewrite list_lookup_fmap in Hrow.
    destruct (a !! y) as [r|] eqn:Hr; [|done]. injection Hrow as <-.
    rewrite length_fmap. eauto.
Qed.

Lemma zip2_shape (f : A -> B -> C) a b ys xs :
  np.shape2 a ys xs -> np.shape2 b ys xs -> np.shape2 (np.zip2 f a b) ys xs.
Proof.
  rewrite !shape2_lookup. intros [Hl Hw] [Hl' Hw']. unfold np.zip2. split.
  - rewrite length_zip_with. lia.
  - intros y row Hrow. apply lookup_zip_with_Some in Hrow as (r & r' & -> & Hr & Hr').
    rewrite length_zip_with. apply Hw in Hr. apply Hw' in Hr'. lia.
Qed.

Lemma mapR2_shape (f : A -> result B) a r ys xs :
  mapR (mapR f) a = Ok r -> np.shape2 a ys xs -> np.shape2 r ys xs.
Proof.
  rewrite !shape2_lookup. intros Hm [Hl Hw]. split.
  - apply mapR_length in Hm. lia.
  - intros y row Hrow.
    destruct (mapR_lookup _ _ _ _ _ Hm Hrow) as (row0 & Hrow0 & Hf).
    apply mapR_length in Hf. apply Hw in Hrow0. lia.
Qed.

Lemma window_shape (a : list (list A)) ys xs i n :
  np.shape2 a ys xs -> 0 <= i -> 0 <= n -> i + n <= ys ->
  np.shape2 (window i n a) n xs.
Proof.
  rewrite !shape2_lookup. intros [Hl Hw] Hi Hn Hin. unfold window. split.
  - rewrite length_take, length_drop. lia.
  - intros y row Hrow. apply lookup_take_Some in Hrow as [Hrow _].
    rewrite lookup_drop in Hrow. eauto.
Qed.

Lemma full2_shape (v : A) ys xs a :
  np.full2 (ys, xs) v = Ok a -> np.shape2 a ys xs /\ 0 <= ys /\ 0 <= xs.
Proof.
  unfold np.full2. simpl. case_decide as Hd; [|discriminate]. intros [= <-].
  split; [|done]. apply shape2_lookup. split.
  - rewrite length_replicate. lia.
  - intros y row Hrow. apply lookup_replicate in Hrow as [-> _].
    rewrite length_replicate. lia.
Qed.

Lemma full3_shape (v : A) ys xs nb arr :
  np.full3 ys xs nb v = Ok arr ->
  np.shape3 arr ys xs nb /\ 0 <= ys /\ 0 <= xs /\ 0 <= nb.
Proof.
  unfold np.full3. case_decide as Hd; [|discriminate]. intros [= <-].
  split; [|done]. apply shape3_lookup. split.
  - rewrite length_replicate. lia.
  - intros y row Hrow. apply lookup_replicate in Hrow as [-> _]. split.
    + rewrite length_replicate. lia.
    + intros x px Hpx. apply lookup_replicate in Hpx as [-> _].
      rewrite length_replicate. lia.
Qed.

Lemma set_band_shape (arr : list (list (list A))) i plane ys xs nb :
  np.shape3 arr ys xs nb -> np.shape2 plane ys xs ->
  np.shape3 (np.set_band arr i plane) ys xs nb.
Proof.
  rewrite !shape3_lookup, shape2_lookup. intros [Hl Hw] [Hl' Hw']. unfold np.set_band. split.
  - rewrite length_zip_with. lia.
  - intros y row Hrow. apply lookup_zip_with_Some in Hrow as (r & r' & -> & Hr & Hr').
    destruct (Hw _ _ Hr) as [Hlr Hpx]. apply Hw' in Hr'. split.
    + rewrite length_zip_with. lia.
    + intros x px Hx. apply lookup_zip_with_Some in Hx as (p & v & -> & Hp & Hv).
      rewrite length_insert. eauto.
Qed.

Lemma fill_band_shape (arr : list (list (list A))) i v ys xs nb :
  np.shape3 arr ys xs nb -> np.shape3 (np.fill_band arr i v) ys xs nb.
Proof.
  rewrite !shape3_lookup. intros [Hl Hw]. unfold np.fill_band. split.
  - by rewrite length_fmap.
  - intros y row Hrow. rewrite list_lookup_fmap in Hrow.
    destruct (arr !! y) as [r|] eqn:Hr; [|done]. injection Hrow as <-.
    destruct (Hw _ _ Hr) as [Hlr Hpx]. split.
    + by rewrite length_fmap.
    + intros x px Hx. rewrite list_lookup_fmap in Hx.
      destruct (r !! x) as [p|] eqn:Hp; [|done]. injection Hx as <-.
      rewrite length_insert. eauto.
Qed.

(** Reading an element after a band was assigned. *)
Lemma at3_set_band (arr : list (list (list A))) i plane ys xs nb y x j :
  np.shape3 arr ys xs nb -> np.shape2 plane ys xs ->
  Z.of_nat y < ys -> Z.of_nat x < xs ->
  np.at3 (np.set_band arr i plane) y x j
  = if decide (j = i /\ Z.of_nat i < nb) then np.at2 plane y x else np.at3 arr y x j.
Proof.
  rewrite shape3_lookup, shape2_lookup. intros [Hl Hw] [Hl' Hw'] Hy Hx.
  destruct (lookup_lt_is_Some_2 arr y ltac:(lia)) as [row Hrow].
  destruct (lookup_lt_is_Some_2 plane y ltac:(lia)) as [prow Hprow].
  destruct (Hw _ _ Hrow) as [Hlr Hpx]. pose proof (Hw' _ _ Hprow) as Hlp.
  destruct (lookup_lt_is_Some_2 row x ltac:(lia)) as [px Hpx'].
  destruct (lookup_lt_is_Some_2 prow x ltac:(lia)) as [v Hv].
  pose proof (Hpx _ _ Hpx') as Hlpx.
  unfold np.at3, np.at2, np.set_band.
  rewrite lookup_zip_with, Hrow, Hprow. simpl.
  rewrite lookup_zip_with, Hpx', Hv. simpl.
  case_decide as Hd.
  - destruct Hd as [-> Hi]. apply list_lookup_insert_eq. lia.
  - destruct (decide (j = i)) as [->|Hne].
    + rewrite !(proj2 (lookup_ge_None _ _)); [done|lia|rewrite length_insert; lia].
    + by rewrite list_lookup_insert_ne.
Qed.

Lemma at3_fill_band (arr : list (list (list A))) i v ys xs nb y x j :
  np.shape3 arr ys xs nb ->
  Z.of_nat y < ys -> Z.of_nat x < xs ->
  np.at3 (np.fill_band arr i v) y x j
  = if decide (j = i /\ Z.of_nat i < nb) then Some v else np.at3 arr y x j.
Proof.
  rewrite shape3_lookup. intros [Hl Hw] Hy Hx.
  destruct (lookup_lt_is_Some_2 arr y ltac:(lia)) as [row Hrow].
  destruct (Hw _ _ Hrow) as [Hlr Hpx].
  destruct (lookup_lt_is_Some_2 row x ltac:(lia)) as [px Hpx'].
  pose proof (Hpx _ _ Hpx') as Hlpx.
  unfold np.at3, np.fill_band.
  rewrite list_lookup_fmap, Hrow. simpl.
  rewrite list_lookup_fmap, Hpx'. simpl.
  case_decide as Hd.
  - destruct Hd as [-> Hi]. apply list_lookup_insert_eq. lia.
  - destruct (decide (j = i)) as [->|Hne].
    + rewrite !(proj2 (lookup_ge_None _ _)); [done|lia|rewrite length_insert; lia].
    + by rewrite list_lookup_insert_ne.
Qed.

End shape_facts.

Section band_loops.
Context {A : Type}.

Lemma assign_bands_spec (plane_of : Z -> result (list (list A))) ys xs nb bands :
  (forall band plane, plane_of band = Ok plane -> np.shape2 plane ys xs) ->
  forall arr (i0 : nat) R,
    np.shape3 arr ys xs nb ->
    assign_bands plane_of arr i0 bands = Ok R ->
    np.shape3 R ys xs nb /\
    (forall y x j, (j < i0)%nat -> Z.of_nat y < ys -> Z.of_nat x < xs ->
       np.at3 R y x j = np.at3 arr y x j) /\
    (forall (k : nat) band, bands !! k = Some band ->
       exists plane, plane_of band = Ok plane /\
         forall y x, Z.of_nat (i0 + k) < nb -> Z.of_nat y < ys -> Z.of_nat x < xs ->
           np.at3 R y x (i0 + k) = np.at2 plane y x).
Proof.
  intros Hplanes. induction bands as [|band rest IH]; intros arr i0 R Harr Hrun.
  - injection Hrun as <-. split; [done|]. split; [done|].
    intros k band Hk. by rewrite lookup_nil in Hk.
  - simpl in Hrun. apply bind_Ok in Hrun as (plane & Hplane & Hrun).
    pose proof (Hplanes _ _ Hplane) as Hshape.
    destruct (IH _ _ _ (set_band_shape _ i0 _ _ _ _ Harr Hshape) Hrun)
      as (HR & Hframe & Hbands).
    split; [done|]. split.
    + intros y x j Hj Hy Hx. rewrite Hframe by (done || lia).
      rewrite (at3_set_band _ _ _ ys xs nb) by done.
      rewrite decide_False by lia. done.
    + intros [|k] b Hk.
      * injection Hk as <-. exists plane. split; [done|].
        intros y x Hi Hy Hx. rewrite Nat.add_0_r in *.
        rewrite Hframe by (done || lia).
        rewrite (at3_set_band _ _ _ ys xs nb) by done.
        by rewrite decide_True.
      * destruct (Hbands _ _ Hk) as (p & Hp & Hat). exists p. split; [done|].
        intros y x Hi Hy Hx. replace (i0 + S k)%nat with (S i0 + k)%nat by lia.
        apply Hat; [lia|done..].
Qed.

Lemma assign_scalars_spec (value_of : Z -> A) ys xs nb bands :
  forall arr (i0 : nat),
    np.shape3 arr ys xs nb ->
    np.shape3 (assign_scalars value_of arr i0 bands) ys xs nb /\
    (forall y x j, (j < i0)%nat -> Z.of_nat y < ys -> Z.of_nat x < xs ->
       np.at3 (assign_scalars value_of arr i0 bands) y x j = np.at3 arr y x j) /\
    (forall (k : nat) band, bands !! k = Some band ->
       forall y x, Z.of_nat (i0 + k) < nb -> Z.of_nat y < ys -> Z.of_nat x < xs ->
         np.at3 (assign_scalars value_of arr i0 bands) y x (i0 + k) = Some (value_of band)).
Proof.
  induction bands as [|band rest IH]; intros arr i0 Harr; simpl.
  - split; [done|]. split; [done|].
    intros k band Hk. by rewrite lookup_nil in Hk.
  - destruct (IH _ (S i0) (fill_band_shape _ i0 (value_of band) _ _ _ Harr))
      as (HR & Hframe & Hbands).
    split; [done|]. split.
    + intros y x j Hj Hy Hx. rewrite Hframe by (done || lia).
      rewrite (at3_fill_band _ _ _ ys xs nb) by done.
      rewrite decide_False by lia. done.
    + intros [|k] b Hk y x Hi Hy Hx.
      * injection Hk as <-. rewrite Nat.add_0_r in *.
        rewrite Hframe by (done || lia).
        rewrite (at3_fill_band _ _ _ ys xs nb) by done.
        by rewrite decide_True.
      * replace (i0 + S k)%nat with (S i0 + k)%nat by lia.
        eapply Hbands; [done|lia|done..].
Qed.

End band_loops.

(** ** The shape of a block *)

Section block_shape.
Context `{Runtime}.

(** The per-pixel arrays of numbers, of integers, and the arrays with a
    band axis that a block carries. *)
Definition planes (b : Block) : list (list (list float)) :=
  omap id [latitude b; longitude b; sza b; vza b; _raa b; saa b; vaa b;
           ozone b; wind_speed b; surf_press b].

Definition int_planes (b : Block) : list (list (list Z)) :=
  omap id [month b; bitmask b;
           match jday b with Some (jday_pixels a) => Some a | _ => None end].

Definition cubes (b : Block) : list (list (list (list float))) :=
  omap id [Rtoa b; Ltoa b; data.F0 b; wavelen b].

Definition well_shaped (b : Block) : Prop :=
  let ysize := (size b).1 in
  let xsize := (size b).2 in
  let nbands := Z.of_nat (length (bands b)) in
  Forall (fun a => np.shape2 a ysize xsize) (planes b) /\
  Forall (fun a => np.shape2 a ysize xsize) (int_planes b) /\
  Forall (fun c => np.shape3 c ysize xsize nbands) (cubes b).

(** Slice [k] of [cube] holds the plane of band [bands[k]]. *)
Definition band_major (cube : option (list (list (list float)))) (size : Z * Z)
    (bands : list Z) (plane_of : Z -> result (list (list float))) : Prop :=
  exists c, cube = Some c /\
    forall (k : nat) band, bands !! k = Some band ->
      exists plane, plane_of band = Ok plane /\
        forall y x : nat, Z.of_nat y < size.1 -> Z.of_nat x < size.2 ->
          np.at3 c y x k = np.at2 plane y x.

(** The top-of-atmosphere signal, radiance or reflectance. *)
Definition TOA (b : Block) : option (list (list (list float))) :=
  match Rtoa b with Some a => Some a | None => Ltoa b end.

End block_shape.

(** Going through a computation that has returned: each step has
    returned. *)
Ltac inv_result H :=
  lazymatch type of H with
  | Ok _ = Ok _ => injection H as H; try subst
  | Raise _ = Ok _ => discriminate H
  | mbind _ _ = Ok _ =>
      let E := fresh "E" in
      apply bind_Ok in H as (? & E & H); cbv beta in H;
      try inv_result E; try inv_result H
  | (if ?c then _ else _) = Ok _ =>
      let C := fresh "C" in destruct c eqn:C; try inv_result H
  | (let '(_, _) := ?p in _) = Ok _ => destruct p; try inv_result H
  end.

Section ascii_shape.
Context `{Runtime}.
Variable L2FLAGS : L2FLAGS_t.
Import Level1_ASCII.

Lemma csv_block_shape s c sl ys xs a :
  0 <= ys -> 0 <= xs -> csv_block s c sl (ys, xs) = Ok a -> np.shape2 a ys xs.
Proof.
  intros Hy Hx Hc. unfold csv_block in Hc. inv_result Hc.
  by eapply reshape_shape.
Qed.

Lemma get_field_shape s f sl ys xs a :
  0 <= ys -> 0 <= xs -> get_field s f sl (ys, xs) = Ok a -> np.shape2 a ys xs.
Proof.
  intros Hy Hx Hc. unfold get_field in Hc. inv_result Hc.
  apply map2_shape. by eapply csv_block_shape.
Qed.

Lemma take__shape {A} (col : list A) di r ys xs :
  np.take_ col di = Ok r -> np.shape2 di ys xs -> np.shape2 r ys xs.
Proof. apply mapR2_shape. Qed.

Lemma lookup_table_shape table names di band plane ys xs :
  np.shape2 di ys xs -> lookup_table table names di band = Ok plane ->
  np.shape2 plane ys xs.
Proof.
  intros Hdi Hl. unfold lookup_table in Hl. inv_result Hl.
  by eapply take__shape.
Qed.

Lemma band_slice_shape {A} (arr : list (list (list A))) nb i a ys xs :
  band_slice arr nb i = Ok a -> np.shape3 arr ys xs nb -> np.shape2 a ys xs.
Proof.
  unfold band_slice. case_decide; [|discriminate]. unfold np.get_band.
  intros Hm Harr. apply shape3_lookup in Harr as [Hl Hw].
  apply shape2_lookup. split.
  - apply mapR_length in Hm. lia.
  - intros y row Hrow.
    destruct (mapR_lookup _ _ _ _ _ Hm Hrow) as (row0 & Hrow0 & Hf).
    apply mapR_length in Hf. apply Hw in Hrow0 as [? _]. lia.
Qed.

Lemma detector_index_shape s sl ys xs di :
  0 <= ys -> 0 <= xs -> detector_index s sl (ys, xs) = Ok di -> np.shape2 di ys xs.
Proof.
  intros Hy Hx Hd. unfold detector_index in Hd. inv_result Hd.
  apply map2_shape. by eapply csv_block_shape.
Qed.

Lemma TOA_band_shape s sl ys xs band plane :
  0 <= ys -> 0 <= xs -> TOA_band s sl (ys, xs) band = Ok plane -> np.shape2 plane ys xs.
Proof.
  intros Hy Hx Hl. unfold TOA_band in Hl. inv_result Hl.
  by eapply csv_block_shape.
Qed.

Lemma wavelen_band_shape table names di band plane ys xs :
  np.shape2 di ys xs -> wavelen_band table names di band = Ok plane ->
  np.shape2 plane ys xs.
Proof.
  intros Hdi Hl. unfold wavelen_band in Hl. inv_result Hl.
  apply map2_shape. by eapply lookup_table_shape.
Qed.

Lemma assign_bands_shape {A} (plane_of : Z -> result (list (list A))) arr i bands R ys xs nb :
  assign_bands plane_of arr i bands = Ok R ->
  np.shape3 arr ys xs nb ->
  (forall band plane, plane_of band = Ok plane -> np.shape2 plane ys xs) ->
  np.shape3 R ys xs nb.
Proof.
  intros Hrun Harr Hplanes.
  by destruct (assign_bands_spec plane_of ys xs nb bands Hplanes arr i R Harr Hrun).
Qed.

Lemma assign_scalars_shape {A} (value_of : Z -> A) arr i bands ys xs nb :
  np.shape3 arr ys xs nb ->
  np.shape3 (assign_scalars value_of arr i bands) ys xs nb.
Proof.
  intros Harr. by destruct (assign_scalars_spec value_of ys xs nb bands arr i Harr).
Qed.

Lemma add_flag_shape flag m mask ys xs :
  np.shape2 m ys xs -> np.shape2 mask ys xs -> np.shape2 (add_flag flag m mask) ys xs.
Proof.
  intros Hm Hmask. unfold add_flag, flag_mask.
  apply zip2_shape; [done|]. by apply map2_shape.
Qed.

Lemma raa_shape r s v a ys xs :
  raa r s v = Ok a ->
  (forall x, r = Some x -> np.shape2 x ys xs) ->
  (forall x, s = Some x -> np.shape2 x ys xs) ->
  (forall x, v = Some x -> np.shape2 x ys xs) ->
  np.shape2 a ys xs.
Proof.
  unfold raa. intros Ha Hr Hs Hv.
  destruct r as [x|]; [injection Ha as <-; eauto|].
  destruct s as [x|], v as [y|]; try discriminate.
  injection Ha as <-. apply zip2_shape; eauto.
Qed.

End ascii_shape.

Create HintDb shape.

#[export] Hint Resolve csv_block_shape get_field_shape TOA_band_shape
  wavelen_band_shape lookup_table_shape map2_shape zip2_shape reshape_shape
  assign_bands_shape assign_scalars_shape add_flag_shape band_slice_shape : shape.

(** The dimensions are not negative once an array was allocated, and
    the allocated array has its shape. *)
Ltac note_dims :=
  repeat match goal with
  | E : np.full3 _ _ _ _ = Ok _ |- _ =>
      apply full3_shape in E as (? & ? & ? & ?)
  | E : np.full2 (_, _) _ = Ok _ |- _ =>
      apply full2_shape in E as (? & ? & ?)
  end.

(** From what the steps of [read_block] have returned to the shapes of
    the arrays. *)
Ltac note_shapes :=
  repeat match goal with
  | E : Level1_ASCII.get_field _ _ _ (_, _) = Ok _ |- _ =>
      apply get_field_shape in E; [|assumption..]
  | E : Level1_ASCII.csv_block _ _ _ (_, _) = Ok _ |- _ =>
      apply csv_block_shape in E; [|assumption..]
  | E : Level1_ASCII.detector_index _ _ (_, _) = Ok _ |- _ =>
      apply detector_index_shape in E; [|assumption..]
  | E : np.reshape _ (_, _) = Ok _ |- _ =>
      apply reshape_shape in E; [|assumption..]
  end;
  repeat match goal with
  | E : assign_bands (Level1_ASCII.TOA_band _ _ (_, _)) _ _ _ = Ok _ |- _ =>
      eapply assign_bands_shape in E;
      [|eassumption|intros ? ?; apply TOA_band_shape; assumption]
  | E : assign_bands (Level1_ASCII.lookup_table _ _ _) _ _ _ = Ok _ |- _ =>
      eapply assign_bands_shape in E;
      [|eassumption
       |intros ? ?; apply lookup_table_shape; assumption]
  | E : assign_bands (Level1_ASCII.wavelen_band _ _ _) _ _ _ = Ok _ |- _ =>
      eapply assign_bands_shape in E;
      [|eassumption
       |intros ? ?; apply wavelen_band_shape; assumption]
  end;
  repeat match goal with
  | E : band_slice _ _ _ = Ok _ |- _ =>
      eapply band_slice_shape in E; [|eassumption]
  | E : raa _ _ _ = Ok _ |- _ =>
      eapply raa_shape in E;
      [|intros ? Heq; first [discriminate Heq|injection Heq as <-; eassumption]..]
  end.

Section ascii_block.
Context `{Runtime}.
Variable L2FLAGS : L2FLAGS_t.
Import Level1_ASCII.

Lemma ascii_read_block_shape s ys xs offset bands b :
  read_block L2FLAGS s (ys, xs) offset bands = Ok b ->
  data.size b = (ys, xs) /\ data.bands b = bands /\ data.offset b = offset /\
  well_shaped b.
Proof.
  intros Hb. unfold read_block in Hb. cbv beta iota zeta in Hb.
  inv_result Hb.
  all: note_dims; note_shapes.
  all: split; [done|]; split; [done|]; split; [done|].
  all: unfold well_shaped, planes, int_planes, cubes; simpl.
  all: split; [|split].
  all: repeat apply Forall_cons_2; try apply Forall_nil_2.
  all: try assumption.
  all: try (apply add_flag_shape; [|apply zip2_shape; apply map2_shape]).
  all: try assumption.
  all: try (apply zip2_shape; assumption).
  all: try (apply assign_scalars_shape; assumption).
Qed.

End ascii_block.

Section meris_shape.
Context `{Runtime}.
Import Level1_MERIS.

Lemma window_rows_shape {A} (f : Z -> Z -> A) (width height : Z) :
  0 <= width -> 0 <= height ->
  np.shape2 ((fun y => (fun x => f y x) <$> seqZ 0 width) <$> seqZ 0 height) height width.
Proof.
  intros Hw Hh. apply shape2_lookup. split.
  - rewrite length_fmap, length_seqZ. lia.
  - intros y row Hrow. rewrite list_lookup_fmap in Hrow.
    destruct (seqZ 0 height !! y) as [i|]; [|done]. injection Hrow as <-.
    rewrite length_fmap, length_seqZ. lia.
Qed.

Lemma read_as_array_shape band scene xoffset yoffset width height a :
  read_as_array band scene xoffset yoffset width height = Ok a ->
  np.shape2 a height width.
Proof.
  unfold read_as_array. case_decide as Hd; [|discriminate]. intros [= <-].
  apply window_rows_shape; lia.
Qed.

Lemma read_bitmask_raster_shape expr scene xoffset yoffset width height a :
  read_bitmask_raster expr scene xoffset yoffset width height = Ok a ->
  np.shape2 a height width.
Proof.
  unfold read_bitmask_raster. case_decide as Hd; [|discriminate]. intros [= <-].
  apply window_rows_shape; lia.
Qed.

Lemma read_band_shape s name ys xs offset a :
  read_band s name (ys, xs) offset = Ok a -> np.shape2 a ys xs.
Proof.
  unfold read_band. destruct offset as [yo xo].
  destruct (get_band (prod s) name); [|discriminate].
  apply read_as_array_shape.
Qed.

Lemma read_bitmask_shape s ys xs offset expr a :
  read_bitmask s (ys, xs) offset expr = Ok a -> np.shape2 a ys xs.
Proof.
  unfold read_bitmask. destruct offset as [yo xo].
  apply read_bitmask_raster_shape.
Qed.

Lemma meris_detector_index_shape s ys xs offset di :
  detector_index s (ys, xs) offset = Ok di -> np.shape2 di ys xs.
Proof.
  intros Hd. unfold detector_index in Hd. inv_result Hd.
  apply map2_shape. by eapply read_band_shape.
Qed.

Lemma meris_lookup_table_shape table names di band plane ys xs :
  np.shape2 di ys xs -> lookup_table table names di band = Ok plane ->
  np.shape2 plane ys xs.
Proof.
  intros Hdi Hl. unfold lookup_table in Hl. inv_result Hl.
  by eapply take__shape.
Qed.

Lemma meris_wavelen_band_shape table names di band plane ys xs :
  np.shape2 di ys xs -> wavelen_band table names di band = Ok plane ->
  np.shape2 plane ys xs.
Proof.
  intros Hdi Hl. unfold wavelen_band in Hl. inv_result Hl.
  apply map2_shape. by eapply meris_lookup_table_shape.
Qed.

Lemma Ltoa_band_shape s ys xs offset band plane :
  Ltoa_band s (ys, xs) offset band = Ok plane -> np.shape2 plane ys xs.
Proof.
  intros Hl. unfold Ltoa_band in Hl. inv_result Hl.
  by eapply read_band_shape.
Qed.

End meris_shape.

Ltac note_meris_shapes :=
  repeat match goal with
  | E : Level1_MERIS.read_band _ _ (_, _) _ = Ok _ |- _ =>
      apply read_band_shape in E
  | E : Level1_MERIS.read_bitmask _ (_, _) _ _ = Ok _ |- _ =>
      apply read_bitmask_shape in E
  | E : Level1_MERIS.detector_index _ (_, _) _ = Ok _ |- _ =>
      apply meris_detector_index_shape in E
  end;
  repeat match goal with
  | E : assign_bands (Level1_MERIS.Ltoa_band _ (_, _) _) _ _ _ = Ok _ |- _ =>
      eapply assign_bands_shape in E;
      [|eassumption|intros ? ?; apply Ltoa_band_shape]
  | E : assign_bands (Level1_MERIS.lookup_table _ _ _) _ _ _ = Ok _ |- _ =>
      eapply assign_bands_shape in E;
      [|eassumption
       |intros ? ?; apply meris_lookup_table_shape; assumption]
  | E : assign_bands (Level1_MERIS.wavelen_band _ _ _) _ _ _ = Ok _ |- _ =>
      eapply assign_bands_shape in E;
      [|eassumption
       |intros ? ?; apply meris_wavelen_band_shape; assumption]
  end.

Section meris_block.
Context `{Runtime}.
Variable L2FLAGS : L2FLAGS_t.
Import Level1_MERIS.

Lemma meris_read_block_shape s ys xs offset bands b :
  read_block L2FLAGS s (ys, xs) offset bands = Ok b ->
  data.size b = (ys, xs) /\ data.bands b = bands /\ data.offset b = offset /\
  well_shaped b.
Proof.
  intros Hb. unfold read_block in Hb. cbv beta iota zeta in Hb.
  inv_result Hb.
  note_dims; note_meris_shapes.
  split; [done|]; split; [done|]; split; [done|].
  unfold well_shaped, planes, int_planes, cubes; simpl.
  split; [|split].
  all: repeat apply Forall_cons_2; try apply Forall_nil_2.
  all: try assumption.
  all: try (apply zip2_shape; assumption).
  apply add_flag_shape; [|assumption].
  unfold flag_mask. by apply map2_shape.
Qed.

End meris_block.

(** ** The order of the bands *)

Section band_order.
Context `{Runtime}.

Lemma band_major_intro plane_of arr0 bands R ys xs :
  assign_bands plane_of arr0 0 bands = Ok R ->
  np.shape3 arr0 ys xs (Z.of_nat (length bands)) ->
  (forall band plane, plane_of band = Ok plane -> np.shape2 plane ys xs) ->
  band_major (Some R) (ys, xs) bands plane_of.
Proof.
  intros Hrun Harr Hplanes.
  destruct (assign_bands_spec plane_of ys xs _ bands Hplanes arr0 0%nat R Harr Hrun)
    as (_ & _ & Hbands).
  exists R. split; [done|]. intros k band Hk.
  destruct (Hbands _ _ Hk) as (plane & Hplane & Hat).
  exists plane. split; [done|]. intros y x Hy Hx. simpl in *.
  apply Hat; [|done..]. apply lookup_lt_Some in Hk. lia.
Qed.

Lemma at2_full2 {A} (v : A) ys xs plane (y x : nat) :
  np.full2 (ys, xs) v = Ok plane -> Z.of_nat y < ys -> Z.of_nat x < xs ->
  np.at2 plane y x = Some v.
Proof.
  unfold np.full2. simpl. case_decide; [|discriminate]. intros [= <-] Hy Hx.
  unfold np.at2. rewrite lookup_replicate_2 by lia. simpl.
  apply lookup_replicate_2. lia.
Qed.

Lemma band_major_scalars (value_of : Z -> float) arr0 bands ys xs :
  np.shape3 arr0 ys xs (Z.of_nat (length bands)) -> 0 <= ys -> 0 <= xs ->
  band_major (Some (assign_scalars value_of arr0 0 bands)) (ys, xs) bands
    (fun band => np.full2 (ys, xs) (value_of band)).
Proof.
  intros Harr Hy Hx.
  destruct (assign_scalars_spec value_of ys xs _ bands arr0 0%nat Harr)
    as (_ & _ & Hbands).
  eexists. split; [done|]. intros k band Hk.
  exists (replicate (Z.to_nat ys) (replicate (Z.to_nat xs) (value_of band))). split.
  - unfold np.full2. simpl. by rewrite decide_True.
  - intros y x Hy' Hx'. simpl in *.
    rewrite (Hbands k band Hk y x); [|apply lookup_lt_Some in Hk; lia|done..].
    symmetry. eapply at2_full2; [|done..].
    unfold np.full2. simpl. by rewrite decide_True.
Qed.

Lemma attr_Ok {A} (o : option A) a : Level1_ASCII.attr o = Ok a -> o = Some a.
Proof. destruct o; simpl; [by intros [= ->]|discriminate]. Qed.

End band_order.

Section ascii_bands.
Context `{Runtime}.
Variable L2FLAGS : L2FLAGS_t.
Import Level1_ASCII.

Lemma ascii_read_block_bands s ys xs offset bands b :
  read_block L2FLAGS s (ys, xs) offset bands = Ok b ->
  let sl := (offset.1 * xs, (offset.1 + ys) * xs) in
  band_major (TOA b) (ys, xs) bands (TOA_band s sl (ys, xs)) /\
  (is_meris (sensor s) = true ->
     exists di tF0 nF0 twav nwav,
       detector_index s sl (ys, xs) = Ok di /\
       F0 s = Some tF0 /\ F0_band_names s = Some nF0 /\
       detector_wavelength s = Some twav /\ wav_band_names s = Some nwav /\
       band_major (data.F0 b) (ys, xs) bands (lookup_table tF0 nF0 di) /\
       band_major (wavelen b) (ys, xs) bands (wavelen_band twav nwav di)) /\
  (is_meris (sensor s) = false ->
     data.F0 b = None /\
     band_major (wavelen b) (ys, xs) bands
       (fun band => np.full2 (ys, xs) (float32 (of_int band)))).
Proof.
  intros Hb. unfold read_block in Hb. cbv beta iota zeta in Hb.
  inv_result Hb.
  all: note_dims.
  all: try match goal with
       | E : detector_index _ _ (_, _) = Ok _ |- _ =>
           let E' := fresh in
           pose proof E as E'; apply detector_index_shape in E'; [|assumption..]
       end.
  all: repeat match goal with
       | E : attr _ = Ok _ |- _ => apply attr_Ok in E
       end.
  all: simpl; split; [|split].
  all: try (intros ?; congruence).
  all: try (unfold TOA; simpl; eapply band_major_intro;
            [eassumption|eassumption|intros ? ?; apply TOA_band_shape; assumption]).
  all: intros _.
  all: try (split; [done|]; apply band_major_scalars; assumption).
  all: eexists _, _, _, _, _; repeat (split; [eassumption|]); split.
  all: eapply band_major_intro; [eassumption|eassumption|intros ? ?].
  all: first [apply lookup_table_shape; assumption
             |apply wavelen_band_shape; assumption].
Qed.

End ascii_bands.

Section meris_bands.
Context `{Runtime}.
Variable L2FLAGS : L2FLAGS_t.
Import Level1_MERIS.

Lemma meris_read_block_bands s ys xs offset bands b :
  read_block L2FLAGS s (ys, xs) offset bands = Ok b ->
  exists di,
    detector_index s (ys, xs) offset = Ok di /\
    band_major (TOA b) (ys, xs) bands (Ltoa_band s (ys, xs) offset) /\
    band_major (data.F0 b) (ys, xs) bands (lookup_table (F0 s) (F0_band_names s) di) /\
    band_major (wavelen b) (ys, xs) bands
      (wavelen_band (detector_wavelength s) (wav_band_names s) di).
Proof.
  intros Hb. unfold read_block in Hb. cbv beta iota zeta in Hb.
  inv_result Hb. note_dims.
  match goal with
  | E : detector_index _ (_, _) _ = Ok _ |- _ =>
      pose proof (meris_detector_index_shape _ _ _ _ _ E)
  end.
  eexists. split; [eassumption|]. unfold TOA. simpl.
  repeat split.
  all: eapply band_major_intro; [eassumption|eassumption|intros ? ?].
  - apply Ltoa_band_shape.
  - by apply meris_lookup_table_shape.
  - by apply meris_wavelen_band_shape.
Qed.

End meris_bands.

(** The plane of a band in the wavelength and in the solar flux of a
    block of an extraction. *)
Definition ascii_wavelen_plane `{Runtime} (s : Level1_ASCII.Source) (sl size : Z * Z)
    (band : Z) : result (list (list float)) :=
  if Level1_ASCII.is_meris (Level1_ASCII.sensor s) then
    di ← Level1_ASCII.detector_index s sl size;
    table ← Level1_ASCII.attr (Level1_ASCII.detector_wavelength s);
    names ← Level1_ASCII.attr (Level1_ASCII.wav_band_names s);
    Level1_ASCII.wavelen_band table names di band
  else np.full2 size (float32 (of_int band)).

Definition ascii_F0_plane `{Runtime} (s : Level1_ASCII.Source) (sl size : Z * Z)
    (band : Z) : result (list (list float)) :=
  di ← Level1_ASCII.detector_index s sl size;
  table ← Level1_ASCII.attr (Level1_ASCII.F0 s);
  names ← Level1_ASCII.attr (Level1_ASCII.F0_band_names s);
  Level1_ASCII.lookup_table table names di band.

Definition meris_wavelen_plane `{Runtime} (s : Level1_MERIS.Source) (size offset : Z * Z)
    (band : Z) : result (list (list float)) :=
  di ← Level1_MERIS.detector_index s size offset;
  Level1_MERIS.wavelen_band (Level1_MERIS.detector_wavelength s)
    (Level1_MERIS.wav_band_names s) di band.

Definition meris_F0_plane `{Runtime} (s : Level1_MERIS.Source) (size offset : Z * Z)
    (band : Z) : result (list (list float)) :=
  di ← Level1_MERIS.detector_index s size offset;
  Level1_MERIS.lookup_table (Level1_MERIS.F0 s) (Level1_MERIS.F0_band_names s) di band.

Lemma band_major_ext `{Runtime} cube size bands (f g : Z -> result (list (list float))) :
  (forall band, f band = g band) ->
  band_major cube size bands f -> band_major cube size bands g.
Proof.
  intros Hfg (c & Hc & Hb). exists c. split; [done|].
  intros k band Hk. destruct (Hb k band Hk) as (plane & Hp & Hat).
  exists plane. by rewrite <- Hfg.
Qed.

(** What every block of an extraction satisfies. *)
Definition ascii_block_ok `{Runtime} (s : Level1_ASCII.Source) (size offset : Z * Z)
    (bands : list Z) (b : Block) : Prop :=
  let sl := (offset.1 * size.2, (offset.1 + size.1) * size.2) in
  data.size b = size /\ data.bands b = bands /\ data.offset b = offset /\
  well_shaped b /\
  band_major (TOA b) size bands (Level1_ASCII.TOA_band s sl size) /\
  band_major (wavelen b) size bands (ascii_wavelen_plane s sl size) /\
  (if Level1_ASCII.is_meris (Level1_ASCII.sensor s)
   then band_major (data.F0 b) size bands (ascii_F0_plane s sl size)
   else data.F0 b = None).

(** What every block of a MERIS product satisfies. *)
Definition meris_block_ok `{Runtime} (s : Level1_MERIS.Source) (size offset : Z * Z)
    (bands : list Z) (b : Block) : Prop :=
  data.size b = size /\ data.bands b = bands /\ data.offset b = offset /\
  well_shaped b /\
  band_major (TOA b) size bands (Level1_MERIS.Ltoa_band s size offset) /\
  band_major (wavelen b) size bands (meris_wavelen_plane s size offset) /\
  band_major (data.F0 b) size bands (meris_F0_plane s size offset).

Section block_invariant.
Context `{Runtime}.
Variable L2FLAGS : L2FLAGS_t.

(** C2.  Every block that [read_block] returns for a size [(ysize, xsize)]
    and a list [bands] has that size and that list; each of its per-pixel
    arrays has [ysize] rows of [xsize] elements; each array with a band
    axis (the signal at the top of the atmosphere, the wavelength, the
    solar flux) has [len(bands)] elements per pixel, and its slice [k] is
    the plane of band [bands[k]]: the bands are in the order of the
    request.  This holds for the reader of extractions and for the reader
    of MERIS products. *)
Theorem read_block_shapes :
  (forall s size offset bands b,
     Level1_ASCII.read_block L2FLAGS s size offset bands = Ok b ->
     ascii_block_ok s size offset bands b) /\
  (forall s size offset bands b,
     Level1_MERIS.read_block L2FLAGS s size offset bands = Ok b ->
     meris_block_ok s size offset bands b).
Proof.
  split.
  - intros s [ys xs] offset bands b Hb.
    destruct (ascii_read_block_shape L2FLAGS _ _ _ _ _ _ Hb) as (? & ? & ? & ?).
    destruct (ascii_read_block_bands L2FLAGS _ _ _ _ _ _ Hb) as (HT & Hm & Hn).
    repeat (split; [done|]). simpl. unfold ascii_wavelen_plane, ascii_F0_plane.
    destruct (Level1_ASCII.is_meris (Level1_ASCII.sensor s)).
    + destruct (Hm eq_refl) as (di & tF0 & nF0 & twav & nwav & -> & -> & -> & -> & -> & HF & HW).
      by split.
    + destruct (Hn eq_refl) as [HF HW]. by split.
  - intros s [ys xs] offset bands b Hb.
    destruct (meris_read_block_shape L2FLAGS _ _ _ _ _ _ Hb) as (? & ? & ? & ?).
    destruct (meris_read_block_bands L2FLAGS _ _ _ _ _ _ Hb) as (di & Hd & HT & HF & HW).
    repeat (split; [done|]). unfold meris_wavelen_plane, meris_F0_plane.
    rewrite Hd. by split.
Qed.

End block_invariant.

(** ** Tiles of a source as windows of the whole *)

Lemma bind_Ok_eq {A B} (f : A -> result B) (a : A) : mbind f (Ok a) = f a.
Proof. reflexivity. Qed.

Lemma mapR_window {A B} (f : A -> result B) (l : list A) r a n :
  mapR f l = Ok r -> mapR f (window a n l) = Ok (window a n r).
Proof. apply mapR_take_drop. Qed.

Section window_facts.
Context {A B C : Type}.

Lemma window_map2 (f : A -> B) (arr : list (list A)) a n :
  np.map2 f (window a n arr) = window a n (np.map2 f arr).
Proof. unfold np.map2, window. by rewrite fmap_take, fmap_drop. Qed.

Lemma window_zip2 (f : A -> B -> C) (l : list (list A)) (k : list (list B)) a n :
  np.zip2 f (window a n l) (window a n k) = window a n (np.zip2 f l k).
Proof. unfold np.zip2, window. by rewrite <- zip_with_take, <- zip_with_drop. Qed.

Lemma window_fmap (f : A -> B) (l : list A) a n :
  f <$> window a n l = window a n (f <$> l).
Proof. unfold window. by rewrite fmap_take, fmap_drop. Qed.

Lemma window_lookup (l : list A) a n (y : nat) :
  0 <= a -> Z.of_nat y < n ->
  window a n l !! y = l !! Z.to_nat (a + Z.of_nat y).
Proof.
  intros Ha Hy. unfold window.
  rewrite lookup_take_lt, lookup_drop by lia. f_equal. lia.
Qed.

Lemma full3_window (v : A) H W nb arr a n :
  np.full3 H W nb v = Ok arr -> 0 <= a -> 0 <= n -> a + n <= H ->
  np.full3 n W nb v = Ok (window a n arr).
Proof.
  unfold np.full3. case_decide as Hd; [|discriminate]. intros [= <-] Ha Hn Han.
  rewrite decide_True by lia. f_equal. unfold window.
  rewrite drop_replicate, take_replicate. f_equal. lia.
Qed.

Lemma full2_window (v : A) H W arr a n :
  np.full2 (H, W) v = Ok arr -> 0 <= a -> 0 <= n -> a + n <= H ->
  np.full2 (n, W) v = Ok (window a n arr).
Proof.
  unfold np.full2. simpl. case_decide as Hd; [|discriminate]. intros [= <-] Ha Hn Han.
  rewrite decide_True by lia. f_equal. unfold window.
  rewrite drop_replicate, take_replicate. f_equal. lia.
Qed.

Lemma set_band_window (arr : list (list (list A))) i plane a n :
  np.set_band (window a n arr) i (window a n plane) = window a n (np.set_band arr i plane).
Proof. unfold np.set_band, window. by rewrite <- zip_with_take, <- zip_with_drop. Qed.

Lemma fill_band_window (arr : list (list (list A))) i v a n :
  np.fill_band (window a n arr) i v = window a n (np.fill_band arr i v).
Proof. unfold np.fill_band, window. by rewrite fmap_take, fmap_drop. Qed.

Lemma assign_bands_window (plane_of plane_of' : Z -> result (list (list A))) a n bands :
  (forall band plane, plane_of band = Ok plane ->
     plane_of' band = Ok (window a n plane)) ->
  forall arr i R,
    assign_bands plane_of arr i bands = Ok R ->
    assign_bands plane_of' (window a n arr) i bands = Ok (window a n R).
Proof.
  intros Hplanes. induction bands as [|band rest IH]; intros arr i R Hrun; simpl in *.
  - by injection Hrun as <-.
  - apply bind_Ok in Hrun as (plane & Hplane & Hrun).
    rewrite (Hplanes _ _ Hplane), bind_Ok_eq, set_band_window. by apply IH.
Qed.

Lemma assign_scalars_window (value_of : Z -> A) a n bands :
  forall arr i,
    assign_scalars value_of (window a n arr) i bands
    = window a n (assign_scalars value_of arr i bands).
Proof.
  induction bands as [|band rest IH]; intros arr i; simpl; [done|].
  by rewrite fill_band_window, IH.
Qed.

Lemma band_slice_window (arr : list (list (list A))) nb i plane a n :
  band_slice arr nb i = Ok plane ->
  band_slice (window a n arr) nb i = Ok (window a n plane).
Proof.
  unfold band_slice. case_decide; [|discriminate]. unfold np.get_band.
  apply mapR_window.
Qed.

Lemma take__window (col : list A) di r a n :
  np.take_ col di = Ok r -> np.take_ col (window a n di) = Ok (window a n r).
Proof. apply mapR_window. Qed.

Lemma slice_fmap (f : A -> B) (l : list A) sl :
  f <$> np.slice l sl = np.slice (f <$> l) sl.
Proof. unfold np.slice. by rewrite fmap_take, fmap_drop, length_fmap. Qed.

End window_facts.

(** Rows [a], ..., [a + n - 1] lie in a source of [H] rows of [W] pixels. *)
Definition tile_in (H W a n : Z) : Prop :=
  0 <= H /\ 0 <= W /\ 0 <= a /\ 0 <= n /\ a + n <= H.

Lemma reshape_fmap_slice_window {A B} (f : A -> B) (l : list A) H W a n full :
  tile_in H W a n ->
  np.reshape (f <$> np.slice l (0 * W, (0 + H) * W)) (H, W) = Ok full ->
  np.reshape (f <$> np.slice l (a * W, (a + n) * W)) (n, W) = Ok (window a n full).
Proof.
  intros (HH & HW & Ha & Hn & Han). rewrite !slice_fmap.
  by apply reshape_slice_window.
Qed.

Section ascii_window.
Context {RT : Runtime}.
Import Level1_ASCII.

Lemma csv_block_window s c H W a n full :
  tile_in H W a n ->
  csv_block s c (0 * W, (0 + H) * W) (H, W) = Ok full ->
  csv_block s c (a * W, (a + n) * W) (n, W) = Ok (window a n full).
Proof.
  intros (HH & HW & Ha & Hn & Han) Hc. unfold csv_block in *. inv_result Hc.
  match goal with E : getitem _ _ _ = Ok _ |- _ => rewrite E end.
  rewrite bind_Ok_eq.
  match goal with E : values _ = Ok _ |- _ => rewrite E end.
  rewrite bind_Ok_eq. by apply (reshape_slice_window _ H).
Qed.

Lemma get_field_window s f H W a n full :
  tile_in H W a n ->
  get_field s f (0 * W, (0 + H) * W) (H, W) = Ok full ->
  get_field s f (a * W, (a + n) * W) (n, W) = Ok (window a n full).
Proof.
  intros Ht Hc. unfold get_field in *. inv_result Hc.
  match goal with E : header _ _ = Ok _ |- _ => rewrite E end.
  rewrite bind_Ok_eq.
  erewrite csv_block_window by eassumption.
  by rewrite bind_Ok_eq, window_map2.
Qed.

Lemma detector_index_window s H W a n full :
  tile_in H W a n ->
  detector_index s (0 * W, (0 + H) * W) (H, W) = Ok full ->
  detector_index s (a * W, (a + n) * W) (n, W) = Ok (window a n full).
Proof.
  intros Ht Hc. unfold detector_index in *. inv_result Hc.
  match goal with E : header _ _ = Ok _ |- _ => rewrite E end.
  rewrite bind_Ok_eq.
  erewrite csv_block_window by eassumption.
  by rewrite bind_Ok_eq, window_map2.
Qed.

Lemma TOA_band_window s H W a n band plane :
  tile_in H W a n ->
  TOA_band s (0 * W, (0 + H) * W) (H, W) band = Ok plane ->
  TOA_band s (a * W, (a + n) * W) (n, W) band = Ok (window a n plane).
Proof.
  intros Ht Hc. unfold TOA_band in *. inv_result Hc.
  match goal with E : getitem _ _ _ = Ok _ |- _ => rewrite E end.
  rewrite bind_Ok_eq. by apply (csv_block_window _ _ H).
Qed.

Lemma lookup_table_window table names di band plane a n :
  lookup_table table names di band = Ok plane ->
  lookup_table table names (window a n di) band = Ok (window a n plane).
Proof.
  intros Hc. unfold lookup_table in *. inv_result Hc.
  match goal with E : getitem _ _ _ = Ok _ |- _ => rewrite E end.
  rewrite bind_Ok_eq.
  match goal with E : getfield _ _ = Ok _ |- _ => rewrite E end.
  rewrite bind_Ok_eq. by apply take__window.
Qed.

Lemma wavelen_band_window table names di band plane a n :
  wavelen_band table names di band = Ok plane ->
  wavelen_band table names (window a n di) band = Ok (window a n plane).
Proof.
  intros Hc. unfold wavelen_band in *. inv_result Hc.
  erewrite lookup_table_window by eassumption.
  by rewrite bind_Ok_eq, window_map2.
Qed.

Lemma raa_window r s v x a n :
  raa r s v = Ok x ->
  raa (window a n <$> r) (window a n <$> s) (window a n <$> v) = Ok (window a n x).
Proof.
  unfold raa. destruct r as [r|]; simpl; [by intros [= <-]|].
  destruct s as [s|], v as [v|]; simpl; try discriminate.
  intros [= <-]. by rewrite window_zip2.
Qed.

Lemma add_flag_window flag m mask a n :
  add_flag flag (window a n m) (window a n mask) = window a n (add_flag flag m mask).
Proof. unfold add_flag, flag_mask. by rewrite window_map2, window_zip2. Qed.

End ascii_window.

(** The block of the rows [a], ..., [a + n - 1] of a block that starts at
    row 0. *)
Definition window_block `{Runtime} (a n : Z) (b : Block) : Block :=
  {| offset := (a, 0);
     size := (n, (size b).2);
     bands := bands b;
     latitude := window a n <$> latitude b;
     longitude := window a n <$> longitude b;
     sza := window a n <$> sza b;
     vza := window a n <$> vza b;
     _raa := window a n <$> _raa b;
     saa := window a n <$> saa b;
     vaa := window a n <$> vaa b;
     Rtoa := window a n <$> Rtoa b;
     Ltoa := window a n <$> Ltoa b;
     data.F0 := window a n <$> data.F0 b;
     wavelen := window a n <$> wavelen b;
     jday := match jday b with
             | Some (jday_pixels d) => Some (jday_pixels (window a n d))
             | j => j
             end;
     month := window a n <$> month b;
     bitmask := window a n <$> bitmask b;
     ozone := window a n <$> ozone b;
     wind_speed := window a n <$> wind_speed b;
     surf_press := window a n <$> surf_press b |}.

(** From the steps of the read of the whole source to the steps of the
    read of a tile. *)
Ltac to_window H W a n Ht :=
  repeat match goal with
  | E : np.full3 H W _ _ = Ok _ |- _ =>
      apply (full3_window _ H W _ _ a n) in E; [|apply Ht..]
  | E : np.full2 (H, W) _ = Ok _ |- _ =>
      apply (full2_window _ H W _ a n) in E; [|apply Ht..]
  | E : Level1_ASCII.get_field _ _ (0 * W, (0 + H) * W) (H, W) = Ok _ |- _ =>
      apply (get_field_window _ _ H W a n) in E; [|exact Ht]
  | E : Level1_ASCII.csv_block _ _ (0 * W, (0 + H) * W) (H, W) = Ok _ |- _ =>
      apply (csv_block_window _ _ H W a n) in E; [|exact Ht]
  | E : Level1_ASCII.detector_index _ (0 * W, (0 + H) * W) (H, W) = Ok _ |- _ =>
      apply (detector_index_window _ H W a n) in E; [|exact Ht]
  | E : np.reshape (_ <$> np.slice _ (0 * W, (0 + H) * W)) (H, W) = Ok _ |- _ =>
      apply (reshape_fmap_slice_window _ _ H W a n) in E; [|exact Ht]
  | E : assign_bands (Level1_ASCII.TOA_band ?s (0 * W, (0 + H) * W) (H, W)) _ _ _
        = Ok _ |- _ =>
      apply (assign_bands_window _
               (Level1_ASCII.TOA_band s (a * W, (a + n) * W) (n, W)) a n) in E;
      [|intros ? ?; apply TOA_band_window; exact Ht]
  | E : assign_bands (Level1_ASCII.lookup_table ?t ?names ?di) _ _ _ = Ok _,
    D : Level1_ASCII.detector_index _ _ _ = Ok (window a n ?di) |- _ =>
      apply (assign_bands_window _
               (Level1_ASCII.lookup_table t names (window a n di)) a n) in E;
      [|intros ? ?; apply lookup_table_window]
  | E : assign_bands (Level1_ASCII.wavelen_band ?t ?names ?di) _ _ _ = Ok _,
    D : Level1_ASCII.detector_index _ _ _ = Ok (window a n ?di) |- _ =>
      apply (assign_bands_window _
               (Level1_ASCII.wavelen_band t names (window a n di)) a n) in E;
      [|intros ? ?; apply wavelen_band_window]
  | E : band_slice ?arr _ _ = Ok _,
    D : assign_bands _ _ _ _ = Ok (window a n ?arr) |- _ =>
      apply (band_slice_window _ _ _ _ a n) in E
  | E : raa _ _ _ = Ok ?x |- _ =>
      is_var x;
      apply (raa_window _ _ _ _ a n) in E; cbn [fmap option_fmap option_map] in E
  end.

Lemma bind_intro {A B} (f : A -> result B) (m : result A) a b :
  m = Ok a -> f a = Ok b -> mbind f m = Ok b.
Proof. by intros ->. Qed.

(** Two runs of one step have one result. *)
Ltac merge_steps :=
  repeat match goal with
  | E1 : ?e = Ok ?x, E2 : ?e = Ok ?y |- _ =>
      assert (x = y) by congruence; subst y; clear E2
  end.

(** Running a computation whose steps are known. *)
Ltac run_steps :=
  lazymatch goal with
  | |- mbind _ _ = Ok _ =>
      eapply bind_intro; [run_steps|cbv beta iota zeta; run_steps]
  | |- (if ?c then _ else _) = Ok _ =>
      match goal with
      | C : c = _ |- _ => rewrite C; cbv beta iota zeta; run_steps
      end
  | |- Ok _ = Ok ?x => tryif is_evar x then reflexivity else idtac
  | |- _ => eassumption
  end.

Section ascii_tiles.
Context {RT : Runtime}.
Variable L2FLAGS : L2FLAGS_t.
Import Level1_ASCII.

Lemma ascii_read_block_window s H W a n bands full :
  tile_in H W a n ->
  read_block L2FLAGS s (H, W) (0, 0) bands = Ok full ->
  read_block L2FLAGS s (n, W) (a, 0) bands = Ok (window_block a n full).
Proof.
  intros Ht Hb. unfold read_block in *. cbv beta iota zeta in *.
  cbn [fst snd] in *.
  inv_result Hb.
  all: merge_steps.
  all: to_window H W a n Ht.
  all: run_steps.
  all: unfold window_block; cbn.
  all: rewrite <- ?add_flag_window, <- ?window_zip2, <- ?window_map2,
         <- ?assign_scalars_window.
  all: reflexivity.
Qed.

End ascii_tiles.

(** ** One tile or many *)

Section pixels.
Context {RT : Runtime}.

Definition at2o {A} (o : option (list (list A))) (y x : nat) : option A :=
  o ≫= fun a => np.at2 a y x.

Definition at3o {A} (o : option (list (list (list A)))) (y x : nat) : option (list A) :=
  o ≫= fun c => c !! y ≫= fun row => row !! x.

(** The values that a block holds for its pixel [(y, x)]: the numbers,
    the integers (month, bitmask and day of the year) and the values
    along the band axis (reflectance, radiance, solar flux, wavelength). *)
Definition pixel (b : Block) (y x : nat)
    : list (option float) * list (option Z) * list (option (list float)) :=
  ((fun o => at2o o y x) <$>
     [latitude b; longitude b; sza b; vza b; _raa b; saa b; vaa b;
      ozone b; wind_speed b; surf_press b],
   (fun o => at2o o y x) <$>
     [month b; bitmask b;
      match jday b with Some (jday_pixels a) => Some a | _ => None end],
   (fun o => at3o o y x) <$> [Rtoa b; Ltoa b; data.F0 b; wavelen b]).

Lemma at2o_window {A} (o : option (list (list A))) a n (y x : nat) :
  0 <= a -> Z.of_nat y < n ->
  at2o (window a n <$> o) y x = at2o o (Z.to_nat (a + Z.of_nat y)) x.
Proof.
  intros Ha Hy. destruct o as [arr|]; [|done]. simpl.
  unfold np.at2. by rewrite window_lookup.
Qed.

Lemma at3o_window {A} (o : option (list (list (list A)))) a n (y x : nat) :
  0 <= a -> Z.of_nat y < n ->
  at3o (window a n <$> o) y x = at3o o (Z.to_nat (a + Z.of_nat y)) x.
Proof.
  intros Ha Hy. destruct o as [arr|]; [|done]. simpl.
  by rewrite window_lookup.
Qed.

Lemma pixel_window (b : Block) a n (y x : nat) :
  0 <= a -> Z.of_nat y < n ->
  pixel (window_block a n b) y x = pixel b (Z.to_nat (a + Z.of_nat y)) x.
Proof.
  intros Ha Hy. unfold pixel, window_block. cbn [fmap list_fmap].
  cbn [latitude longitude sza vza _raa saa vaa ozone wind_speed surf_press
       month bitmask jday Rtoa Ltoa data.F0 wavelen].
  rewrite !(at2o_window _ a n), !(at3o_window _ a n) by done.
  destruct (jday b) as [[d|d]|]; [|done..].
  by rewrite <- (at2o_window (Some d) a n) by done.
Qed.

Lemma at2_shape {A} (arr : list (list A)) ys xs (y x : nat) :
  np.shape2 arr ys xs -> Z.of_nat y < ys -> Z.of_nat x < xs ->
  is_Some (np.at2 arr y x).
Proof.
  rewrite shape2_lookup. intros [Hl Hw] Hy Hx. unfold np.at2.
  destruct (lookup_lt_is_Some_2 arr y ltac:(lia)) as [row Hrow].
  rewrite Hrow. simpl. apply lookup_lt_is_Some_2.
  apply Hw in Hrow. lia.
Qed.

End pixels.

Lemma yield_all_Ok {A B} (f : A -> result B) (g : A -> B) (l : list A) :
  (forall t, t ∈ l -> f t = Ok (g t)) ->
  Blocking.yield_all f l = (g <$> l, None).
Proof.
  induction l as [|t l IH]; intros Hf; simpl; [done|].
  rewrite (Hf t) by apply list_elem_of_here.
  rewrite IH; [done|]. intros t' Ht'. apply Hf. by apply list_elem_of_further.
Qed.

Section one_or_many.
Context {RT : Runtime}.
Variable L2FLAGS : L2FLAGS_t.
Import Level1_ASCII.

(** The same source, iterated with another block size. *)
Definition with_blocksize (s : Source) (B : Z) : Source :=
  {| sensor := sensor s; filename := filename s; TOAR := TOAR s;
     headers := headers s; relative_azimuth := relative_azimuth s;
     wind_module := wind_module s; verbose := verbose s;
     band_names := band_names s; F0 := F0 s;
     detector_wavelength := detector_wavelength s;
     F0_band_names := F0_band_names s; wav_band_names := wav_band_names s;
     csv := csv s; height := height s; width := width s; shape := shape s;
     blocksize := B; dates := dates s |}.

Lemma read_block_with_blocksize s B size offset bands :
  read_block L2FLAGS (with_blocksize s B) size offset bands
  = read_block L2FLAGS s size offset bands.
Proof. reflexivity. Qed.

Lemma blocks_with_blocksize s B bands :
  blocks L2FLAGS (with_blocksize s B) bands
  = Blocking.blocks (read_block L2FLAGS s) (height s) (width s) B bands.
Proof. reflexivity. Qed.

Lemma single_tile H W B :
  0 < H -> H <= B -> Blocking.tiles H W B = Ok [((H, W), (0, 0))].
Proof.
  intros HH HB. unfold Blocking.tiles, Blocking.nblocks.
  rewrite decide_False by lia.
  rewrite (ceil_div_unique H B 1) by lia. simpl.
  unfold Blocking.xrange, seqZ. simpl. unfold Blocking.tile.
  rewrite decide_True by lia. repeat f_equal; lia.
Qed.

(** C3.  Take a source of height [H > 0] whose iteration with a block size
    [B1 >= H] gives one block (the whole source is read as one tile).  Then
    the iteration with any block size [B2 > 0] gives [ceil(H/B2)] blocks
    without an error, and for every pixel [(row, col)] of the source the
    values that the block of tile [row / B2] holds at [(row mod B2, col)]
    are the values that the one block holds at [(row, col)]; there is such
    a value (the latitude, for one) at every pixel. *)
Theorem one_tile_or_many s bands B1 B2 b1 :
  0 < height s -> height s <= B1 -> 0 < B2 ->
  blocks L2FLAGS (with_blocksize s B1) bands = ([b1], None) ->
  exists bs,
    blocks L2FLAGS (with_blocksize s B2) bands = (bs, None) /\
    Z.of_nat (length bs) = Blocking.ceil_div (height s) B2 /\
    forall row col, 0 <= row < height s -> 0 <= col < width s ->
      exists b2,
        bs !! Z.to_nat (row `div` B2) = Some b2 /\
        offset b2 = (row `div` B2 * B2, 0) /\
        pixel b2 (Z.to_nat (row `mod` B2)) (Z.to_nat col)
        = pixel b1 (Z.to_nat row) (Z.to_nat col) /\
        is_Some (at2o (latitude b1) (Z.to_nat row) (Z.to_nat col)).
Proof.
  intros HH HB1 HB2 Hone.
  rewrite blocks_with_blocksize in Hone. unfold Blocking.blocks in Hone.
  rewrite single_tile in Hone by done.
  cbn [Blocking.yield_all fst snd] in Hone.
  destruct (read_block L2FLAGS s (height s, width s) (0, 0) bands)
    as [full|e] eqn:Hfull; [|discriminate].
  injection Hone as <-.
  destruct (ascii_read_block_shape L2FLAGS _ _ _ _ _ _ Hfull) as (Hsz & _ & _ & Hshape).
  assert (HW : 0 <= width s).
  { unfold read_block in Hfull. cbv beta iota zeta in Hfull.
    apply bind_Ok in Hfull as (? & E & _).
    by apply full3_shape in E as (_ & _ & ? & _). }
  pose proof (ceil_div_bounds (height s) B2 HB2) as Hc.
  set (g := fun t : (Z * Z) * (Z * Z) => window_block t.2.1 t.1.1 full).
  exists (g <$> (Blocking.tile (height s) (width s) B2 (Blocking.ceil_div (height s) B2)
                   <$> Blocking.xrange (Blocking.ceil_div (height s) B2))).
  split; [|split].
  - rewrite blocks_with_blocksize.
    unfold Blocking.blocks, Blocking.tiles, Blocking.nblocks.
    rewrite decide_False by lia. rewrite bind_Ok_eq.
    apply yield_all_Ok. intros t Ht.
    apply list_elem_of_fmap in Ht as (i & -> & Hi).
    apply elem_of_seqZ in Hi.
    rewrite tile_eq_min by lia. unfold g. cbn [fst snd].
    eapply ascii_read_block_window; [|exact Hfull].
    unfold tile_in. nia.
  - rewrite !length_fmap. unfold Blocking.xrange. rewrite length_seqZ. nia.
  - intros row col Hrow Hcol.
    pose proof (Z.div_mod row B2 ltac:(lia)) as Hdm.
    pose proof (Z.mod_pos_bound row B2 HB2) as Hm.
    assert (Hi : 0 <= row `div` B2 < Blocking.ceil_div (height s) B2).
    { split; [apply Z.div_pos; lia|]. nia. }
    eexists. split.
    { rewrite list_lookup_fmap, tiles_lookup by done. reflexivity. }
    unfold g. simpl. split; [done|]. split.
    + rewrite pixel_window by nia. do 2 f_equal. lia.
    + unfold well_shaped, planes in Hshape. simpl in Hshape.
      destruct Hshape as (Hp & _).
      rewrite Hsz in Hp. simpl in Hp.
      destruct (latitude full) as [lat|] eqn:Hlat.
      * simpl in *. apply Forall_cons in Hp as [Hp _].
        eapply at2_shape; [done|lia..].
      * exfalso. unfold read_block in Hfull. cbv beta iota zeta in Hfull.
        inv_result Hfull; discriminate.
Qed.

End one_or_many.

(** ** The calibration by detector *)

Section detector_lookup.
Context {RT : Runtime}.

(** [table[names[band]][i]]: the entry of detector [i] in the column of
    a band of a calibration table. *)
Definition detector_lookup (table : gmap string (list float)) (names : gmap Z string)
    (band i : Z) : result float :=
  name ← getitem names band (KInt band);
  column ← getfield table name;
  np.index column i.

Lemma take__at {A} (col : list A) di r (y x : nat) i :
  np.take_ col di = Ok r -> np.at2 di y x = Some i ->
  exists v, np.index col i = Ok v /\ np.at2 r y x = Some v.
Proof.
  unfold np.take_, np.at2. intros Hm Hi.
  destruct (di !! y) as [drow|] eqn:Hdrow; [|done]. simpl in Hi.
  apply mapR_Forall2 in Hm.
  destruct (Forall2_lookup_l _ _ _ _ _ Hm Hdrow) as (row & Hrow & Hm').
  apply mapR_Forall2 in Hm'.
  destruct (Forall2_lookup_l _ _ _ _ _ Hm' Hi) as (v & Hv & Hidx).
  exists v. split; [done|]. by rewrite Hrow.
Qed.

Lemma at2_Some_range {A} (arr : list (list A)) ys xs (y x : nat) v :
  np.shape2 arr ys xs -> np.at2 arr y x = Some v ->
  Z.of_nat y < ys /\ Z.of_nat x < xs.
Proof.
  rewrite shape2_lookup. intros [Hl Hw]. unfold np.at2.
  destruct (arr !! y) as [row|] eqn:Hrow; [|done]. simpl. intros Hx.
  pose proof (Hw _ _ Hrow). apply lookup_lt_Some in Hrow, Hx. lia.
Qed.

End detector_lookup.

Section lookup_tables.
Context {RT : Runtime}.

Lemma ascii_lookup_table_at table names di band plane (y x : nat) i :
  Level1_ASCII.lookup_table table names di band = Ok plane ->
  np.at2 di y x = Some i ->
  exists v, detector_lookup table names band i = Ok v /\ np.at2 plane y x = Some v.
Proof.
  unfold Level1_ASCII.lookup_table, detector_lookup. intros Hl Hi. inv_result Hl.
  destruct (take__at _ _ _ _ _ _ Hl Hi) as (v & Hv & Hat).
  exists v. split; [|done].
  do 2 (eapply bind_intro; [eassumption|]). done.
Qed.

Lemma meris_lookup_table_at table names di band plane (y x : nat) i :
  Level1_MERIS.lookup_table table names di band = Ok plane ->
  np.at2 di y x = Some i ->
  exists v, detector_lookup table names band i = Ok v /\ np.at2 plane y x = Some v.
Proof.
  unfold Level1_MERIS.lookup_table, detector_lookup. intros Hl Hi. inv_result Hl.
  destruct (take__at _ _ _ _ _ _ Hl Hi) as (v & Hv & Hat).
  exists v. split; [|done].
  do 2 (eapply bind_intro; [eassumption|]). done.
Qed.

Lemma at2_map2 {A B} (f : A -> B) (arr : list (list A)) (y x : nat) :
  np.at2 (np.map2 f arr) y x = f <$> np.at2 arr y x.
Proof.
  unfold np.at2, np.map2. rewrite list_lookup_fmap.
  destruct (arr !! y) as [row|]; [|done]. simpl. by rewrite list_lookup_fmap.
Qed.

(** The solar flux and the wavelength of a block whose planes are looked
    up in the tables by the detector index [di]. *)
Definition calibrated (F0 wavelen : option (list (list (list float))))
    (tF0 : gmap string (list float)) (nF0 : gmap Z string)
    (twav : gmap string (list float)) (nwav : gmap Z string)
    (di : list (list Z)) (bands : list Z) : Prop :=
  exists F wl, F0 = Some F /\ wavelen = Some wl /\
    forall (k : nat) band (y x : nat) i,
      bands !! k = Some band -> np.at2 di y x = Some i ->
      exists f w,
        detector_lookup tF0 nF0 band i = Ok f /\
        detector_lookup twav nwav band i = Ok w /\
        np.at3 F y x k = Some f /\
        np.at3 wl y x k = Some (float32 w).

End lookup_tables.


Section calibration.
Context {RT : Runtime}.

Lemma calibrated_intro F0o wlo tF0 nF0 twav nwav di bands ys xs
    (flux_plane wav_plane : Z -> result (list (list float))) :
  np.shape2 di ys xs ->
  band_major F0o (ys, xs) bands flux_plane ->
  band_major wlo (ys, xs) bands wav_plane ->
  (forall band plane (y x : nat) i,
     flux_plane band = Ok plane -> np.at2 di y x = Some i ->
     exists v, detector_lookup tF0 nF0 band i = Ok v /\ np.at2 plane y x = Some v) ->
  (forall band plane (y x : nat) i,
     wav_plane band = Ok plane -> np.at2 di y x = Some i ->
     exists v, detector_lookup twav nwav band i = Ok v /\
               np.at2 plane y x = Some (float32 v)) ->
  calibrated F0o wlo tF0 nF0 twav nwav di bands.
Proof.
  intros Hdi (F & -> & HF) (wl & -> & Hwl) Hflux Hwav.
  exists F, wl. split; [done|]. split; [done|].
  intros k band y x i Hk Hi.
  destruct (at2_Some_range _ _ _ _ _ _ Hdi Hi) as [Hy Hx].
  destruct (HF _ _ Hk) as (pF & HpF & HatF).
  destruct (Hwl _ _ Hk) as (pw & Hpw & Hatw).
  destruct (Hflux _ _ _ _ _ HpF Hi) as (f & Hf & Hf').
  destruct (Hwav _ _ _ _ _ Hpw Hi) as (w & Hw & Hw').
  exists f, w. repeat split; [done|done| |].
  - rewrite HatF by done. done.
  - rewrite Hatw by done. done.
Qed.

Lemma ascii_wavelen_band_at table names di band plane (y x : nat) i :
  Level1_ASCII.wavelen_band table names di band = Ok plane ->
  np.at2 di y x = Some i ->
  exists v, detector_lookup table names band i = Ok v /\
            np.at2 plane y x = Some (float32 v).
Proof.
  unfold Level1_ASCII.wavelen_band. intros Hl Hi. inv_result Hl.
  match goal with E : Level1_ASCII.lookup_table _ _ _ _ = Ok _ |- _ =>
    destruct (ascii_lookup_table_at _ _ _ _ _ _ _ _ E Hi) as (v & Hv & Hat)
  end.
  exists v. split; [done|]. by rewrite at2_map2, Hat.
Qed.

Lemma meris_wavelen_band_at table names di band plane (y x : nat) i :
  Level1_MERIS.wavelen_band table names di band = Ok plane ->
  np.at2 di y x = Some i ->
  exists v, detector_lookup table names band i = Ok v /\
            np.at2 plane y x = Some (float32 v).
Proof.
  unfold Level1_MERIS.wavelen_band. intros Hl Hi. inv_result Hl.
  match goal with E : Level1_MERIS.lookup_table _ _ _ _ = Ok _ |- _ =>
    destruct (meris_lookup_table_at _ _ _ _ _ _ _ _ E Hi) as (v & Hv & Hat)
  end.
  exists v. split; [done|]. by rewrite at2_map2, Hat.
Qed.

Variable L2FLAGS : L2FLAGS_t.

(** C4, as the code has it.  In a block of a sensor of the MERIS family
    (an extraction of such a sensor, or a MERIS product), for every band
    [bands[k]] and every pixel, the solar flux is the entry of the flux
    table for that band and the detector index [di[y, x]] of the pixel
    (with the indexing of numpy), and the wavelength is the entry of the
    wavelength table stored as float32.  In a block of an extraction of
    another sensor, the wavelength of band [bands[k]] is its nominal value
    [float(bands[k])] stored as float32 at every pixel, and the block has
    no solar flux. *)
Theorem detector_calibration :
  (forall s ys xs offset bands b,
     Level1_ASCII.read_block L2FLAGS s (ys, xs) offset bands = Ok b ->
     let sl := (offset.1 * xs, (offset.1 + ys) * xs) in
     if Level1_ASCII.is_meris (Level1_ASCII.sensor s) then
       exists di tF0 nF0 twav nwav,
         Level1_ASCII.detector_index s sl (ys, xs) = Ok di /\
         Level1_ASCII.F0 s = Some tF0 /\ Level1_ASCII.F0_band_names s = Some nF0 /\
         Level1_ASCII.detector_wavelength s = Some twav /\
         Level1_ASCII.wav_band_names s = Some nwav /\
         calibrated (data.F0 b) (wavelen b) tF0 nF0 twav nwav di bands
     else
       data.F0 b = None /\
       exists wl, wavelen b = Some wl /\
         forall (k : nat) band (y x : nat),
           bands !! k = Some band -> Z.of_nat y < ys -> Z.of_nat x < xs ->
           np.at3 wl y x k = Some (float32 (of_int band))) /\
  (forall s ys xs offset bands b,
     Level1_MERIS.read_block L2FLAGS s (ys, xs) offset bands = Ok b ->
     exists di,
       Level1_MERIS.detector_index s (ys, xs) offset = Ok di /\
       calibrated (data.F0 b) (wavelen b)
         (Level1_MERIS.F0 s) (Level1_MERIS.F0_band_names s)
         (Level1_MERIS.detector_wavelength s) (Level1_MERIS.wav_band_names s)
         di bands).
Proof.
  split.
  - intros s ys xs offset bands b Hb sl.
    destruct (ascii_read_block_bands L2FLAGS _ _ _ _ _ _ Hb) as (_ & Hm & Hn).
    assert (Hdims : 0 <= ys /\ 0 <= xs).
    { unfold Level1_ASCII.read_block in Hb. cbv beta iota zeta in Hb.
      apply bind_Ok in Hb as (? & E & _).
      by apply full3_shape in E as (_ & ? & ? & _). }
    destruct (Level1_ASCII.is_meris (Level1_ASCII.sensor s)).
    + destruct (Hm eq_refl) as (di & tF0 & nF0 & twav & nwav & Hdi & ? & ? & ? & ? & HF & HW).
      exists di, tF0, nF0, twav, nwav. repeat (split; [done|]).
      eapply calibrated_intro; [|exact HF|exact HW|..].
      * eapply detector_index_shape; [| |exact Hdi]; apply Hdims.
      * apply ascii_lookup_table_at.
      * apply ascii_wavelen_band_at.
    + destruct (Hn eq_refl) as (HF & wl & Hwl & Hbands). split; [done|].
      exists wl. split; [done|]. intros k band y x Hk Hy Hx.
      destruct (Hbands _ _ Hk) as (plane & Hplane & Hat).
      rewrite Hat by done. by eapply at2_full2.
  - intros s ys xs offset bands b Hb.
    destruct (meris_read_block_bands L2FLAGS _ _ _ _ _ _ Hb) as (di & Hdi & _ & HF & HW).
    exists di. split; [done|].
    eapply calibrated_intro; [|exact HF|exact HW|..].
    + by eapply meris_detector_index_shape.
    + apply meris_lookup_table_at.
    + apply meris_wavelen_band_at.
Qed.

End calibration.

(** ** The quality bitmask *)



Definition flag_if (b : bool) (flag : Z) : Z := if b then flag else 0.

Section bits.



Lemma uint16_small v : 0 <= v < 2 ^ 16 -> uint16 v = v.
Proof. intros Hv. unfold uint16. by apply Z.mod_small. Qed.




End bits.

Section mask_facts.

Lemma at2_zip2 {A B C} (f : A -> B -> C) (a : list (list A)) (b : list (list B)) (y x : nat) :
  np.at2 (np.zip2 f a b) y x
  = np.at2 a y x ≫= fun u => np.at2 b y x ≫= fun v => Some (f u v).
Proof.
  unfold np.at2, np.zip2. rewrite lookup_zip_with.
  destruct (a !! y) as [ra|]; [|done]. simpl.
  destruct (b !! y) as [rb|]; simpl.
  - rewrite lookup_zip_with. done.
  - by destruct (ra !! x).
Qed.

Lemma at2_add_flag flag m mask (y x : nat) :
  np.at2 (add_flag flag m mask) y x
  = np.at2 m y x ≫= fun v => np.at2 mask y x ≫= fun b =>
      Some (uint16 (v + uint16 (flag * of_bool b))).
Proof.
  unfold add_flag, flag_mask. rewrite at2_zip2, at2_map2.
  destruct (np.at2 m y x); [|done]. simpl.
  by destruct (np.at2 mask y x).
Qed.

Lemma band_slice_at {A} (arr : list (list (list A))) nb (i : nat) plane (y x : nat) v :
  band_slice arr nb i = Ok plane -> np.at2 plane y x = Some v ->
  np.at3 arr y x i = Some v.
Proof.
  unfold band_slice. case_decide; [|discriminate]. unfold np.get_band, np.at2, np.at3.
  intros Hm Hv. destruct (plane !! y) as [prow|] eqn:Hprow; [|done]. simpl in Hv.
  destruct (mapR_lookup _ _ _ _ _ Hm Hprow) as (row & Hrow & Hm').
  destruct (mapR_lookup _ _ _ _ _ Hm' Hv) as (px & Hpx & Hi).
  rewrite Hrow. simpl. rewrite Hpx. simpl.
  by destruct (px !! i); simplify_eq.
Qed.

End mask_facts.

Section bitmask_of_blocks.
Context {RT : Runtime}.
Variable L2FLAGS : L2FLAGS_t.

Lemma at2_full2_inv {A} (v0 : A) size plane (y x : nat) v :
  np.full2 size v0 = Ok plane -> np.at2 plane y x = Some v -> v = v0.
Proof.
  unfold np.full2. case_decide; [|discriminate]. intros [= <-]. unfold np.at2.
  intros Hv. destruct (replicate _ _ !! y) as [row|] eqn:Hrow; [|done].
  apply lookup_replicate in Hrow as [-> _]. simpl in Hv.
  by apply lookup_replicate in Hv as [-> _].
Qed.

(** The bitmask of a block of an extraction, pixel by pixel: the flag
    [L1_INVALID] times the truth value of "the relative azimuth is NaN or
    the signal of the first band is negative", on [uint16]. *)
Lemma ascii_read_block_bitmask s ys xs offset bands b :
  Level1_ASCII.read_block L2FLAGS s (ys, xs) offset bands = Ok b ->
  exists m r T,
    bitmask b = Some m /\ raa (_raa b) (saa b) (vaa b) = Ok r /\ TOA b = Some T /\
    np.shape2 m ys xs /\
    forall (y x : nat) v, np.at2 m y x = Some v ->
      exists rv t,
        np.at2 r y x = Some rv /\ np.at3 T y x 0 = Some t /\
        v = uint16 (0 + uint16 (L1_INVALID L2FLAGS * of_bool (isnan rv || ltz t))).
Proof.
  intros Hb.
  destruct (ascii_read_block_shape L2FLAGS _ _ _ _ _ _ Hb) as (Hsz & _ & _ & _ & Hint & _).
  unfold Level1_ASCII.read_block in Hb. cbv beta iota zeta in Hb.
  inv_result Hb.
  all: eexists _, _, _; split; [reflexivity|]; split; [eassumption|].
  all: split; [reflexivity|]; split.
  all: try (unfold int_planes in Hint; simpl in Hint;
            by apply Forall_cons in Hint as [_ [Hm _]%Forall_cons]).
  all: intros py px pv Hv; rewrite at2_add_flag, at2_zip2, !at2_map2 in Hv.
  all: match goal with
       | E : np.full2 _ _ = Ok ?z |- _ =>
           destruct (np.at2 z py px) as [v0|] eqn:Hv0; [|done];
           apply (at2_full2_inv _ _ _ _ _ _ E) in Hv0 as ->
       end.
  all: match goal with
       | E : raa _ _ _ = Ok ?r |- _ =>
           destruct (np.at2 r py px) as [rv|]; [|done]
       end.
  all: match goal with
       | E : band_slice _ _ _ = Ok ?p |- _ =>
           destruct (np.at2 p py px) as [t|] eqn:Ht; [|done];
           apply (band_slice_at _ _ _ _ _ _ _ E) in Ht
       end.
  all: simpl in Hv; injection Hv as <-.
  all: by exists rv, t.
Qed.


End bitmask_of_blocks.

Section bitmask_theorems.
Context {RT : Runtime}.

Lemma one_flag flag c :
  0 < flag < 2 ^ 16 -> uint16 (0 + uint16 (flag * of_bool c)) = flag_if c flag.
Proof.
  intros Hf. destruct c; simpl.
  - rewrite Z.mul_1_r, (uint16_small flag), Z.add_0_l by lia.
    apply uint16_small. lia.
  - by rewrite Z.mul_0_r.
Qed.

(** C5, as the code has it.  In every block of an extraction, the bit
    [L1_INVALID] of the bitmask is set at a pixel if and only if the
    relative azimuth of the block (read, or derived from the two
    azimuths) is NaN at that pixel or the signal of the first requested
    band is negative there.  The other values of the pixel are not
    looked at. *)
Theorem invalid_flag_of_extraction (L : L2FLAGS_t) s ys xs offset bands b :
  0 < L1_INVALID L < 2 ^ 16 ->
  Level1_ASCII.read_block L s (ys, xs) offset bands = Ok b ->
  exists m r T,
    bitmask b = Some m /\ raa (_raa b) (saa b) (vaa b) = Ok r /\ TOA b = Some T /\
    forall y x : nat, Z.of_nat y < ys -> Z.of_nat x < xs ->
      exists v rv t,
        np.at2 m y x = Some v /\ np.at2 r y x = Some rv /\ np.at3 T y x 0 = Some t /\
        (Z.land v (L1_INVALID L) <> 0 <-> isnan rv = true \/ ltz t = true).
Proof.
  intros Hflag Hb.
  destruct (ascii_read_block_bitmask L _ _ _ _ _ _ Hb)
    as (m & r & T & Hm & Hr & HT & Hshape & Hpix).
  exists m, r, T. repeat (split; [done|]). intros y x Hy Hx.
  destruct (at2_shape m ys xs y x Hshape Hy Hx) as [v Hv].
  destruct (Hpix _ _ _ Hv) as (rv & t & Hrv & Ht & ->).
  eexists _, rv, t. repeat (split; [done|]).
  rewrite one_flag by done.
  destruct (isnan rv), (ltz t); simpl; rewrite ?Z.land_diag, ?Z.land_0_l.
  all: split; [auto|]; intros Hc; try lia.
  all: destruct Hc; discriminate.
Qed.


End bitmask_theorems.

(** ** The constructor of the reader of extractions *)

Section constructor.
Context {RT : Runtime}.
Variable BANDS_MERIS : list Z.
Import Level1_ASCII.

(** The source that the constructor returns once every step has
    succeeded. *)
Definition new_source (a : kw.t) (band_names : gmap Z string)
    (smile : option (gmap string (list float)) * option (gmap string (list float))
             * option (gmap Z string) * option (gmap Z string))
    (csv : DataFrame) (dates : list datetime) : Source :=
  {| sensor := kw.sensor a;
     filename := kw.filename a;
     TOAR := kw.TOAR a;
     headers := kw.headers a;
     relative_azimuth := kw.relative_azimuth a;
     wind_module := kw.wind_module a;
     verbose := kw.verbose a;
     band_names := band_names;
     F0 := smile.1.1.1;
     detector_wavelength := smile.1.1.2;
     F0_band_names := smile.1.2;
     wav_band_names := smile.2;
     csv := csv;
     height := nrows csv `div` kw.square a;
     width := kw.square a;
     shape := (nrows csv `div` kw.square a, kw.square a);
     blocksize := kw.blocksize a;
     dates := dates |}.

(** The constructor, step by step. *)
Lemma init_run w a log :
  __init__ BANDS_MERIS w a log =
  match resolve_bands BANDS_MERIS a with
  | Raise e => (Raise e, log)
  | Ok BANDS =>
  match names_of_bands (header (kw.headers a) "TOA") 1 BANDS with
  | Raise e => (Raise e, log)
  | Ok band_names =>
  match load_smile w a BANDS log with
  | (Raise e, log1) => (Raise e, log1)
  | (Ok smile, log1) =>
  match assemble_columns a band_names with
  | Raise e => (Raise e, log1)
  | Ok columns =>
  let log2 := log1 ++ [ReadCsv (kw.filename a) (kw.sep a) columns] in
  match read_csv w (kw.filename a) (kw.sep a) columns with
  | Raise e => (Raise e, log2)
  | Ok csv =>
  match check_square (nrows csv) (kw.square a) with
  | Raise e => (Raise e, log2)
  | Ok _ =>
  match parse_dates a csv with
  | Raise e => (Raise e, log2)
  | Ok dates => (Ok (new_source a band_names smile csv dates), log2)
  end end end end end end end.
Proof.
  unfold __init__, mbind, IO_bind, pure, perform, mret, IO_ret.
  destruct (resolve_bands BANDS_MERIS a) as [BANDS|]; [|done].
  destruct (names_of_bands _ 1 BANDS) as [bn|]; [|done].
  destruct (load_smile w a BANDS log) as [[sm|] log1]; [|done].
  destruct (assemble_columns a bn) as [cols|]; [|done].
  cbv zeta.
  destruct (read_csv w _ _ cols) as [df|]; [|done].
  destruct (check_square _ _) as [[]|]; [|done].
  by destruct (parse_dates a df).
Qed.



End constructor.

Section constructor_theorems.
Context {RT : Runtime}.
Variable BANDS_MERIS : list Z.
Import Level1_ASCII.

Lemma check_square_Ok n sq : check_square n sq = Ok tt <-> sq <> 0 /\ n `mod` sq = 0.
Proof.
  unfold check_square. repeat case_decide; split; try done; intros [? ?]; done.
Qed.

(** C7, as the code has it.  The constructor returns a source only if
    [square] is not zero and the number of rows of the file is a multiple
    of it, and the source then has the shape [(nrows/square, square)],
    which covers all the rows.  Once the file is read: a zero [square]
    raises [ZeroDivisionError]; a number of rows that is not a multiple of
    [square] raises the [AssertionError] of the [assert] statement; a
    multiple passes the check, and the constructor returns the source as
    soon as the times of the rows parse. *)
Theorem row_count_check w a log :
  (forall s log',
     __init__ BANDS_MERIS w a log = (Ok s, log') ->
     kw.square a <> 0 /\ nrows (csv s) `mod` kw.square a = 0 /\
     shape s = (nrows (csv s) `div` kw.square a, kw.square a) /\
     height s * width s = nrows (csv s)) /\
  (forall BANDS band_names smile log1 columns df,
     resolve_bands BANDS_MERIS a = Ok BANDS ->
     names_of_bands (header (kw.headers a) "TOA") 1 BANDS = Ok band_names ->
     load_smile w a BANDS log = (Ok smile, log1) ->
     assemble_columns a band_names = Ok columns ->
     read_csv w (kw.filename a) (kw.sep a) columns = Ok df ->
     let log2 := log1 ++ [ReadCsv (kw.filename a) (kw.sep a) columns] in
     (kw.square a = 0 ->
        __init__ BANDS_MERIS w a log = (Raise ZeroDivisionError, log2)) /\
     (kw.square a <> 0 -> nrows df `mod` kw.square a <> 0 ->
        __init__ BANDS_MERIS w a log = (Raise AssertionError, log2)) /\
     (kw.square a <> 0 -> nrows df `mod` kw.square a = 0 ->
        forall dates, parse_dates a df = Ok dates ->
          __init__ BANDS_MERIS w a log
          = (Ok (new_source a band_names smile df dates), log2) /\
          shape (new_source a band_names smile df dates)
          = (nrows df `div` kw.square a, kw.square a))).
Proof.
  split.
  - intros s log'. rewrite init_run.
    destruct (resolve_bands _ a) as [BANDS|]; [|discriminate].
    destruct (names_of_bands _ 1 BANDS) as [bn|]; [|discriminate].
    destruct (load_smile w a BANDS log) as [[sm|] log1]; [|discriminate].
    destruct (assemble_columns a bn) as [cols|]; [|discriminate].
    cbv zeta.
    destruct (read_csv w _ _ cols) as [df|]; [|discriminate].
    destruct (check_square _ _) as [[]|] eqn:Hc; [|discriminate].
    destruct (parse_dates a df) as [dates|]; [|discriminate].
    intros [= <- <-]. apply check_square_Ok in Hc as [Hsq Hmod].
    simpl. repeat (split; [done|]).
    pose proof (Z.div_mod (nrows df) (kw.square a) Hsq). lia.
  - intros BANDS bn sm log1 cols df HB Hbn Hsm Hcols Hdf log2.
    rewrite init_run, HB, Hbn, Hsm, Hcols. cbv zeta. rewrite Hdf.
    unfold check_square. split; [|split].
    + intros Hz. by rewrite decide_True.
    + intros Hz Hm. by rewrite !decide_False.
    + intros Hz Hm dates Hd.
      rewrite decide_False, decide_True by done. by rewrite Hd.
Qed.






End constructor_theorems.

Section default_headers.
Context {RT : Runtime}.
Variable BANDS_MERIS : list Z.
Import Level1_ASCII.








End default_headers.

(** ** Repeated reads *)

(** *** Running the statements *)

Lemma result_bind_assoc {A B C} (m : result A) (f : A -> result B) (g : B -> result C) :
  (m ≫= f) ≫= g = m ≫= fun a => f a ≫= g.
Proof. by destruct m. Qed.

Section store_facts.
Context {RT : Runtime}.
Import Store.

(** The store of a call in progress is [h0 ++ cells]: the store [h0] at
    the beginning of the call, and the cells that the call has made since. *)

Lemma ST_bind_run {A B} (m : ST A) (f : A -> ST B) h :
  (m ≫= f) h
  = match m h with (Ok a, h') => f a h' | (Raise e, h') => (Raise e, h') end.
Proof. reflexivity. Qed.

Lemma ST_bind_assoc {A B C} (m : ST A) (f : A -> ST B) (g : B -> ST C) h :
  ((m ≫= f) ≫= g) h = (m ≫= fun a => f a ≫= g) h.
Proof. rewrite !ST_bind_run. by destruct (m h) as [[a|e] h']. Qed.

Lemma new_run a h0 cells :
  new a (h0 ++ cells) = (Ok (length h0 + length cells)%nat, h0 ++ (cells ++ [a])).
Proof. cbv beta delta [new]. by rewrite length_app, app_assoc. Qed.

Lemma get_cell h0 cells k a :
  cells !! k = Some a ->
  get (length h0 + k)%nat (h0 ++ cells) = (Ok a, h0 ++ cells).
Proof.
  intros Hk. cbv beta delta [get].
  by rewrite lookup_app_r, Nat.add_sub', Hk by lia.
Qed.

Lemma get_base h0 cells l a :
  h0 !! l = Some a -> get l (h0 ++ cells) = (Ok a, h0 ++ cells).
Proof. intros Hl. cbv beta delta [get]. by rewrite (lookup_app_l_Some _ _ _ _ Hl). Qed.

Lemma put_cell h0 cells k a :
  put (length h0 + k)%nat a (h0 ++ cells) = (Ok tt, h0 ++ <[k := a]> cells).
Proof. cbv beta delta [put]. by rewrite insert_app_r. Qed.

Lemma get_floats3_cell h0 cells k v :
  cells !! k = Some (floats3 v) ->
  get_floats3 (length h0 + k)%nat (h0 ++ cells) = (Ok v, h0 ++ cells).
Proof. intros Hk. unfold get_floats3. by rewrite ST_bind_run, (get_cell _ _ _ _ Hk). Qed.

Lemma get_ints2_cell h0 cells k v :
  cells !! k = Some (ints2 v) ->
  get_ints2 (length h0 + k)%nat (h0 ++ cells) = (Ok v, h0 ++ cells).
Proof. intros Hk. unfold get_ints2. by rewrite ST_bind_run, (get_cell _ _ _ _ Hk). Qed.

Lemma get_bools2_cell h0 cells k v :
  cells !! k = Some (bools2 v) ->
  get_bools2 (length h0 + k)%nat (h0 ++ cells) = (Ok v, h0 ++ cells).
Proof. intros Hk. unfold get_bools2. by rewrite ST_bind_run, (get_cell _ _ _ _ Hk). Qed.

Lemma get_fields_base h0 cells l t :
  h0 !! l = Some (fields t) -> get_fields l (h0 ++ cells) = (Ok t, h0 ++ cells).
Proof. intros Hl. unfold get_fields. by rewrite ST_bind_run, (get_base _ _ _ _ Hl). Qed.

Lemma read_cell h0 cells k v :
  cells !! k = Some (floats2 v) ->
  read (array (length h0 + k)%nat) (h0 ++ cells) = (Ok v, h0 ++ cells).
Proof. intros Hk. unfold read. by rewrite ST_bind_run, (get_cell _ _ _ _ Hk). Qed.

Lemma setitem_band_cell h0 cells k a iband plane :
  cells !! k = Some (floats3 a) ->
  setitem_band (length h0 + k)%nat iband plane (h0 ++ cells)
  = (Ok tt, h0 ++ <[k := floats3 (np.set_band a iband plane)]> cells).
Proof.
  intros Hk. unfold setitem_band.
  by rewrite ST_bind_run, (get_floats3_cell _ _ _ _ Hk), put_cell.
Qed.

Lemma setitem_scalar_cell h0 cells k a iband v :
  cells !! k = Some (floats3 a) ->
  setitem_scalar (length h0 + k)%nat iband v (h0 ++ cells)
  = (Ok tt, h0 ++ <[k := floats3 (np.fill_band a iband v)]> cells).
Proof.
  intros Hk. unfold setitem_scalar.
  by rewrite ST_bind_run, (get_floats3_cell _ _ _ _ Hk), put_cell.
Qed.

Lemma ior_cell h0 cells k a other :
  cells !! k = Some (bools2 a) ->
  ior (length h0 + k)%nat other (h0 ++ cells)
  = (Ok tt, h0 ++ <[k := bools2 (np.zip2 orb a other)]> cells).
Proof.
  intros Hk. unfold ior.
  by rewrite ST_bind_run, (get_bools2_cell _ _ _ _ Hk), put_cell.
Qed.

Lemma iadd_flag_cell h0 cells k a flag mask :
  cells !! k = Some (ints2 a) ->
  iadd_flag (length h0 + k)%nat flag mask (h0 ++ cells)
  = (Ok tt, h0 ++ <[k := ints2 (add_flag flag a mask)]> cells).
Proof.
  intros Hk. unfold iadd_flag.
  by rewrite ST_bind_run, (get_ints2_cell _ _ _ _ Hk), put_cell.
Qed.

(** A loop over the bands writes the array that it fills and no other. *)
Lemma assign_bands_run (plane_of : Z -> ST (np.array2 float))
    (plane_of' : Z -> result (np.array2 float)) (h0 : store) k bands :
  forall cells arr iband,
  cells !! k = Some (floats3 arr) ->
  (forall band arr',
     plane_of band (h0 ++ <[k := floats3 arr']> cells)
     = (plane_of' band, h0 ++ <[k := floats3 arr']> cells)) ->
  exists arr',
    fill_bands plane_of (length h0 + k)%nat iband bands (h0 ++ cells)
    = match assign_bands plane_of' arr iband bands with
      | Ok a => (Ok tt, h0 ++ <[k := floats3 a]> cells)
      | Raise e => (Raise e, h0 ++ <[k := floats3 arr']> cells)
      end.
Proof.
  induction bands as [|band rest IH]; intros cells arr iband Hk Hplane.
  - exists arr. simpl. by rewrite list_insert_id.
  - simpl. rewrite ST_bind_run.
    pose proof (Hplane band arr) as Hb. rewrite list_insert_id in Hb by done.
    rewrite Hb. destruct (plane_of' band) as [plane|e].
    + rewrite ST_bind_run, (setitem_band_cell _ _ _ _ _ _ Hk). simpl.
      destruct (IH (<[k := floats3 (np.set_band arr iband plane)]> cells)
                  (np.set_band arr iband plane) (S iband)) as (arr' & Hrun).
      { apply list_lookup_insert_eq. by eapply lookup_lt_Some. }
      { intros band' arr''. rewrite list_insert_insert_eq. apply Hplane. }
      exists arr'. rewrite Hrun.
      destruct (assign_bands plane_of' _ _ rest); by rewrite list_insert_insert_eq.
    + exists arr. by rewrite list_insert_id.
Qed.

Lemma assign_scalars_run (value_of : Z -> float) h0 k bands :
  forall cells arr iband,
  cells !! k = Some (floats3 arr) ->
  fill_scalars value_of (length h0 + k)%nat iband bands (h0 ++ cells)
  = (Ok tt, h0 ++ <[k := floats3 (assign_scalars value_of arr iband bands)]> cells).
Proof.
  induction bands as [|band rest IH]; intros cells arr iband Hk; simpl.
  - by rewrite list_insert_id.
  - rewrite ST_bind_run, (setitem_scalar_cell _ _ _ _ _ _ Hk).
    rewrite (IH _ (np.fill_band arr iband (value_of band))).
    + by rewrite list_insert_insert_eq.
    + apply list_lookup_insert_eq. by eapply lookup_lt_Some.
Qed.

(** A call refines a value [r] of the readers above from the store [h0]:
    it leaves the arrays of [h0] as they are, and it gives [r]. *)
Definition refines (h0 : store) (out : result Block * store) (r : result data.Block) : Prop :=
  h0 `prefix_of` out.2 /\ gives out.2 out.1 r.

Lemma refines_lift {A} (h0 : store) cells (e : result A) (f : A -> ST Block)
    (g : A -> result data.Block) :
  (forall a, e = Ok a -> refines h0 (f a (h0 ++ cells)) (g a)) ->
  refines h0 ((lift e ≫= f) (h0 ++ cells)) (e ≫= g).
Proof.
  intros Hk. rewrite ST_bind_run. unfold lift.
  destruct e as [a|err]; [by apply Hk|]. split; [by exists cells|done].
Qed.

Lemma refines_bind {A A'} (h0 : store) cells cells' (m : ST A) (e : result A')
    (v : A' -> A) (c : A' -> list ndarray)
    (f : A -> ST Block) (g : A' -> result data.Block) :
  m (h0 ++ cells)
  = match e with
    | Ok a => (Ok (v a), h0 ++ c a)
    | Raise err => (Raise err, h0 ++ cells')
    end ->
  (forall a, e = Ok a -> refines h0 (f (v a) (h0 ++ c a)) (g a)) ->
  refines h0 ((m ≫= f) (h0 ++ cells)) (e ≫= g).
Proof.
  intros Hm Hk. rewrite ST_bind_run, Hm.
  destruct e as [a|err]; [by apply Hk|]. split; [by exists cells'|done].
Qed.

Lemma refines_exec {A} (h0 : store) cells cells' (m : ST A) (a : A)
    (f : A -> ST Block) (r : result data.Block) :
  m (h0 ++ cells) = (Ok a, h0 ++ cells') ->
  refines h0 (f a (h0 ++ cells')) r ->
  refines h0 ((m ≫= f) (h0 ++ cells)) r.
Proof. intros Hm Hk. by rewrite ST_bind_run, Hm. Qed.

Lemma refines_new (h0 : store) cells a (f : loc -> ST Block) (r : result data.Block) :
  refines h0 (f (length h0 + length cells)%nat (h0 ++ (cells ++ [a]))) r ->
  refines h0 ((new a ≫= f) (h0 ++ cells)) r.
Proof. apply refines_exec, new_run. Qed.

Lemma refines_ret (h0 : store) cells (b : Block) (v : data.Block) :
  contents b (h0 ++ cells) = (Ok v, h0 ++ cells) ->
  refines h0 ((mret b : ST Block) (h0 ++ cells)) (Ok v).
Proof. intros Hb. split; [by exists cells|]. simpl. by rewrite Hb. Qed.

Lemma refines_pure {A} (h0 : store) cells (m : ST A) (e : result A)
    (f : A -> ST Block) (g : A -> result data.Block) :
  m (h0 ++ cells) = (e, h0 ++ cells) ->
  (forall a, e = Ok a -> refines h0 (f a (h0 ++ cells)) (g a)) ->
  refines h0 ((m ≫= f) (h0 ++ cells)) (e ≫= g).
Proof. intros Hm. rewrite ST_bind_run, Hm. apply refines_lift. Qed.

Lemma refines_assoc {A B} (h0 : store) h (m : ST A) (f : A -> ST B)
    (g : B -> ST Block) (r : result data.Block) :
  refines h0 ((m ≫= fun a => f a ≫= g) h) r ->
  refines h0 (((m ≫= f) ≫= g) h) r.
Proof. by rewrite ST_bind_assoc. Qed.

Lemma refines_ret_bind {A} (h0 : store) h (a : A) (f : A -> ST Block)
    (r : result data.Block) :
  refines h0 (f a h) r -> refines h0 ((mret a ≫= f) h) r.
Proof. done. Qed.

Lemma refines_lift_Ok {A} (h0 : store) h (a : A) (f : A -> ST Block)
    (r : result data.Block) :
  refines h0 (f a h) r -> refines h0 ((lift (Ok a) ≫= f) h) r.
Proof. done. Qed.

Lemma refines_pure_assoc {A B} (h0 : store) out (m : result A) (f : A -> result B)
    (g : B -> result data.Block) :
  refines h0 out (m ≫= fun a => f a ≫= g) ->
  refines h0 out ((m ≫= f) ≫= g).
Proof. by rewrite result_bind_assoc. Qed.

Lemma refines_pure_ret {A} (h0 : store) out (a : A) (g : A -> result data.Block) :
  refines h0 out (g a) -> refines h0 out (Ok a ≫= g).
Proof. done. Qed.

Lemma refines_fill_bands (h0 : store) cells k arr iband bands
    (plane_of : Z -> ST (np.array2 float)) (plane_of' : Z -> result (np.array2 float))
    (f : unit -> ST Block) (g : np.array3 float -> result data.Block) :
  cells !! k = Some (floats3 arr) ->
  (forall band arr',
     plane_of band (h0 ++ <[k := floats3 arr']> cells)
     = (plane_of' band, h0 ++ <[k := floats3 arr']> cells)) ->
  (forall a, assign_bands plane_of' arr iband bands = Ok a ->
     refines h0 (f tt (h0 ++ <[k := floats3 a]> cells)) (g a)) ->
  refines h0 ((fill_bands plane_of (length h0 + k)%nat iband bands ≫= f) (h0 ++ cells))
    (assign_bands plane_of' arr iband bands ≫= g).
Proof.
  intros Hk Hplane.
  destruct (assign_bands_run plane_of plane_of' h0 k bands cells arr iband Hk Hplane)
    as [arr' Hrun].
  by apply (refines_bind h0 cells (<[k := floats3 arr']> cells) _ _
              (fun _ => tt) (fun a => <[k := floats3 a]> cells)).
Qed.

Lemma refines_raise (h0 : store) cells e :
  refines h0 (Raise e, h0 ++ cells) (Raise e).
Proof. split; [by exists cells|done]. Qed.

Lemma refines_lift_Raise {A A'} (h0 : store) cells e (f : A -> ST Block)
    (g : A' -> result data.Block) :
  refines h0 ((lift (Raise e) ≫= f) (h0 ++ cells)) (Raise e ≫= g).
Proof. apply refines_raise. Qed.

(** Reading the attributes of a block. *)
Lemma exec_bind {A B} (m : ST A) (f : A -> ST B) h a out :
  m h = (Ok a, h) -> f a h = out -> (m ≫= f) h = out.
Proof. intros Hm Hf. by rewrite ST_bind_run, Hm. Qed.

Lemma fetch_cell (h0 : store) cells k a :
  cells !! k = Some (floats2 a) ->
  fetch (Some (array (length h0 + k)%nat)) (h0 ++ cells) = (Ok (Some a), h0 ++ cells).
Proof. intros Hk. unfold fetch. by rewrite ST_bind_run, (read_cell _ _ _ _ Hk). Qed.

Lemma fetch3_cell (h0 : store) cells k a :
  cells !! k = Some (floats3 a) ->
  fetch3 (Some (length h0 + k)%nat) (h0 ++ cells) = (Ok (Some a), h0 ++ cells).
Proof. intros Hk. unfold fetch3. by rewrite ST_bind_run, (get_floats3_cell _ _ _ _ Hk). Qed.

Lemma fetch_ints_cell (h0 : store) cells k a :
  cells !! k = Some (ints2 a) ->
  fetch_ints (Some (length h0 + k)%nat) (h0 ++ cells) = (Ok (Some a), h0 ++ cells).
Proof. intros Hk. unfold fetch_ints. by rewrite ST_bind_run, (get_ints2_cell _ _ _ _ Hk). Qed.

Lemma jday_cell (h0 : store) cells k a :
  cells !! k = Some (ints2 a) ->
  (get_ints2 (length h0 + k)%nat ≫= fun a => mret (Some (data.jday_pixels a)))
    (h0 ++ cells)
  = (Ok (Some (data.jday_pixels a)), h0 ++ cells).
Proof. intros Hk. by rewrite ST_bind_run, (get_ints2_cell _ _ _ _ Hk). Qed.

Lemma raa_run (h0 : store) cells r s v r' s' v' :
  fetch r (h0 ++ cells) = (Ok r', h0 ++ cells) ->
  fetch s (h0 ++ cells) = (Ok s', h0 ++ cells) ->
  fetch v (h0 ++ cells) = (Ok v', h0 ++ cells) ->
  raa r s v (h0 ++ cells) = (data.raa r' s' v', h0 ++ cells).
Proof.
  intros Hr Hs Hv. unfold raa.
  eapply exec_bind; [exact Hr|]. eapply exec_bind; [exact Hs|].
  by eapply exec_bind; [exact Hv|].
Qed.

End store_facts.

(** One statement of a reader at a time: the store is [h0 ++ cells] with
    the cells written out, so that every place is a number. *)
Ltac normal := cbv beta iota zeta; cbn [app length insert list_insert].

Ltac cell :=
  first [ reflexivity
        | apply fetch_cell; reflexivity
        | apply fetch3_cell; reflexivity
        | apply fetch_ints_cell; reflexivity
        | apply jday_cell; reflexivity
        | apply get_floats3_cell; reflexivity
        | apply get_bools2_cell; reflexivity
        | apply ior_cell; reflexivity
        | apply iadd_flag_cell; reflexivity
        | apply assign_scalars_run; reflexivity ].

Ltac statement fact plane :=
  lazymatch goal with
  | |- refines _ _ ((_ ≫= _) ≫= _) => apply refines_pure_assoc
  | |- refines _ _ (Ok _ ≫= _) => apply refines_pure_ret
  | |- refines _ (((if ?b then _ else _) ≫= _) _) _ => destruct b eqn:?
  | |- refines _ (((_ ≫= _) ≫= _) _) _ => apply refines_assoc
  | |- refines _ ((mret _ ≫= _) _) _ => apply refines_ret_bind
  | |- refines _ ((Store.lift (if ?b then _ else _) ≫= _) _) _ => destruct b
  | |- refines _ ((Store.lift (Ok _) ≫= _) _) _ => apply refines_lift_Ok
  | |- refines _ ((Store.lift (Raise _) ≫= _) _) _ => apply refines_lift_Raise
  | |- refines _ ((Store.lift _ ≫= _) _) _ => apply refines_lift; intros ? ?
  | |- refines _ ((Store.new _ ≫= _) _) _ => apply refines_new
  | |- refines _ ((Store.fill_bands _ _ _ _ ≫= _) _) _ =>
      apply refines_fill_bands; [reflexivity|intros; plane|intros ? ?]
  | |- refines _ ((Store.raa _ _ _ ≫= _) _) _ =>
      eapply refines_pure; [apply raa_run; fact|intros ? ?]
  | |- refines _ ((mret _) _) (Ok _) =>
      apply refines_ret; unfold Store.contents;
      cbn [Store.offset Store.size Store.bands Store.latitude Store.longitude
           Store.sza Store.vza Store._raa Store.saa Store.vaa Store.Rtoa
           Store.Ltoa Store.F0 Store.wavelen Store.jday Store.month
           Store.bitmask Store.ozone Store.wind_speed Store.surf_press];
      repeat (eapply exec_bind; [fact|normal]); reflexivity
  | |- refines _ ((_ ≫= _) _) _ => eapply refines_exec; [fact|]
  end; normal.

Section ascii_store.
Context {RT : Runtime}.
Variable L2FLAGS : L2FLAGS_t.
Import Store.
Variable s : Level1_ASCII.Source.
Variable p : ASCII.places.
Variable h0 : store.
Hypothesis Hst : ASCII.stored s p h0.

Lemma column_stored cname :
  match ASCII.columns_at p !! cname with
  | Some l => exists a col, h0 !! l = Some a /\ ASCII.as_column a = Some col /\
                            columns (Level1_ASCII.csv s) !! cname = Some col
  | None => columns (Level1_ASCII.csv s) !! cname = None
  end.
Proof.
  destruct Hst as (Hc & _). apply (f_equal (fun m => m !! cname)) in Hc.
  rewrite !lookup_fmap in Hc.
  destruct (ASCII.columns_at p !! cname) as [l|];
    destruct (columns (Level1_ASCII.csv s) !! cname) as [col|];
    simpl in Hc; try done.
  injection Hc as Hc. destruct (h0 !! l) as [a|]; [|done]. by exists a, col.
Qed.

Lemma read_view_run cells cname sl size :
  match ASCII.columns_at p !! cname with
  | Some l => read (view l sl size) (h0 ++ cells)
              = (Level1_ASCII.csv_block s cname sl size, h0 ++ cells)
  | None => Level1_ASCII.csv_block s cname sl size = Raise (KeyError (KStr cname))
  end.
Proof.
  pose proof (column_stored cname) as Hc. unfold Level1_ASCII.csv_block, getitem.
  destruct (ASCII.columns_at p !! cname) as [l|]; [|by rewrite Hc].
  destruct Hc as (a & col & Ha & Hcol & ->). simpl.
  unfold read. rewrite ST_bind_run, (get_base _ _ _ _ Ha).
  by destruct a; inversion Hcol.
Qed.

Lemma csv_block_run cells cname sl size :
  ASCII.csv_block p cname sl size (h0 ++ cells)
  = match Level1_ASCII.csv_block s cname sl size with
    | Ok a => (Ok (view (ASCII.column_at p cname) sl size), h0 ++ cells)
    | Raise e => (Raise e, h0 ++ cells)
    end.
Proof.
  pose proof (read_view_run cells cname sl size) as Hr.
  unfold ASCII.csv_block, ASCII.column_at, getitem. rewrite ST_bind_run.
  destruct (ASCII.columns_at p !! cname) as [l|]; [|by rewrite Hr].
  cbv beta iota delta [lift]. rewrite ST_bind_run, Hr.
  by destruct (Level1_ASCII.csv_block s cname sl size).
Qed.

Lemma read_view cells cname sl size a :
  Level1_ASCII.csv_block s cname sl size = Ok a ->
  read (view (ASCII.column_at p cname) sl size) (h0 ++ cells) = (Ok a, h0 ++ cells).
Proof.
  intros Ha. pose proof (read_view_run cells cname sl size) as Hr.
  unfold ASCII.column_at.
  destruct (ASCII.columns_at p !! cname) as [l|]; [|congruence].
  by rewrite <- Ha.
Qed.

Lemma get_field_run cells fname sl size :
  ASCII.get_field s p fname sl size (h0 ++ cells)
  = match Level1_ASCII.get_field s fname sl size with
    | Ok a => (Ok (array (length h0 + length cells)%nat), h0 ++ (cells ++ [floats2 a]))
    | Raise e => (Raise e, h0 ++ cells)
    end.
Proof.
  unfold ASCII.get_field, Level1_ASCII.get_field. rewrite ST_bind_run.
  cbv beta iota delta [lift].
  destruct (Level1_ASCII.header _ fname) as [cname|e]; [|done].
  cbv beta iota. rewrite bind_Ok_eq, ST_bind_run, csv_block_run.
  destruct (Level1_ASCII.csv_block s cname sl size) as [a|e] eqn:Ha; [|done].
  cbv beta iota.
  by rewrite ST_bind_run, (read_view _ _ _ _ _ Ha), ST_bind_run, new_run.
Qed.

Lemma TOA_band_run cells sl size band :
  ASCII.TOA_band s p sl size band (h0 ++ cells)
  = (Level1_ASCII.TOA_band s sl size band, h0 ++ cells).
Proof.
  unfold ASCII.TOA_band, Level1_ASCII.TOA_band. rewrite ST_bind_run.
  cbv beta iota delta [lift].
  destruct (getitem _ band _) as [name|e]; [|done].
  cbv beta iota. rewrite bind_Ok_eq, ST_bind_run, csv_block_run.
  destruct (Level1_ASCII.csv_block s name sl size) as [a|e] eqn:Ha; [|done].
  by rewrite (read_view _ _ _ _ _ Ha).
Qed.

Lemma detector_index_run cells sl size :
  ASCII.detector_index s p sl size (h0 ++ cells)
  = (Level1_ASCII.detector_index s sl size, h0 ++ cells).
Proof.
  unfold ASCII.detector_index, Level1_ASCII.detector_index. rewrite ST_bind_run.
  cbv beta iota delta [lift].
  destruct (Level1_ASCII.header _ _) as [cname|e]; [|done].
  cbv beta iota. rewrite bind_Ok_eq, ST_bind_run, csv_block_run.
  destruct (Level1_ASCII.csv_block s cname sl size) as [a|e] eqn:Ha; [|done].
  by rewrite ST_bind_run, (read_view _ _ _ _ _ Ha).
Qed.

Lemma table_stored (o : option loc) (t' : option (gmap string (list float))) :
  (fun l : loc => h0 !! l ≫= ASCII.as_table) <$> o = Some <$> t' ->
  forall cells,
  lift (Level1_ASCII.attr o) (h0 ++ cells)
  = match Level1_ASCII.attr t' with
    | Ok t => (Ok (ASCII.table_at o), h0 ++ cells)
    | Raise e => (Raise e, h0 ++ cells)
    end /\
  forall t, Level1_ASCII.attr t' = Ok t -> h0 !! ASCII.table_at o = Some (fields t).
Proof.
  intros Ho cells. destruct o as [l|], t' as [t|]; try done; simpl in *.
  split; [done|]. intros ? [= <-]. injection Ho as Ho.
  destruct (h0 !! l) as [[]|]; simpl in Ho; by simplify_eq.
Qed.

Lemma F0_stored t :
  Level1_ASCII.attr (Level1_ASCII.F0 s) = Ok t ->
  h0 !! ASCII.table_at (ASCII.F0_at p) = Some (fields t).
Proof. destruct Hst as (_ & H1 & _). by apply (table_stored _ _ H1 []). Qed.

Lemma detector_wavelength_stored t :
  Level1_ASCII.attr (Level1_ASCII.detector_wavelength s) = Ok t ->
  h0 !! ASCII.table_at (ASCII.detector_wavelength_at p) = Some (fields t).
Proof. destruct Hst as (_ & _ & H2). by apply (table_stored _ _ H2 []). Qed.

Lemma fetch_view cells cname sl size a :
  Level1_ASCII.csv_block s cname sl size = Ok a ->
  fetch (Some (view (ASCII.column_at p cname) sl size)) (h0 ++ cells)
  = (Ok (Some a), h0 ++ cells).
Proof. intros Ha. unfold fetch. by rewrite ST_bind_run, (read_view _ _ _ _ _ Ha). Qed.

Lemma attr_F0_run cells :
  lift (Level1_ASCII.attr (ASCII.F0_at p)) (h0 ++ cells)
  = match Level1_ASCII.attr (Level1_ASCII.F0 s) with
    | Ok t => (Ok (ASCII.table_at (ASCII.F0_at p)), h0 ++ cells)
    | Raise e => (Raise e, h0 ++ cells)
    end.
Proof. destruct Hst as (_ & H1 & _). by apply table_stored. Qed.

Lemma attr_detector_wavelength_run cells :
  lift (Level1_ASCII.attr (ASCII.detector_wavelength_at p)) (h0 ++ cells)
  = match Level1_ASCII.attr (Level1_ASCII.detector_wavelength s) with
    | Ok t => (Ok (ASCII.table_at (ASCII.detector_wavelength_at p)), h0 ++ cells)
    | Raise e => (Raise e, h0 ++ cells)
    end.
Proof. destruct Hst as (_ & _ & H2). by apply table_stored. Qed.

Lemma lookup_table_run cells l t names di band :
  h0 !! l = Some (fields t) ->
  ASCII.lookup_table l names di band (h0 ++ cells)
  = (Level1_ASCII.lookup_table t names di band, h0 ++ cells).
Proof.
  intros Hl. unfold ASCII.lookup_table.
  by rewrite ST_bind_run, (get_fields_base _ _ _ _ Hl).
Qed.

Lemma wavelen_band_run cells l t names di band :
  h0 !! l = Some (fields t) ->
  ASCII.wavelen_band l names di band (h0 ++ cells)
  = (Level1_ASCII.wavelen_band t names di band, h0 ++ cells).
Proof.
  intros Hl. unfold ASCII.wavelen_band, Level1_ASCII.wavelen_band.
  rewrite ST_bind_run, (lookup_table_run _ _ _ _ _ _ Hl).
  by destruct (Level1_ASCII.lookup_table t names di band).
Qed.

(** The rules of the statements of the reader. *)
Lemma refines_get_field cells fname sl size (f : ref -> ST Block)
    (g : np.array2 float -> result data.Block) :
  (forall a, Level1_ASCII.get_field s fname sl size = Ok a ->
     refines h0 (f (array (length h0 + length cells)%nat) (h0 ++ (cells ++ [floats2 a])))
       (g a)) ->
  refines h0 ((ASCII.get_field s p fname sl size ≫= f) (h0 ++ cells))
    (Level1_ASCII.get_field s fname sl size ≫= g).
Proof.
  apply (refines_bind h0 cells cells _ _
           (fun _ => array (length h0 + length cells)%nat)
           (fun a => cells ++ [floats2 a])), get_field_run.
Qed.

Lemma refines_csv_block cells cname sl size (f : ref -> ST Block)
    (g : np.array2 float -> result data.Block) :
  (forall a, Level1_ASCII.csv_block s cname sl size = Ok a ->
     refines h0 (f (view (ASCII.column_at p cname) sl size) (h0 ++ cells)) (g a)) ->
  refines h0 ((ASCII.csv_block p cname sl size ≫= f) (h0 ++ cells))
    (Level1_ASCII.csv_block s cname sl size ≫= g).
Proof.
  apply (refines_bind h0 cells cells _ _
           (fun _ => view (ASCII.column_at p cname) sl size) (fun _ => cells)),
    csv_block_run.
Qed.

Lemma refines_attr_F0 cells (f : loc -> ST Block)
    (g : gmap string (list float) -> result data.Block) :
  (forall t, Level1_ASCII.attr (Level1_ASCII.F0 s) = Ok t ->
     refines h0 (f (ASCII.table_at (ASCII.F0_at p)) (h0 ++ cells)) (g t)) ->
  refines h0 ((lift (Level1_ASCII.attr (ASCII.F0_at p)) ≫= f) (h0 ++ cells))
    (Level1_ASCII.attr (Level1_ASCII.F0 s) ≫= g).
Proof.
  apply (refines_bind h0 cells cells _ _
           (fun _ => ASCII.table_at (ASCII.F0_at p)) (fun _ => cells)), attr_F0_run.
Qed.

Lemma refines_attr_detector_wavelength cells (f : loc -> ST Block)
    (g : gmap string (list float) -> result data.Block) :
  (forall t, Level1_ASCII.attr (Level1_ASCII.detector_wavelength s) = Ok t ->
     refines h0 (f (ASCII.table_at (ASCII.detector_wavelength_at p)) (h0 ++ cells)) (g t)) ->
  refines h0 ((lift (Level1_ASCII.attr (ASCII.detector_wavelength_at p)) ≫= f)
                (h0 ++ cells))
    (Level1_ASCII.attr (Level1_ASCII.detector_wavelength s) ≫= g).
Proof.
  apply (refines_bind h0 cells cells _ _
           (fun _ => ASCII.table_at (ASCII.detector_wavelength_at p)) (fun _ => cells)),
    attr_detector_wavelength_run.
Qed.

Ltac ascii_fact :=
  first [ cell | apply fetch_view; eassumption | apply read_view; eassumption ].

Ltac ascii_plane :=
  first [ apply TOA_band_run
        | apply lookup_table_run; apply F0_stored; assumption
        | apply wavelen_band_run; apply detector_wavelength_stored; assumption ].

Ltac ascii_statement :=
  lazymatch goal with
  | |- refines _ ((lift (Level1_ASCII.attr (ASCII.F0_at _)) ≫= _) _) _ =>
      apply refines_attr_F0; intros ? ?; normal
  | |- refines _ ((lift (Level1_ASCII.attr (ASCII.detector_wavelength_at _)) ≫= _) _) _ =>
      apply refines_attr_detector_wavelength; intros ? ?; normal
  | |- refines _ ((ASCII.get_field _ _ _ _ _ ≫= _) _) _ =>
      apply refines_get_field; intros ? ?; normal
  | |- refines _ ((ASCII.csv_block _ _ _ _ ≫= _) _) _ =>
      apply refines_csv_block; intros ? ?; normal
  | |- refines _ ((ASCII.detector_index _ _ _ _ ≫= _) _) _ =>
      eapply refines_pure; [apply detector_index_run|intros ? ?]; normal
  | |- _ => statement ascii_fact ascii_plane
  end.

(** The call of [read_block] on a store gives what [read_block] above gives,
    and leaves the arrays of the store as they are. *)
Lemma ascii_read_block_refines size offset bands :
  refines h0 (ASCII.read_block L2FLAGS s p size offset bands h0)
    (Level1_ASCII.read_block L2FLAGS s size offset bands).
Proof.
  rewrite <- (app_nil_r h0) at 2. destruct size as [ysize xsize].
  unfold ASCII.read_block, Level1_ASCII.read_block. normal.
  repeat ascii_statement.
Qed.

End ascii_store.

Section meris_store.
Context {RT : Runtime}.
Variable L2FLAGS : L2FLAGS_t.
Import Store.
Variable s : Level1_MERIS.Source.
Variable p : MERIS.places.
Variable h0 : store.
Hypothesis Hst : MERIS.stored s p h0.

Lemma meris_lookup_table_run cells l t names di band :
  h0 !! l = Some (fields t) ->
  MERIS.lookup_table l names di band (h0 ++ cells)
  = (Level1_MERIS.lookup_table t names di band, h0 ++ cells).
Proof.
  intros Hl. unfold MERIS.lookup_table.
  by rewrite ST_bind_run, (get_fields_base _ _ _ _ Hl).
Qed.

Lemma meris_wavelen_band_run cells l t names di band :
  h0 !! l = Some (fields t) ->
  MERIS.wavelen_band l names di band (h0 ++ cells)
  = (Level1_MERIS.wavelen_band t names di band, h0 ++ cells).
Proof.
  intros Hl. unfold MERIS.wavelen_band, Level1_MERIS.wavelen_band.
  rewrite ST_bind_run, (meris_lookup_table_run _ _ _ _ _ _ Hl).
  by destruct (Level1_MERIS.lookup_table t names di band).
Qed.

Lemma refines_read_band cells band_name size offset (f : ref -> ST Block)
    (g : np.array2 float -> result data.Block) :
  (forall a, Level1_MERIS.read_band s band_name size offset = Ok a ->
     refines h0 (f (array (length h0 + length cells)%nat) (h0 ++ (cells ++ [floats2 a])))
       (g a)) ->
  refines h0 ((MERIS.read_band s band_name size offset ≫= f) (h0 ++ cells))
    (Level1_MERIS.read_band s band_name size offset ≫= g).
Proof.
  apply (refines_bind h0 cells cells _ _
           (fun _ => array (length h0 + length cells)%nat)
           (fun a => cells ++ [floats2 a])).
  unfold MERIS.read_band. rewrite ST_bind_run. cbv beta iota delta [lift].
  destruct (Level1_MERIS.read_band s band_name size offset) as [a|e]; [|done].
  by rewrite ST_bind_run, new_run.
Qed.

Ltac meris_plane :=
  first [ apply meris_lookup_table_run; apply Hst
        | apply meris_wavelen_band_run; apply Hst
        | reflexivity ].

Ltac meris_statement :=
  lazymatch goal with
  | |- refines _ ((MERIS.read_band _ _ _ _ ≫= _) _) _ =>
      apply refines_read_band; intros ? ?; normal
  | |- _ => statement cell meris_plane
  end.

Lemma meris_read_block_refines size offset bands :
  refines h0 (MERIS.read_block L2FLAGS s p size offset bands h0)
    (Level1_MERIS.read_block L2FLAGS s size offset bands).
Proof.
  rewrite <- (app_nil_r h0) at 2. destruct size as [ysize xsize].
  unfold MERIS.read_block, Level1_MERIS.read_block. normal.
  repeat meris_statement.
Qed.

End meris_store.

Section stable_reads.
Context {RT : Runtime}.
Import Store.

(** A statement that only reads: it leaves the store as it is, and it
    reads the same from a store with more arrays. *)
Definition stable {A} (m : ST A) : Prop :=
  forall h a h', m h = (Ok a, h') ->
    h' = h /\ forall cells, m (h ++ cells) = (Ok a, h ++ cells).

Lemma stable_ret {A} (a : A) : stable (mret a : ST A).
Proof. by intros h a' h' [= <- <-]. Qed.

Lemma stable_lift {A} (r : result A) : stable (lift r).
Proof. by intros h a' h' [= -> <-]. Qed.

Lemma stable_get l : stable (get l).
Proof.
  intros h a h'. cbv beta delta [get].
  destruct (h !! l) as [a'|] eqn:Hl; intros [= <- <-]. split; [done|].
  intros cells. by rewrite (lookup_app_l_Some _ _ _ _ Hl).
Qed.

Lemma stable_bind {A B} (m : ST A) (f : A -> ST B) :
  stable m -> (forall a, stable (f a)) -> stable (m ≫= f).
Proof.
  intros Hm Hf h b h'. rewrite ST_bind_run.
  destruct (m h) as [[a|e] h1] eqn:Hmh; [|done]. intros Hfa.
  destruct (Hm _ _ _ Hmh) as [-> Hm']. destruct (Hf _ _ _ _ Hfa) as [-> Hf'].
  split; [done|]. intros cells. by rewrite ST_bind_run, Hm', Hf'.
Qed.

Lemma stable_read r : stable (read r).
Proof. destruct r; apply stable_bind; auto using stable_get, stable_lift. Qed.

Lemma stable_get_floats3 l : stable (get_floats3 l).
Proof. apply stable_bind; auto using stable_get, stable_lift. Qed.

Lemma stable_get_ints2 l : stable (get_ints2 l).
Proof. apply stable_bind; auto using stable_get, stable_lift. Qed.

Lemma stable_fetch o : stable (fetch o).
Proof.
  destruct o; [|apply stable_ret].
  apply stable_bind; auto using stable_read, stable_ret.
Qed.

Lemma stable_fetch3 o : stable (fetch3 o).
Proof.
  destruct o; [|apply stable_ret].
  apply stable_bind; auto using stable_get_floats3, stable_ret.
Qed.

Lemma stable_fetch_ints o : stable (fetch_ints o).
Proof.
  destruct o; [|apply stable_ret].
  apply stable_bind; auto using stable_get_ints2, stable_ret.
Qed.

Lemma stable_contents b : stable (contents b).
Proof.
  unfold contents.
  repeat (apply stable_bind;
          [first [apply stable_fetch | apply stable_fetch3 | apply stable_fetch_ints
                 | idtac]
          |intros ?]).
  2: apply stable_ret.
  destruct (jday b) as [[l|d]|]; [|apply stable_ret..].
  apply stable_bind; auto using stable_get_ints2, stable_ret.
Qed.

(** What a call gave is what it gives in every later store: the arrays of
    the block that it returned are as they were. *)
Lemma gives_later h cells r v : gives h r v -> gives (h ++ cells) r v.
Proof.
  destruct r as [b|e], v as [d|e']; try done. simpl. intros Hb.
  destruct (contents b h) as [r h'] eqn:Hc. simpl in Hb. subst r.
  destruct (stable_contents _ _ _ _ Hc) as [_ Hc']. by rewrite Hc'.
Qed.

(** A sequence of calls of a reader that refines [f] as long as [I] holds
    of the store, for an [I] that holds of every later store. *)
Lemma session_refines {C} (call : C -> ST Block) (f : C -> result data.Block)
    (I : store -> Prop) :
  (forall h cells, I h -> I (h ++ cells)) ->
  (forall h c, I h -> refines h (call c h) (f c)) ->
  forall cs h0, I h0 ->
    h0 `prefix_of` (session call cs h0).2 /\
    I (session call cs h0).2 /\
    Forall2 (gives (session call cs h0).2) (session call cs h0).1 (f <$> cs).
Proof.
  intros HI Hcall. induction cs as [|c cs IH]; intros h0 H0; simpl.
  { split; [done|]. by split. }
  destruct (Hcall h0 c H0) as [[cells1 Hh1] Hr].
  destruct (call c h0) as [r h1]. simpl in Hh1, Hr. subst h1.
  destruct (IH (h0 ++ cells1) (HI _ _ H0)) as ([cells2 Hh2] & HI2 & Hrs).
  destruct (session call cs (h0 ++ cells1)) as [rs h2]. simpl in *. subst h2.
  split; [|split; [done|]].
  - exists (cells1 ++ cells2). by rewrite app_assoc.
  - constructor; [|done]. by apply gives_later.
Qed.

Lemma ascii_stored_later s p h cells :
  ASCII.stored s p h -> ASCII.stored s p (h ++ cells).
Proof.
  assert (Hopt : forall {A} (g : ndarray -> option A) (o : option loc) (t : option A),
            (fun l : loc => h !! l ≫= g) <$> o = Some <$> t ->
            (fun l : loc => (h ++ cells) !! l ≫= g) <$> o = Some <$> t).
  { intros A g [l|] [t|]; try done. simpl. intros [= Hl]. f_equal.
    destruct (h !! l) as [a|] eqn:Ha; [|done].
    by rewrite (lookup_app_l_Some _ _ _ _ Ha). }
  intros (Hc & HF & Hw). split; [|split; by apply Hopt].
  apply map_eq. intros c. apply (f_equal (fun m => m !! c)) in Hc.
  rewrite !lookup_fmap in Hc |- *. by apply Hopt.
Qed.

Lemma meris_stored_later s p h cells :
  MERIS.stored s p h -> MERIS.stored s p (h ++ cells).
Proof. intros [HF Hw]. split; by apply lookup_app_l_Some. Qed.

End stable_reads.

Section repeated_reads.
Context {RT : Runtime}.
Variable L2FLAGS : L2FLAGS_t.
Import Store.

(** A call of [read_block]: its arguments [(size, offset, bands)]. *)
Definition call : Type := (Z * Z) * (Z * Z) * list Z.

Definition ascii_call (s : Level1_ASCII.Source) (p : ASCII.places) (c : call)
    : ST Block :=
  ASCII.read_block L2FLAGS s p c.1.1 c.1.2 c.2.

Definition meris_call (s : Level1_MERIS.Source) (p : MERIS.places) (c : call)
    : ST Block :=
  MERIS.read_block L2FLAGS s p c.1.1 c.1.2 c.2.

(** C9.  Take a store where the arrays of a source are, and any sequence
    of calls of [read_block] on it, one after the other.  Every array that
    was in the store before the calls is as it was: the columns and the
    tables of the source among them, so that the source reads as before.
    Each call gives what [read_block] above gives for its arguments, read
    in the store at the end of the sequence: the values of the block that
    it returned, which no later call has changed, or the exception that it
    raised.  So two calls with the same arguments give the same values,
    whatever calls come before, between and after them.  This holds for
    both readers. *)
Theorem read_block_repeatable :
  (forall s p h0 cs, ASCII.stored s p h0 ->
     let '(rs, h) := session (ascii_call s p) cs h0 in
     h0 `prefix_of` h /\ ASCII.stored s p h /\
     Forall2 (gives h) rs
       ((fun c : call => Level1_ASCII.read_block L2FLAGS s c.1.1 c.1.2 c.2) <$> cs) /\
     forall i j c ri rj,
       cs !! i = Some c -> cs !! j = Some c ->
       rs !! i = Some ri -> rs !! j = Some rj ->
       exists v, gives h ri v /\ gives h rj v) /\
  (forall s p h0 cs, MERIS.stored s p h0 ->
     let '(rs, h) := session (meris_call s p) cs h0 in
     h0 `prefix_of` h /\ MERIS.stored s p h /\
     Forall2 (gives h) rs
       ((fun c : call => Level1_MERIS.read_block L2FLAGS s c.1.1 c.1.2 c.2) <$> cs) /\
     forall i j c ri rj,
       cs !! i = Some c -> cs !! j = Some c ->
       rs !! i = Some ri -> rs !! j = Some rj ->
       exists v, gives h ri v /\ gives h rj v).
Proof.
  assert (Hsame : forall (f : call -> result data.Block) cs rs h,
            Forall2 (gives h) rs (f <$> cs) ->
            forall i j c ri rj,
              cs !! i = Some c -> cs !! j = Some c ->
              rs !! i = Some ri -> rs !! j = Some rj ->
              exists v, gives h ri v /\ gives h rj v).
  { intros f cs rs h Hrs i j c ri rj Hi Hj Hri Hrj. exists (f c).
    split; eapply Forall2_lookup_lr; eauto; by rewrite list_lookup_fmap, ?Hi, ?Hj. }
  split; intros s p h0 cs Hst.
  - destruct (session_refines (ascii_call s p)
                (fun c => Level1_ASCII.read_block L2FLAGS s c.1.1 c.1.2 c.2)
                (ASCII.stored s p)) with (cs := cs) (h0 := h0) as (Hpre & Hst' & Hrs);
      [by apply ascii_stored_later| |done|].
    { intros h c Hh. by apply ascii_read_block_refines. }
    destruct (session (ascii_call s p) cs h0) as [rs h]. eauto 6.
  - destruct (session_refines (meris_call s p)
                (fun c => Level1_MERIS.read_block L2FLAGS s c.1.1 c.1.2 c.2)
                (MERIS.stored s p)) with (cs := cs) (h0 := h0) as (Hpre & Hst' & Hrs);
      [by apply meris_stored_later| |done|].
    { intros h c Hh. by apply meris_read_block_refines. }
    destruct (session (meris_call s p) cs h0) as [rs h]. eauto 6.
Qed.

End repeated_reads.

(** ** Examples: an extraction of SeaWiFS, one of MERIS, a MERIS product *)

Module Examples.
Import PrimFloat.
Import binary64.
#[local] Set Warnings "-inexact-float".

Definition flags : L2FLAGS_t := {| LAND := 1; L1_INVALID := 4 |}.

Definition BANDS_MERIS : list Z :=
  [412; 443; 490; 510; 560; 620; 665; 681; 709; 754; 760; 779; 865; 885; 900].

Definition the_time : string := "20050301T092849Z".

(** Six rows: three lines of two pixels.  The sun zenith angle is missing
    in the third row, and the signal of the first band is negative in the
    fourth. *)
Definition extraction : DataFrame :=
  {| nrows := 6;
     columns := dict [
       ("LAT", NumCol [48.0; 48.0; 48.5; 48.5; 49.0; 49.0]%float);
       ("LON", NumCol [2.0; 2.5; 2.0; 2.5; 2.0; 2.5]%float);
       ("TIME", ObjCol (replicate 6 the_time));
       ("OZONE_ECMWF", NumCol [300.0; 301.0; 302.0; 303.0; 304.0; 305.0]%float);
       ("WINDM", NumCol [5.0; 5.5; 6.0; 6.5; 7.0; 7.5]%float);
       ("PRESS_ECMWF", NumCol [1013.0; 1012.0; 1011.0; 1010.0; 1009.0; 1008.0]%float);
       ("SUN_ZENITH", NumCol [30.0; 30.5; nan; 31.5; 32.0; 32.5]%float);
       ("VIEW_ZENITH", NumCol [10.0; 10.5; 11.0; 11.5; 12.0; 12.5]%float);
       ("DELTA_AZIMUTH", NumCol [90.0; 91.0; 92.0; 93.0; 94.0; 95.0]%float);
       ("TOAR_01", NumCol [80.0; 81.0; 82.0; (-1.0); 84.0; 85.0]%float);
       ("TOAR_02", NumCol [70.0; 71.0; 72.0; 73.0; 74.0; 75.0]%float)
     ]%string |}.

Definition flux_table : gmap string (list float) :=
  dict [("E0_band0"%string, [1.0; 0.98]%float)].

Definition wavelength_table : gmap string (list float) :=
  dict [("lam_band0"%string, [442.5; 443.6]%float)].

(** The files: one extraction, and the two tables of the reduced
    resolution under the working directory. *)
Definition files (df : DataFrame) : World :=
  {| getcwd := "/work";
     genfromtxt := fun path =>
       if decide (path = "/work/auxdata/meris/smile/v2/sun_spectral_flux_rr.txt"%string)
       then Ok flux_table
       else if decide (path = "/work/auxdata/meris/smile/v2/central_wavelen_rr.txt"%string)
       then Ok wavelength_table
       else Raise IOError;
     epr_Product := fun _ => Raise IOError;
     read_csv := fun filename _ _ =>
       if decide (filename = "extraction.csv"%string) then Ok df else Raise IOError |}.

Definition seawifs_args : Level1_ASCII.kw.t :=
  {| Level1_ASCII.kw.filename := "extraction.csv";
     Level1_ASCII.kw.square := 2;
     Level1_ASCII.kw.blocksize := 2;
     Level1_ASCII.kw.additional_headers := [];
     Level1_ASCII.kw.dir_smile := None;
     Level1_ASCII.kw.sensor := Some "SeaWiFS"%string;
     Level1_ASCII.kw.BANDS := Some [412; 443];
     Level1_ASCII.kw.TOAR := "radiance";
     Level1_ASCII.kw.headers := Level1_ASCII.headers_default;
     Level1_ASCII.kw.relative_azimuth := true;
     Level1_ASCII.kw.wind_module := true;
     Level1_ASCII.kw.datetime_fmt := "%Y%m%dT%H%M%SZ";
     Level1_ASCII.kw.verbose := true;
     Level1_ASCII.kw.sep := ";" |}.

Definition seawifs : Level1_ASCII.Source :=
  new_source seawifs_args (dict [(412, "TOAR_01"); (443, "TOAR_02")]%string)
    (None, None, None, None) extraction
    (replicate 6 {| year := 2005; mon := 3; mday := 1 |}).

Example seawifs_constructed :
  (Level1_ASCII.__init__ BANDS_MERIS (files extraction) seawifs_args []).1 = Ok seawifs.
Proof. reflexivity. Qed.

Definition empty_block : Block :=
  {| offset := (0, 0); size := (0, 0); bands := [];
     latitude := None; longitude := None; sza := None; vza := None;
     _raa := None; saa := None; vaa := None; Rtoa := None; Ltoa := None;
     data.F0 := None; wavelen := None; jday := None; month := None;
     bitmask := None; ozone := None; wind_speed := None; surf_press := None |}.

Definition get_ok {A} (d : A) (r : result A) : A :=
  match r with Ok a => a | Raise _ => d end.

(** The whole extraction as one block. *)
Definition seawifs_block : Block :=
  Eval vm_compute in
    get_ok empty_block (Level1_ASCII.read_block flags seawifs (3, 2) (0, 0) [412; 443]).

Example seawifs_block_read :
  Level1_ASCII.read_block flags seawifs (3, 2) (0, 0) [412; 443] = Ok seawifs_block.
Proof. reflexivity. Qed.

(** An extraction of MERIS: one line of two pixels, seen by the detectors
    0 and 1. *)
Definition meris_extraction : DataFrame :=
  {| nrows := 2;
     columns := dict [
       ("LAT", NumCol [48.0; 48.0]%float);
       ("LON", NumCol [2.0; 2.5]%float);
       ("TIME", ObjCol (replicate 2 the_time));
       ("DETECTOR", NumCol [0.0; 1.0]%float);
       ("OZONE_ECMWF", NumCol [300.0; 301.0]%float);
       ("WINDM", NumCol [5.0; 5.5]%float);
       ("PRESS_ECMWF", NumCol [1013.0; 1012.0]%float);
       ("SUN_ZENITH", NumCol [30.0; 30.5]%float);
       ("VIEW_ZENITH", NumCol [10.0; 10.5]%float);
       ("DELTA_AZIMUTH", NumCol [90.0; 91.0]%float);
       ("TOAR_01", NumCol [80.0; 81.0]%float)
     ]%string |}.

Definition meris_args : Level1_ASCII.kw.t :=
  {| Level1_ASCII.kw.filename := "extraction.csv";
     Level1_ASCII.kw.square := 2;
     Level1_ASCII.kw.blocksize := 100;
     Level1_ASCII.kw.additional_headers := [];
     Level1_ASCII.kw.dir_smile := None;
     Level1_ASCII.kw.sensor := Some "MERIS"%string;
     Level1_ASCII.kw.BANDS := Some [443];
     Level1_ASCII.kw.TOAR := "radiance";
     Level1_ASCII.kw.headers := Level1_ASCII.headers_default;
     Level1_ASCII.kw.relative_azimuth := true;
     Level1_ASCII.kw.wind_module := true;
     Level1_ASCII.kw.datetime_fmt := "%Y%m%dT%H%M%SZ";
     Level1_ASCII.kw.verbose := true;
     Level1_ASCII.kw.sep := ";" |}.

Definition meris_of_extraction : Level1_ASCII.Source :=
  new_source meris_args (dict [(443, "TOAR_01"%string)])
    (Some flux_table, Some wavelength_table,
     Some (dict [(443, "E0_band0"%string)]), Some (dict [(443, "lam_band0"%string)]))
    meris_extraction (replicate 2 {| year := 2005; mon := 3; mday := 1 |}).

Example meris_of_extraction_constructed :
  Level1_ASCII.__init__ BANDS_MERIS (files meris_extraction) meris_args []
  = (Ok meris_of_extraction,
     [ReadTable "/work/auxdata/meris/smile/v2/sun_spectral_flux_rr.txt";
      ReadTable "/work/auxdata/meris/smile/v2/central_wavelen_rr.txt";
      ReadCsv "extraction.csv" ";"
        ["LAT"; "LON"; "TIME"; "OZONE_ECMWF"; "PRESS_ECMWF"; "SUN_ZENITH";
         "VIEW_ZENITH"; "DELTA_AZIMUTH"; "WINDM"; "DETECTOR"; "TOAR_01"]]%string).
Proof. reflexivity. Qed.

Definition meris_extraction_block : Block :=
  Eval vm_compute in
    get_ok empty_block
      (Level1_ASCII.read_block flags meris_of_extraction (1, 2) (0, 0) [443]).

Example meris_extraction_block_read :
  Level1_ASCII.read_block flags meris_of_extraction (1, 2) (0, 0) [443]
  = Ok meris_extraction_block.
Proof. reflexivity. Qed.

(** A MERIS product of three lines of two pixels: the first column is
    land, the second line is invalid. *)
Definition product : Product :=
  {| get_scene_width := 2;
     get_scene_height := 3;
     get_band := fun name =>
       Some (fun row col =>
               if decide (name = "detector_index"%string) then float_of_int col
               else float_of_int (10 * row + col));
     bitmask_expr := fun expr row col =>
       if decide (expr = "l1_flags.LAND_OCEAN"%string) then bool_decide (col = 0)
       else bool_decide (row = 1);
     SENSING_START := "01-MAY-2005 09:28:49.000000" |}.

Definition product_files : World :=
  {| getcwd := "/work";
     genfromtxt := fun path =>
       if decide (path = (Level1_MERIS.smile_dir +:+ "sun_spectral_flux_rr.txt")%string)
       then Ok (dict [("E0_band1"%string, [1.0; 0.98]%float)])
       else if decide (path = (Level1_MERIS.smile_dir +:+ "central_wavelen_rr.txt")%string)
       then Ok (dict [("lam_band1"%string, [442.5; 443.6]%float)])
       else Raise IOError;
     epr_Product := fun filename =>
       if decide (filename = "MER_RR__1P.N1"%string) then Ok product else Raise IOError;
     read_csv := fun _ _ _ => Raise IOError |}.

Definition meris : Level1_MERIS.Source :=
  Eval vm_compute in
    {| Level1_MERIS.sensor := "MERIS";
       Level1_MERIS.filename := "MER_RR__1P.N1";
       Level1_MERIS.prod := product;
       Level1_MERIS.width := 2;
       Level1_MERIS.totalheight := 3;
       Level1_MERIS.blocksize := 2;
       Level1_MERIS.sline := 0;
       Level1_MERIS.eline := -1;
       Level1_MERIS.height := 3;
       Level1_MERIS.shape := (3, 2);
       Level1_MERIS.band_names := Level1_MERIS.band_names_const;
       Level1_MERIS.F0 := dict [("E0_band1"%string, [1.0; 0.98]%float)];
       Level1_MERIS.F0_band_names := Level1_MERIS.F0_band_names_const;
       Level1_MERIS.wav_band_names := Level1_MERIS.wav_band_names_const;
       Level1_MERIS.detector_wavelength := dict [("lam_band1"%string, [442.5; 443.6]%float)];
       Level1_MERIS.date := {| year := 2005; mon := 5; mday := 1 |} |}.

Example meris_constructed :
  (Level1_MERIS.__init__ product_files "MER_RR__1P.N1" 0 (-1) 2 []).1 = Ok meris.
Proof. reflexivity. Qed.

(** The last two lines of the product as one block. *)
Definition meris_block : Block :=
  Eval vm_compute in
    get_ok empty_block (Level1_MERIS.read_block flags meris (2, 2) (1, 0) [443]).

Example meris_block_read :
  Level1_MERIS.read_block flags meris (2, 2) (1, 0) [443] = Ok meris_block.
Proof. reflexivity. Qed.


(** *** The partition, the shapes, the tiles *)

Lemma read_block_shapes_witness :
  ascii_block_ok seawifs (3, 2) (0, 0) [412; 443] seawifs_block /\
  meris_block_ok meris (2, 2) (1, 0) [443] meris_block.
Proof.
  split.
  - apply (proj1 (read_block_shapes flags)). reflexivity.
  - apply (proj2 (read_block_shapes flags)). reflexivity.
Defined.

Lemma one_tile_or_many_witness :
  exists bs b2,
    Level1_ASCII.blocks flags (with_blocksize seawifs 2) [412; 443] = (bs, None) /\
    Z.of_nat (length bs) = 2 /\
    bs !! 1%nat = Some b2 /\
    offset b2 = (2, 0) /\
    pixel b2 0 1 = pixel seawifs_block 2 1.
Proof.
  destruct (one_tile_or_many flags seawifs [412; 443] 5 2 seawifs_block)
    as (bs & Hbs & Hlen & Hpix).
  - reflexivity.
  - change (3 <= 5). lia.
  - lia.
  - reflexivity.
  - destruct (Hpix 2 1) as (b2 & Hb2 & Hoff & Hpx & _).
    + change (0 <= 2 < 3). lia.
    + change (0 <= 1 < 2). lia.
    + exists bs, b2. repeat split; [exact Hbs|exact Hlen|exact Hb2|exact Hoff|exact Hpx].
Defined.

(** *** The calibration *)

Lemma detector_calibration_witness :
  (exists di tF0 nF0 twav nwav,
     Level1_ASCII.detector_index meris_of_extraction (0 * 2, (0 + 1) * 2) (1, 2) = Ok di /\
     Level1_ASCII.F0 meris_of_extraction = Some tF0 /\
     Level1_ASCII.F0_band_names meris_of_extraction = Some nF0 /\
     Level1_ASCII.detector_wavelength meris_of_extraction = Some twav /\
     Level1_ASCII.wav_band_names meris_of_extraction = Some nwav /\
     calibrated (data.F0 meris_extraction_block) (wavelen meris_extraction_block)
       tF0 nF0 twav nwav di [443]) /\
  (data.F0 seawifs_block = None /\
   exists wl, wavelen seawifs_block = Some wl /\
     forall (k : nat) band (y x : nat),
       [412; 443] !! k = Some band -> Z.of_nat y < 3 -> Z.of_nat x < 2 ->
       np.at3 wl y x k = Some (float32 (of_int band))) /\
  (exists di,
     Level1_MERIS.detector_index meris (2, 2) (1, 0) = Ok di /\
     calibrated (data.F0 meris_block) (wavelen meris_block)
       (Level1_MERIS.F0 meris) (Level1_MERIS.F0_band_names meris)
       (Level1_MERIS.detector_wavelength meris) (Level1_MERIS.wav_band_names meris)
       di [443]).
Proof.
  split; [|split].
  - apply (proj1 (detector_calibration flags) meris_of_extraction 1 2 (0, 0) [443]).
    reflexivity.
  - apply (proj1 (detector_calibration flags) seawifs 3 2 (0, 0) [412; 443]).
    reflexivity.
  - apply (proj2 (detector_calibration flags) meris 2 2 (1, 0) [443]).
    reflexivity.
Defined.

(** A block of SeaWiFS has no solar flux; and in the block of the
    extraction of MERIS, the wavelength of band 443 at the pixel of
    detector 1 is the entry 443.6 of the table rounded to float32, which is
    another number. *)
Lemma detector_calibration_counterexample :
  Level1_ASCII.read_block flags seawifs (3, 2) (0, 0) [412; 443] = Ok seawifs_block /\
  Level1_ASCII.is_meris (Level1_ASCII.sensor seawifs) = false /\
  data.F0 seawifs_block = None /\
  Level1_ASCII.read_block flags meris_of_extraction (1, 2) (0, 0) [443]
  = Ok meris_extraction_block /\
  exists wl w,
    wavelen meris_extraction_block = Some wl /\
    np.at3 wl 0 1 0 = Some w /\
    detector_lookup wavelength_table (dict [(443, "lam_band0"%string)]) 443 1
    = Ok 443.6%float /\
    w <> 443.6%float.
Proof.
  repeat (split; [reflexivity|]).
  eexists _, _. repeat (split; [reflexivity|]).
  intros Heq.
  assert (Hb : PrimFloat.eqb 443.600006103515625 443.6 = false) by reflexivity.
  rewrite Heq in Hb. vm_compute in Hb. discriminate Hb.
Qed.

(** *** The bitmask *)


Lemma invalid_flag_of_extraction_witness :
  exists m r T,
    bitmask seawifs_block = Some m /\
    raa (_raa seawifs_block) (saa seawifs_block) (vaa seawifs_block) = Ok r /\
    TOA seawifs_block = Some T /\
    forall y x : nat, Z.of_nat y < 3 -> Z.of_nat x < 2 ->
      exists v rv t,
        np.at2 m y x = Some v /\ np.at2 r y x = Some rv /\ np.at3 T y x 0 = Some t /\
        (Z.land v (L1_INVALID flags) <> 0 <-> isnan rv = true \/ ltz t = true).
Proof.
  apply (invalid_flag_of_extraction flags seawifs 3 2 (0, 0) [412; 443]).
  - change (0 < 4 < 2 ^ 16). lia.
  - reflexivity.
Defined.

(** At the first pixel of the second line the sun zenith angle is NaN,
    and the bit of the invalid pixels is not set. *)
Lemma invalid_flag_counterexample :
  Level1_ASCII.read_block flags seawifs (3, 2) (0, 0) [412; 443] = Ok seawifs_block /\
  exists z v m,
    sza seawifs_block = Some z /\ np.at2 z 1 0 = Some v /\ isnan v = true /\
    bitmask seawifs_block = Some m /\ np.at2 m 1 0 = Some 0 /\
    Z.land 0 (L1_INVALID flags) = 0.
Proof.
  split; [reflexivity|]. eexists _, _, _. repeat (split; [reflexivity|]). reflexivity.
Qed.


(** *** The constructor *)

(** The first [n] rows of a file. *)
Definition head_rows (n : nat) (df : DataFrame) : DataFrame :=
  {| nrows := Z.of_nat n;
     columns := (fun c => match c with
                          | NumCol l => NumCol (take n l)
                          | ObjCol l => ObjCol (take n l)
                          end) <$> columns df |}.

(** The file with a time that does not parse in its first row. *)
Definition bad_time : DataFrame :=
  {| nrows := 6;
     columns := <["TIME"%string := ObjCol ("yesterday"%string :: replicate 5 the_time)]>
                  (columns extraction) |}.


Definition the_columns : list string :=
  ["LAT"; "LON"; "TIME"; "OZONE_ECMWF"; "PRESS_ECMWF"; "SUN_ZENITH";
   "VIEW_ZENITH"; "DELTA_AZIMUTH"; "WINDM"; "TOAR_02"; "TOAR_01"]%string.

Lemma row_count_check_witness :
  Level1_ASCII.__init__ BANDS_MERIS (files (head_rows 5 extraction)) seawifs_args []
  = (Raise AssertionError, [ReadCsv "extraction.csv" ";" the_columns]) /\
  Level1_ASCII.__init__ BANDS_MERIS (files extraction) seawifs_args []
  = (Ok seawifs, [ReadCsv "extraction.csv" ";" the_columns]) /\
  Level1_ASCII.shape seawifs = (3, 2).
Proof.
  split.
  - destruct (proj2 (row_count_check BANDS_MERIS (files (head_rows 5 extraction))
                       seawifs_args [])
                [412; 443] (dict [(412, "TOAR_01"); (443, "TOAR_02")]%string)
                (None, None, None, None) [] the_columns (head_rows 5 extraction))
      as (_ & Hassert & _); [reflexivity..|].
    apply Hassert.
    + change (2 <> 0). lia.
    + change (5 `mod` 2 <> 0). discriminate.
  - destruct (proj2 (row_count_check BANDS_MERIS (files extraction) seawifs_args [])
                [412; 443] (dict [(412, "TOAR_01"); (443, "TOAR_02")]%string)
                (None, None, None, None) [] the_columns extraction)
      as (_ & _ & Hgood); [reflexivity..|].
    destruct (Hgood ltac:(change (2 <> 0); lia) eq_refl
                (replicate 6 {| year := 2005; mon := 3; mday := 1 |}) eq_refl)
      as [Hinit Hshape].
    split; [exact Hinit|exact Hshape].
Defined.

(** Five rows for pixels of two: the exception is the [AssertionError]
    of the [assert] statement, not an exception of a class [ShapeError].
    Six rows for pixels of two, with a time that does not parse: the
    number of rows is a multiple, and the construction fails. *)
Lemma row_count_check_counterexample :
  (Level1_ASCII.__init__ BANDS_MERIS (files (head_rows 5 extraction)) seawifs_args []).1
  = Raise AssertionError /\
  (Level1_ASCII.__init__ BANDS_MERIS (files (head_rows 5 extraction)) seawifs_args []).1
  <> Raise (UserError "ShapeError") /\
  nrows bad_time `mod` Level1_ASCII.kw.square seawifs_args = 0 /\
  (Level1_ASCII.__init__ BANDS_MERIS (files bad_time) seawifs_args []).1
  = Raise ValueError.
Proof.
  split; [reflexivity|]. split; [discriminate|]. split; reflexivity.
Qed.




(** *** Repeated reads *)

Definition array_of (c : Column) : Store.ndarray :=
  match c with NumCol v => Store.floats1 v | ObjCol v => Store.objects1 v end.

(** The extraction of MERIS in a store: its columns, and the two tables
    after them. *)
Definition meris_extraction_store : Store.store :=
  Eval vm_compute in
    ((fun nc : string * Column => array_of nc.2) <$> map_to_list (columns meris_extraction))
    ++ [Store.fields flux_table; Store.fields wavelength_table].

Definition meris_extraction_places : Store.ASCII.places :=
  {| Store.ASCII.columns_at :=
       dict (imap (fun i (nc : string * Column) => (nc.1, i))
               (map_to_list (columns meris_extraction)));
     Store.ASCII.F0_at := Some 11%nat;
     Store.ASCII.detector_wavelength_at := Some 12%nat |}.

Lemma meris_extraction_stored :
  Store.ASCII.stored meris_of_extraction meris_extraction_places meris_extraction_store.
Proof. repeat split; reflexivity. Qed.

(** Three calls: the whole line, its first pixel, the whole line again. *)
Definition the_calls : list call :=
  [((1, 2), (0, 0), [443]); ((1, 1), (0, 0), [443]); ((1, 2), (0, 0), [443])].

Definition the_session : list (result Store.Block) * Store.store :=
  Eval vm_compute in
    Store.session (ascii_call flags meris_of_extraction meris_extraction_places)
      the_calls meris_extraction_store.

Lemma the_session_run :
  Store.session (ascii_call flags meris_of_extraction meris_extraction_places)
    the_calls meris_extraction_store = the_session.
Proof. reflexivity. Qed.

(** The first and the third call have the same arguments: both blocks hold
    the values of [meris_extraction_block], and the arrays of the source are
    as they were. *)
Lemma read_block_repeatable_witness :
  exists r1 r2 r3 h,
    Store.session (ascii_call flags meris_of_extraction meris_extraction_places)
      the_calls meris_extraction_store = ([r1; r2; r3], h) /\
    meris_extraction_store `prefix_of` h /\
    Store.ASCII.stored meris_of_extraction meris_extraction_places h /\
    Store.gives h r1 (Ok meris_extraction_block) /\
    Store.gives h r3 (Ok meris_extraction_block).
Proof.
  pose proof (proj1 (read_block_repeatable flags) meris_of_extraction
                meris_extraction_places meris_extraction_store the_calls
                meris_extraction_stored) as H.
  rewrite the_session_run in H |- *. unfold the_session in H |- *.
  destruct H as (Hpre & Hst & Hrs & _).
  eexists _, _, _, _. split; [reflexivity|]. split; [exact Hpre|]. split; [exact Hst|].
  apply Forall2_cons_1 in Hrs as [H1 Hrs].
  apply Forall2_cons_1 in Hrs as [_ Hrs].
  apply Forall2_cons_1 in Hrs as [H3 _].
  split; [exact H1|exact H3].
Defined.

End Examples.

(** * More properties of the readers *)

(** ** The iteration at the edges *)

Section blocks_edges.
Context {RT : Runtime}.
Variable L2FLAGS : L2FLAGS_t.
Import Blocking.

Lemma ceil_div_nonpos H B :
  0 < B /\ H <= 0 \/ B < 0 /\ 0 <= H -> ceil_div H B <= 0.
Proof.
  unfold ceil_div. intros [[HB HH]|[HB HH]].
  - pose proof (Z.div_pos (- H) B ltac:(lia) HB). lia.
  - assert (0 <= - H / B); [|lia].
    rewrite <- Z.div_opp_opp by lia. apply Z.div_pos; lia.
Qed.

Lemma ceil_div_neg_neg H B : H < 0 -> B < 0 -> 0 < ceil_div H B.
Proof.
  intros HH HB. unfold ceil_div.
  assert (- H / B < 0); [|lia].
  pose proof (Z.div_mod (- H) B ltac:(lia)) as Hdm.
  pose proof (Z.mod_neg_bound (- H) B HB) as Hm. nia.
Qed.

Lemma full3_negative {A} ysize xsize nbands (v : A) :
  ysize < 0 -> np.full3 ysize xsize nbands v = Raise ValueError.
Proof. intros Hy. unfold np.full3. by rewrite decide_False by lia. Qed.

Lemma blocks_of_no_tile {B} (read_block : Z * Z -> Z * Z -> list Z -> result B)
    H W Bs bands :
  Bs <> 0 -> ceil_div H Bs <= 0 ->
  blocks read_block H W Bs bands = ([], None).
Proof.
  intros HB Hn. unfold blocks, tiles, nblocks. rewrite decide_False by done.
  rewrite bind_Ok_eq. unfold xrange, seqZ.
  by replace (Z.to_nat (ceil_div H Bs)) with 0%nat by lia.
Qed.

Lemma blocks_of_zero {B} (read_block : Z * Z -> Z * Z -> list Z -> result B)
    H W bands :
  blocks read_block H W 0 bands = ([], Some ZeroDivisionError).
Proof. reflexivity. Qed.

(** X1. The iteration of both readers outside the sizes that make sense.  A
    block size of zero raises [ZeroDivisionError] before any block is read.
    A height of zero or less with a positive block size, and a negative
    block size with a height of zero or more, give no block and no
    exception.  With both negative the reader of extractions is asked for a
    block of a negative number of rows first, and raises [ValueError]. *)
Theorem blocks_degenerate :
  (forall s bands,
     let H := Level1_ASCII.height s in
     let B := Level1_ASCII.blocksize s in
     (B = 0 -> Level1_ASCII.blocks L2FLAGS s bands = ([], Some ZeroDivisionError)) /\
     (0 < B /\ H <= 0 \/ B < 0 /\ 0 <= H ->
      Level1_ASCII.blocks L2FLAGS s bands = ([], None)) /\
     (H < 0 /\ B < 0 ->
      Level1_ASCII.blocks L2FLAGS s bands = ([], Some ValueError))) /\
  (forall s bands,
     let H := Level1_MERIS.height s in
     let B := Level1_MERIS.blocksize s in
     (B = 0 -> Level1_MERIS.blocks L2FLAGS s bands = ([], Some ZeroDivisionError)) /\
     (0 < B /\ H <= 0 \/ B < 0 /\ 0 <= H ->
      Level1_MERIS.blocks L2FLAGS s bands = ([], None))).
Proof.
  split; intros s bands H B; subst H B.
  - split; [|split].
    + intros HB. unfold Level1_ASCII.blocks. rewrite HB.
      apply blocks_of_zero.
    + intros HHB. apply blocks_of_no_tile; [lia|]. by apply ceil_div_nonpos.
    + intros [HH HB]. pose proof (ceil_div_neg_neg _ _ HH HB) as Hn.
      unfold Level1_ASCII.blocks, blocks, tiles, nblocks.
      rewrite decide_False by lia. rewrite bind_Ok_eq.
      unfold xrange, seqZ.
      destruct (Z.to_nat (ceil_div _ _)) as [|n] eqn:Hk; [lia|].
      cbn [seq fmap list_fmap yield_all]. rewrite Z.add_0_l.
      set (t := tile _ _ _ _ 0).
      assert (Ht : t.1.1 < 0).
      { unfold t, tile. simpl. case_decide; lia. }
      destruct t as [[ys xs] off]. simpl in Ht.
      cbn [fst snd]. unfold Level1_ASCII.read_block. cbv beta iota zeta.
      by rewrite full3_negative.
  - split.
    + intros HB. unfold Level1_MERIS.blocks. rewrite HB.
      apply blocks_of_zero.
    + intros HHB. apply blocks_of_no_tile; [lia|]. by apply ceil_div_nonpos.
Qed.

End blocks_edges.


(** ** Bands and the names of their columns *)

Section dictionaries.
Context `{Countable K} {V : Type}.

Lemma dict_fold (pairs : list (K * V)) (m : gmap K V) :
  fold_left (fun m p => <[p.1 := p.2]> m) pairs m
  = list_to_map (reverse pairs) ∪ m.
Proof.
  revert m. induction pairs as [|[k v] pairs IH]; intros m; simpl.
  - by rewrite (left_id_L ∅ (∪)).
  - rewrite IH, reverse_cons, list_to_map_app. simpl.
    rewrite insert_empty, <- (assoc_L (∪)).
    by rewrite <- insert_union_singleton_l.
Qed.

(** A key is in the dictionary when a pair has it. *)
Lemma dict_is_Some (pairs : list (K * V)) k :
  is_Some (dict pairs !! k) <-> k ∈ pairs.*1.
Proof.
  unfold dict. rewrite dict_fold, (right_id_L ∅ (∪)).
  rewrite <- elem_of_dom, dom_list_to_map_L, elem_of_list_to_set.
  by rewrite fmap_reverse, elem_of_reverse.
Qed.

(** The value of a key is the value of the last pair that has it. *)
Lemma dict_lookup_last (pairs : list (K * V)) (i : nat) k v :
  pairs !! i = Some (k, v) ->
  (forall j p, (i < j)%nat -> pairs !! j = Some p -> p.1 <> k) ->
  dict pairs !! k = Some v.
Proof.
  intros Hi Hlast. unfold dict. rewrite dict_fold, (right_id_L ∅ (∪)).
  rewrite <- (take_drop_middle pairs i (k, v)) by done.
  rewrite reverse_app, reverse_cons, list_to_map_app.
  apply lookup_union_Some_l. rewrite list_to_map_app.
  apply lookup_union_Some_raw. right. split.
  - apply not_elem_of_list_to_map_1. rewrite fmap_reverse, elem_of_reverse.
    intros Hk. apply list_elem_of_fmap in Hk as (p & Hp1 & Hp).
    apply list_elem_of_lookup in Hp as [j Hj]. rewrite lookup_drop in Hj.
    by eapply (Hlast (S i + j)%nat p); [lia|done|].
  - simpl. by rewrite lookup_insert_eq.
Qed.

End dictionaries.

Section names_of_bands.
Context {RT : Runtime}.
Import Level1_ASCII.

Lemma enumerate_lookup {A} (l : list A) (i : nat) :
  enumerate l !! i = (fun a => (Z.of_nat i, a)) <$> l !! i.
Proof. unfold enumerate. by rewrite list_lookup_imap. Qed.

(** The dictionary of the names of the bands: its keys are the bands, and
    a band has the name that its last position in the list gives. *)
Lemma names_of_bands_spec template shift BANDS m :
  names_of_bands template shift BANDS = Ok m ->
  (forall b, is_Some (m !! b) <-> b ∈ BANDS) /\
  (forall (i : nat) b,
     BANDS !! i = Some b ->
     (forall j : nat, (i < j)%nat -> BANDS !! j <> Some b) ->
     exists t n, template = Ok t /\
       str_format t (Z.of_nat i + shift) = Ok n /\ m !! b = Some n).
Proof.
  unfold names_of_bands. intros Hm.
  apply bind_Ok in Hm as (pairs & Hpairs & [= <-]).
  apply mapR_Forall2 in Hpairs.
  assert (Hpair : forall (j : nat) p, pairs !! j = Some p ->
            exists t n, BANDS !! j = Some p.1 /\ template = Ok t /\
              str_format t (Z.of_nat j + shift) = Ok n /\ p.2 = n).
  { intros j p Hj.
    destruct (Forall2_lookup_r _ _ _ _ _ Hpairs Hj) as ([z b] & Hb & Hf).
    rewrite enumerate_lookup in Hb.
    destruct (BANDS !! j) as [b'|]; [|done]. injection Hb as <- <-.
    apply bind_Ok in Hf as (t & Ht & Hf). apply bind_Ok in Hf as (n & Hn & [= <-]).
    by exists t, n. }
  assert (Hband : forall (j : nat) b, BANDS !! j = Some b -> is_Some (pairs !! j)).
  { intros j b Hj. apply lookup_lt_is_Some.
    rewrite <- (Forall2_length _ _ _ Hpairs). unfold enumerate.
    rewrite length_imap. by eapply lookup_lt_Some. }
  split.
  - intros b. rewrite dict_is_Some. split.
    + intros Hb. apply list_elem_of_fmap in Hb as (p & -> & Hp).
      apply list_elem_of_lookup in Hp as [j Hj].
      destruct (Hpair j p Hj) as (_ & _ & Hb & _).
      by eapply list_elem_of_lookup_2.
    + intros Hb. apply list_elem_of_lookup in Hb as [j Hj].
      destruct (Hband j b Hj) as [p Hp].
      destruct (Hpair j p Hp) as (_ & _ & Hb & _).
      apply list_elem_of_fmap. exists p. split; [congruence|].
      by eapply list_elem_of_lookup_2.
  - intros i b Hi Hlast. destruct (Hband i b Hi) as [[b' n] Hp].
    destruct (Hpair i _ Hp) as (t & n' & Hb & Ht & Hn & Hn'). simpl in *.
    assert (b' = b) as -> by congruence. subst n'.
    exists t, n. split; [done|]. split; [done|].
    apply (dict_lookup_last pairs i); [done|].
    intros j p Hij Hj Hk. destruct (Hpair j p Hj) as (_ & _ & Hb' & _).
    apply (Hlast j Hij). congruence.
Qed.

End names_of_bands.


(** ** What a construction has read and what it holds *)

Section construction.
Context {RT : Runtime}.
Variable BANDS_MERIS : list Z.
Import Level1_ASCII.

(** A construction that returns: each of its steps has returned. *)
Lemma init_Ok w a log s log' :
  __init__ BANDS_MERIS w a log = (Ok s, log') ->
  exists BANDS bn smile log1 cols df dates,
    resolve_bands BANDS_MERIS a = Ok BANDS /\
    names_of_bands (header (kw.headers a) "TOA") 1 BANDS = Ok bn /\
    load_smile w a BANDS log = (Ok smile, log1) /\
    assemble_columns a bn = Ok cols /\
    read_csv w (kw.filename a) (kw.sep a) cols = Ok df /\
    check_square (nrows df) (kw.square a) = Ok tt /\
    parse_dates a df = Ok dates /\
    s = new_source a bn smile df dates /\
    log' = log1 ++ [ReadCsv (kw.filename a) (kw.sep a) cols].
Proof.
  rewrite init_run.
  destruct (resolve_bands BANDS_MERIS a) as [BANDS|] eqn:HB; [|done].
  destruct (names_of_bands _ 1 BANDS) as [bn|] eqn:Hbn; [|done].
  destruct (load_smile w a BANDS log) as [[smile|] log1] eqn:Hsm; [|done].
  destruct (assemble_columns a bn) as [cols|] eqn:Hcols; [|done]. cbv zeta.
  destruct (read_csv w _ _ cols) as [df|] eqn:Hdf; [|done].
  destruct (check_square _ _) as [[]|] eqn:Hsq; [|done].
  destruct (parse_dates a df) as [dates|] eqn:Hd; [|done].
  intros [= <- <-]. by eexists BANDS, bn, smile, log1, cols, df, dates.
Qed.

(** The directory and the two files of the calibration tables. *)
Definition smile_files (w : World) (a : kw.t) : list string :=
  if is_meris (kw.sensor a) then
    let dir_smile :=
      match kw.dir_smile a with
      | None => join (getcwd w) "auxdata/meris/smile/v2/"
      | Some d => d
      end in
    if decide (kw.sensor a = Some "MERIS_FR"%string)
    then [join dir_smile "sun_spectral_flux_fr.txt"; join dir_smile "central_wavelen_fr.txt"]
    else [join dir_smile "sun_spectral_flux_rr.txt"; join dir_smile "central_wavelen_rr.txt"]
  else [].

Lemma load_smile_Ok w a BANDS log smile log1 :
  load_smile w a BANDS log = (Ok smile, log1) ->
  log1 = log ++ (ReadTable <$> smile_files w a) /\
  if is_meris (kw.sensor a) then
    exists flux wavelen F0 dw mF mW,
      smile_files w a = [flux; wavelen] /\
      genfromtxt w flux = Ok F0 /\ genfromtxt w wavelen = Ok dw /\
      names_of_bands (Ok "E0_band{:d}"%string) 0 BANDS = Ok mF /\
      names_of_bands (Ok "lam_band{:d}"%string) 0 BANDS = Ok mW /\
      smile = (Some F0, Some dw, Some mF, Some mW)
  else smile = (None, None, None, None).
Proof.
  unfold load_smile, smile_files, mbind, IO_bind, pure, perform, mret, IO_ret.
  destruct (is_meris (kw.sensor a)).
  - set (dir := match kw.dir_smile a with Some d => d | None => _ end).
    destruct (decide (kw.sensor a = Some "MERIS_FR"%string)).
    all: repeat match goal with
         | |- context [genfromtxt ?w' ?p] =>
             let E := fresh "E" in destruct (genfromtxt w' p) eqn:E
         | |- context [names_of_bands ?t ?n ?B] =>
             let E := fresh "E" in destruct (names_of_bands t n B) eqn:E
         end.
    all: intros [= <- <-]; rewrite <- ?app_assoc.
    all: split; [reflexivity|].
    all: by eexists _, _, _, _, _, _.
  - intros [= <- <-]. by rewrite app_nil_r.
Qed.

(** X2. The files that a construction reads, in order: for a sensor of the
    MERIS family the table of the solar flux and the table of the
    wavelengths, of the full resolution for ['MERIS_FR'] and of the reduced
    resolution otherwise, from [dir_smile] or from [auxdata/meris/smile/v2/]
    under the working directory; then, for every sensor, the extraction,
    once, with the columns that were assembled.  The source holds what
    these reads returned. *)
Theorem construction_reads w a log s log' :
  __init__ BANDS_MERIS w a log = (Ok s, log') ->
  exists cols,
    assemble_columns a (band_names s) = Ok cols /\
    log' = log ++ (ReadTable <$> smile_files w a)
               ++ [ReadCsv (kw.filename a) (kw.sep a) cols] /\
    read_csv w (kw.filename a) (kw.sep a) cols = Ok (csv s) /\
    (if is_meris (kw.sensor a) then
       exists flux wavelen tF tw,
         smile_files w a = [flux; wavelen] /\
         genfromtxt w flux = Ok tF /\ F0 s = Some tF /\
         genfromtxt w wavelen = Ok tw /\ detector_wavelength s = Some tw
     else smile_files w a = [] /\ F0 s = None /\ detector_wavelength s = None).
Proof.
  intros Hs.
  apply init_Ok in Hs
    as (BANDS & bn & smile & log1 & cols & df & dates &
        HB & Hbn & Hsm & Hcols & Hdf & Hsq & Hd & -> & ->).
  apply load_smile_Ok in Hsm as [-> Hsm]. exists cols. simpl.
  split; [done|]. split; [by rewrite <- app_assoc|]. split; [done|].
  destruct (is_meris (kw.sensor a)) eqn:Hm.
  - destruct Hsm as (flux & wavelen & F0 & dw & mF & mW & Hf & HF & Hw & _ & _ & ->).
    by exists flux, wavelen, F0, dw.
  - subst smile. unfold smile_files. by rewrite Hm.
Qed.

(** X3. The column of a band is named by the position of the band in the list
    of bands: position [i], counted from 0, reads the column whose name is
    the template of ['TOA'] formatted with [i + 1].  The dictionary has the
    bands of the list as its keys and no other; a band that the list has
    twice reads the column of its last position.  For a sensor of the MERIS
    family the fields of the two tables are named likewise, with [i]. *)
Theorem band_columns_by_position w a log s log' :
  __init__ BANDS_MERIS w a log = (Ok s, log') ->
  exists BANDS,
    resolve_bands BANDS_MERIS a = Ok BANDS /\
    (forall b, is_Some (band_names s !! b) <-> b ∈ BANDS) /\
    (forall (i : nat) b,
       BANDS !! i = Some b ->
       (forall j : nat, (i < j)%nat -> BANDS !! j <> Some b) ->
       exists template n,
         header (kw.headers a) "TOA" = Ok template /\
         str_format template (Z.of_nat i + 1) = Ok n /\
         band_names s !! b = Some n) /\
    (is_meris (sensor s) = true ->
     exists mF mW,
       F0_band_names s = Some mF /\ wav_band_names s = Some mW /\
       forall (i : nat) b,
         BANDS !! i = Some b ->
         (forall j : nat, (i < j)%nat -> BANDS !! j <> Some b) ->
         exists nF nW,
           str_format "E0_band{:d}" (Z.of_nat i) = Ok nF /\ mF !! b = Some nF /\
           str_format "lam_band{:d}" (Z.of_nat i) = Ok nW /\ mW !! b = Some nW).
Proof.
  intros Hs.
  apply init_Ok in Hs
    as (BANDS & bn & smile & log1 & cols & df & dates &
        HB & Hbn & Hsm & Hcols & Hdf & Hsq & Hd & -> & ->).
  apply load_smile_Ok in Hsm as [_ Hsm].
  destruct (names_of_bands_spec _ _ _ _ Hbn) as [Hdom Hpos].
  exists BANDS. split; [done|]. split; [done|]. split.
  - intros i b Hi Hlast. destruct (Hpos i b Hi Hlast) as (t & n & Ht & Hn & Hb).
    by exists t, n.
  - simpl. intros Hm. rewrite Hm in Hsm.
    destruct Hsm as (flux & wavelen & F0 & dw & mF & mW & _ & _ & _ & HmF & HmW & ->).
    exists mF, mW. split; [done|]. split; [done|].
    intros i b Hi Hlast.
    destruct (proj2 (names_of_bands_spec _ _ _ _ HmF) i b Hi Hlast)
      as (tF & nF & [= <-] & HnF & HbF).
    destruct (proj2 (names_of_bands_spec _ _ _ _ HmW) i b Hi Hlast)
      as (tW & nW & [= <-] & HnW & HbW).
    rewrite Z.add_0_r in HnF, HnW. by exists nF, nW.
Qed.

End construction.


(** ** The bands of a block *)

Section meris_construction.
Context {RT : Runtime}.
Import Level1_MERIS.

(** A construction that returns: each of its steps has returned. *)
Lemma meris_init_Ok w filename sline eline blocksize log s log' :
  __init__ w filename sline eline blocksize log = (Ok s, log') ->
  exists prod F0 dw date,
    epr_Product w filename = Ok prod /\
    genfromtxt w (smile_dir +:+ "sun_spectral_flux_rr.txt") = Ok F0 /\
    genfromtxt w (smile_dir +:+ "central_wavelen_rr.txt") = Ok dw /\
    strptime (fold_left (fun d m => replace m.1 m.2 d) months (SENSING_START prod))
      "%d-%m-%Y %H:%M:%S.%f" = Ok date /\
    s = {| sensor := "MERIS";
           filename := filename;
           prod := prod;
           width := get_scene_width prod;
           totalheight := get_scene_height prod;
           blocksize := blocksize;
           sline := sline;
           eline := eline;
           height := active_height (get_scene_height prod) sline eline;
           shape := (active_height (get_scene_height prod) sline eline,
                     get_scene_width prod);
           band_names := band_names_const;
           Level1_MERIS.F0 := F0;
           F0_band_names := F0_band_names_const;
           wav_band_names := wav_band_names_const;
           detector_wavelength := dw;
           date := date |} /\
    log' = log ++ [OpenProduct filename;
                   ReadTable (smile_dir +:+ "sun_spectral_flux_rr.txt");
                   ReadTable (smile_dir +:+ "central_wavelen_rr.txt")].
Proof.
  unfold __init__, mbind, IO_bind, pure, perform, mret, IO_ret.
  destruct (epr_Product w filename) as [prod|] eqn:Hp; [|done]. cbv zeta.
  destruct (genfromtxt w (smile_dir +:+ "sun_spectral_flux_rr.txt")) as [F0|] eqn:HF;
    [|done].
  destruct (genfromtxt w (smile_dir +:+ "central_wavelen_rr.txt")) as [dw|] eqn:Hw;
    [|done].
  destruct (strptime _ _) as [date|] eqn:Hd; [|done].
  intros [= <- <-]. exists prod, F0, dw, date.
  by rewrite <- !app_assoc.
Qed.

End meris_construction.

Section block_bands.
Context {RT : Runtime}.
Variable BANDS_MERIS : list Z.
Variable L2FLAGS : L2FLAGS_t.

(** X4. The reader of extractions returns no block for an empty list of bands:
    the flag of the invalid pixels looks at the first band. *)
Theorem ascii_read_block_needs_band s size offset bands b :
  Level1_ASCII.read_block L2FLAGS s size offset bands = Ok b -> bands <> [].
Proof.
  destruct size as [ys xs]. intros Hb ->.
  unfold Level1_ASCII.read_block in Hb. cbv beta iota zeta in Hb.
  inv_result Hb.
  all: match goal with
       | E : band_slice _ _ _ = Ok _ |- _ => unfold band_slice in E; by case_decide
       end.
Qed.

Lemma TOA_band_key s sl size band plane :
  Level1_ASCII.TOA_band s sl size band = Ok plane ->
  is_Some (Level1_ASCII.band_names s !! band).
Proof.
  unfold Level1_ASCII.TOA_band, getitem. intros Hp.
  apply bind_Ok in Hp as (name & Hn & _).
  by destruct (Level1_ASCII.band_names s !! band).
Qed.

Lemma band_major_planes cube size bands plane_of band :
  band_major cube size bands plane_of -> band ∈ bands ->
  exists plane, plane_of band = Ok plane.
Proof.
  intros (c & _ & Hc) Hb. apply list_elem_of_lookup in Hb as [k Hk].
  destruct (Hc k band Hk) as (plane & Hp & _). by exists plane.
Qed.

(** The fifteen bands of MERIS. *)
Definition meris_bands : list Z :=
  [412; 443; 490; 510; 560; 620; 665; 681; 709; 754; 760; 779; 865; 885; 900].

(** X5. A block is read for bands of the sensor only.  The source of an
    extraction returns a block for bands of its list of bands, the one
    given or the one of its sensor; the source of a product returns a block
    for bands among the fifteen of MERIS. *)
Theorem block_bands_of_sensor :
  (forall w a log s log' size offset bands b,
     Level1_ASCII.__init__ BANDS_MERIS w a log = (Ok s, log') ->
     Level1_ASCII.read_block L2FLAGS s size offset bands = Ok b ->
     exists BANDS,
       Level1_ASCII.resolve_bands BANDS_MERIS a = Ok BANDS /\
       forall band, band ∈ bands -> band ∈ BANDS) /\
  (forall w filename sline eline blocksize log s log' size offset bands b,
     Level1_MERIS.__init__ w filename sline eline blocksize log = (Ok s, log') ->
     Level1_MERIS.read_block L2FLAGS s size offset bands = Ok b ->
     forall band, band ∈ bands -> band ∈ meris_bands).
Proof.
  split.
  - intros w a log s log' [ys xs] offset bands b Hs Hb.
    apply init_Ok in Hs
      as (BANDS & bn & smile & log1 & cols & df & dates &
          HB & Hbn & _ & _ & _ & _ & _ & -> & _).
    destruct (names_of_bands_spec _ _ _ _ Hbn) as [Hdom _].
    exists BANDS. split; [done|]. intros band Hband. apply Hdom.
    destruct (ascii_read_block_bands _ _ _ _ _ _ _ Hb) as (HTOA & _).
    destruct (band_major_planes _ _ _ _ _ HTOA Hband) as [plane Hp].
    by apply TOA_band_key in Hp.
  - intros w filename sline eline blocksize log s log' [ys xs] offset bands b Hs Hb
      band Hband.
    apply meris_init_Ok in Hs as (prod & F0 & dw & date & _ & _ & _ & _ & -> & _).
    destruct (meris_read_block_bands _ _ _ _ _ _ _ Hb) as (di & _ & HTOA & _).
    destruct (band_major_planes _ _ _ _ _ HTOA Hband) as [plane Hp].
    unfold Level1_MERIS.Ltoa_band, getitem in Hp. simpl in Hp.
    apply bind_Ok in Hp as (name & Hn & _).
    assert (Hk : is_Some (Level1_MERIS.band_names_const !! band)).
    { by destruct (Level1_MERIS.band_names_const !! band). }
    unfold Level1_MERIS.band_names_const in Hk. by apply dict_is_Some in Hk.
Qed.

End block_bands.


(** ** The rows of the file and the pixels of a block *)

Section rows_and_pixels.
Context {RT : Runtime}.
Variable L2FLAGS : L2FLAGS_t.
Import Level1_ASCII.

(** Row [r] of the column [cname] of the extraction, and row [r] of the
    column that the header [fname] names. *)
Definition file_cell (s : Source) (cname : string) (r : Z) : option float :=
  columns (csv s) !! cname ≫= fun col =>
    match col with
    | NumCol v => v !! Z.to_nat r
    | ObjCol _ => None
    end.

Definition field_cell (s : Source) (fname : string) (r : Z) : option float :=
  headers s !! fname ≫= fun cname => file_cell s cname r.

(** The pixel holds the cell: both are there, with the same value. *)
Definition holds {A} (pixel cell : option A) : Prop :=
  exists v, cell = Some v /\ pixel = Some v.

Lemma reshape_slice_at {A} (l : list A) o ys xs arr (y x : nat) :
  np.reshape (np.slice l (o * xs, (o + ys) * xs)) (ys, xs) = Ok arr ->
  0 <= o -> Z.of_nat y < ys -> Z.of_nat x < xs ->
  holds (np.at2 arr y x) (l !! Z.to_nat ((o + Z.of_nat y) * xs + Z.of_nat x)).
Proof.
  intros Harr Ho Hy Hx.
  apply reshape_Ok in Harr as [Hlen ->]; [|lia..].
  rewrite length_slice_nonneg in Hlen by nia.
  assert (Hin : (o + ys) * xs <= Z.of_nat (length l)) by nia.
  rewrite slice_inside by nia.
  unfold np.at2. rewrite rows_lookup by lia. simpl.
  rewrite lookup_take_lt by lia. rewrite lookup_drop.
  rewrite lookup_take_lt by nia. rewrite lookup_drop.
  replace (Z.to_nat (o * xs) + (y * Z.to_nat xs + x))%nat
    with (Z.to_nat ((o + Z.of_nat y) * xs + Z.of_nat x)) by nia.
  destruct (lookup_lt_is_Some_2 l (Z.to_nat ((o + Z.of_nat y) * xs + Z.of_nat x)))
    as [v Hv]; [nia|].
  by exists v.
Qed.

Lemma csv_block_at s cname o ys xs arr (y x : nat) :
  csv_block s cname (o * xs, (o + ys) * xs) (ys, xs) = Ok arr ->
  0 <= o -> Z.of_nat y < ys -> Z.of_nat x < xs ->
  holds (np.at2 arr y x) (file_cell s cname ((o + Z.of_nat y) * xs + Z.of_nat x)).
Proof.
  unfold csv_block, getitem, file_cell. intros Harr Ho Hy Hx.
  apply bind_Ok in Harr as (col & Hcol & Harr).
  apply bind_Ok in Harr as (v & Hv & Harr).
  destruct (columns (csv s) !! cname) as [col'|]; [|done].
  injection Hcol as ->. destruct col as [v'|]; [|done]. injection Hv as ->.
  simpl. by apply (reshape_slice_at _ _ ys).
Qed.

Lemma header_Some s fname cname :
  header (headers s) fname = Ok cname -> headers s !! fname = Some cname.
Proof. unfold header, getitem. by destruct (headers s !! fname); intros [= ->]. Qed.

Lemma raw_field_at s fname cname o ys xs arr (y x : nat) :
  header (headers s) fname = Ok cname ->
  csv_block s cname (o * xs, (o + ys) * xs) (ys, xs) = Ok arr ->
  0 <= o -> Z.of_nat y < ys -> Z.of_nat x < xs ->
  holds (at2o (Some arr) y x)
    (field_cell s fname ((o + Z.of_nat y) * xs + Z.of_nat x)).
Proof.
  intros Hh Harr Ho Hy Hx. unfold field_cell.
  rewrite (header_Some _ _ _ Hh). simpl. by apply (csv_block_at _ _ _ ys).
Qed.

Lemma get_field_at s fname o ys xs arr (y x : nat) :
  get_field s fname (o * xs, (o + ys) * xs) (ys, xs) = Ok arr ->
  0 <= o -> Z.of_nat y < ys -> Z.of_nat x < xs ->
  holds (at2o (Some arr) y x)
    (float32 <$> field_cell s fname ((o + Z.of_nat y) * xs + Z.of_nat x)).
Proof.
  unfold get_field. intros Harr Ho Hy Hx.
  apply bind_Ok in Harr as (cname & Hh & Harr).
  apply bind_Ok in Harr as (a & Ha & [= <-]).
  destruct (raw_field_at _ _ _ _ _ _ _ y x Hh Ha Ho Hy Hx) as (v & Hv & Hat).
  exists (float32 v). rewrite Hv. split; [done|].
  simpl in *. by rewrite at2_map2, Hat.
Qed.

(** The cell of the top-of-atmosphere signal of a band. *)
Definition band_cell (s : Source) (band : Z) (r : Z) : option float :=
  band_names s !! band ≫= fun name => file_cell s name r.

Lemma TOA_band_at s band o ys xs plane (y x : nat) :
  TOA_band s (o * xs, (o + ys) * xs) (ys, xs) band = Ok plane ->
  0 <= o -> Z.of_nat y < ys -> Z.of_nat x < xs ->
  holds (np.at2 plane y x) (band_cell s band ((o + Z.of_nat y) * xs + Z.of_nat x)).
Proof.
  unfold TOA_band, getitem, band_cell. intros Hp Ho Hy Hx.
  apply bind_Ok in Hp as (name & Hn & Hp).
  destruct (band_names s !! band) as [name'|]; [|done]. injection Hn as ->.
  simpl. by apply (csv_block_at _ _ _ ys).
Qed.

Lemma dates_at {B} (f : datetime -> B) s o ys xs arr (y x : nat) :
  np.reshape (f <$> np.slice (dates s) (o * xs, (o + ys) * xs)) (ys, xs) = Ok arr ->
  0 <= o -> Z.of_nat y < ys -> Z.of_nat x < xs ->
  holds (np.at2 arr y x)
    (f <$> dates s !! Z.to_nat ((o + Z.of_nat y) * xs + Z.of_nat x)).
Proof.
  intros Harr Ho Hy Hx. rewrite slice_fmap in Harr.
  rewrite <- list_lookup_fmap. by apply (reshape_slice_at _ _ ys).
Qed.

Lemma modulus_at s zname mname cz cm o ys xs zwind mwind (y x : nat) :
  header (headers s) zname = Ok cz ->
  csv_block s cz (o * xs, (o + ys) * xs) (ys, xs) = Ok zwind ->
  header (headers s) mname = Ok cm ->
  csv_block s cm (o * xs, (o + ys) * xs) (ys, xs) = Ok mwind ->
  0 <= o -> Z.of_nat y < ys -> Z.of_nat x < xs ->
  holds (at2o (Some (np.zip2 hypot2 zwind mwind)) y x)
    (z ← field_cell s zname ((o + Z.of_nat y) * xs + Z.of_nat x);
     m ← field_cell s mname ((o + Z.of_nat y) * xs + Z.of_nat x);
     Some (hypot2 z m)).
Proof.
  intros Hz Hzw Hm Hmw Ho Hy Hx.
  destruct (raw_field_at _ _ _ _ _ _ _ y x Hz Hzw Ho Hy Hx) as (z & -> & Hzat).
  destruct (raw_field_at _ _ _ _ _ _ _ y x Hm Hmw Ho Hy Hx) as (m & -> & Hmat).
  exists (hypot2 z m). split; [done|]. simpl in *.
  by rewrite at2_zip2, Hzat, Hmat.
Qed.

(** X6. Pixel [(y, x)] of a block of [xsize] columns at the row offset [o >= 0]
    holds row [(o + y) * xsize + x] of the file, which is there: the
    coordinates, the zenith angles and the azimuths rounded to [float32];
    the ozone, the pressure, the wind and the signal of each band as they
    are in the file; with the two components of the wind, their modulus;
    the day of the year and the month of the date of the row. *)
Theorem pixel_of_row s ys xs offset bands b (y x : nat) :
  read_block L2FLAGS s (ys, xs) offset bands = Ok b ->
  0 <= offset.1 -> Z.of_nat y < ys -> Z.of_nat x < xs ->
  let r := (offset.1 + Z.of_nat y) * xs + Z.of_nat x in
  holds (at2o (latitude b) y x) (float32 <$> field_cell s "LAT" r) /\
  holds (at2o (longitude b) y x) (float32 <$> field_cell s "LON" r) /\
  holds (at2o (sza b) y x) (float32 <$> field_cell s "SZA" r) /\
  holds (at2o (vza b) y x) (float32 <$> field_cell s "VZA" r) /\
  (if relative_azimuth s then
     holds (at2o (_raa b) y x) (float32 <$> field_cell s "RAA" r) /\
     saa b = None /\ vaa b = None
   else
     _raa b = None /\
     holds (at2o (saa b) y x) (float32 <$> field_cell s "SAA" r) /\
     holds (at2o (vaa b) y x) (float32 <$> field_cell s "VAA" r)) /\
  holds (at2o (ozone b) y x) (field_cell s "OZONE" r) /\
  holds (at2o (surf_press b) y x) (field_cell s "SURFACE_PRESSURE" r) /\
  holds (at2o (wind_speed b) y x)
    (if wind_module s then field_cell s "WIND" r
     else z ← field_cell s "ZONAL_WIND" r;
          m ← field_cell s "MERID_WIND" r; Some (hypot2 z m)) /\
  (forall (k : nat) band, bands !! k = Some band ->
     holds (TOA b ≫= fun c => np.at3 c y x k) (band_cell s band r)) /\
  holds (match jday b with Some (jday_pixels a) => np.at2 a y x | _ => None end)
    (tm_yday <$> dates s !! Z.to_nat r) /\
  holds (at2o (month b) y x) (tm_mon <$> dates s !! Z.to_nat r).
Proof.
  intros Hb Ho Hy Hx r.
  pose proof (ascii_read_block_bands _ _ _ _ _ _ _ Hb) as (HTOA & _).
  assert (Hbands : forall (k : nat) band, bands !! k = Some band ->
            holds (TOA b ≫= fun c => np.at3 c y x k) (band_cell s band r)).
  { intros k band Hk. destruct HTOA as (c & -> & Hc).
    destruct (Hc k band Hk) as (plane & Hp & Hat). simpl.
    rewrite (Hat y x) by done. by apply (TOA_band_at _ _ _ ys). }
  unfold read_block in Hb. cbv beta iota zeta in Hb.
  inv_result Hb.
  all: cbn [latitude longitude sza vza _raa saa vaa ozone surf_press wind_speed
            jday month].
  all: repeat match goal with
       | |- _ /\ _ => split
       | |- holds (at2o (Some _) _ _) (float32 <$> _) =>
           by apply (get_field_at _ _ _ ys)
       | |- holds (at2o (Some _) _ _) (field_cell _ _ _) =>
           by eapply (raw_field_at _ _ _ _ ys)
       | |- forall k band, _ => exact Hbands
       | |- None = None => reflexivity
       | |- holds _ (_ <$> dates _ !! _) => by apply (dates_at _ _ _ ys)
       | |- holds _ (_ ≫= _) => by eapply (modulus_at _ _ _ _ _ _ ys)
       end.
Qed.

End rows_and_pixels.


Section column_offset.
Context {RT : Runtime}.
Variable L2FLAGS : L2FLAGS_t.
Import Level1_ASCII.

(** The block, with another offset written on it. *)
Definition with_offset (b : Block) (offset : Z * Z) : Block :=
  {| offset := offset; size := size b; bands := bands b;
     latitude := latitude b; longitude := longitude b;
     sza := sza b; vza := vza b;
     _raa := _raa b; saa := saa b; vaa := vaa b;
     Rtoa := Rtoa b; Ltoa := Ltoa b;
     data.F0 := data.F0 b; wavelen := wavelen b;
     jday := jday b; month := month b; bitmask := bitmask b;
     ozone := ozone b; wind_speed := wind_speed b;
     surf_press := surf_press b |}.

(** X7. The reader of extractions does not look at the column offset: with
    another one it reads the same rows, returns the same arrays or raises
    the same exception, and only writes the offset that it was given on the
    block. *)
Theorem column_offset_ignored s size yoffset xoffset xoffset' bands :
  read_block L2FLAGS s size (yoffset, xoffset') bands
  = (fun b => with_offset b (yoffset, xoffset'))
      <$> read_block L2FLAGS s size (yoffset, xoffset) bands.
Proof.
  destruct size as [ysize xsize]. unfold read_block.
  cbv beta iota zeta. cbn [fst snd].
  unfold mbind, result_bind, fmap, result_fmap.
  repeat (case_match; try done).
Qed.

End column_offset.


(** ** The dates of the rows *)

Section dates_of_rows.
Context {RT : Runtime}.
Variable BANDS_MERIS : list Z.
Variable L2FLAGS : L2FLAGS_t.
Import Level1_ASCII.

(** The dates of a source: one for each text of the column of the dates,
    in the order of the rows. *)
Lemma parse_dates_Ok a df dates :
  parse_dates a df = Ok dates ->
  exists cname, header (kw.headers a) "DATETIME" = Ok cname /\
    match columns df !! cname with
    | Some (ObjCol times) =>
        Forall2 (fun t d => strptime t (kw.datetime_fmt a) = Ok d) times dates
    | Some (NumCol v) => v = [] /\ dates = []
    | None => False
    end.
Proof.
  unfold parse_dates, getitem. intros Hd.
  apply bind_Ok in Hd as (cname & Hc & Hd). exists cname. split; [done|].
  apply bind_Ok in Hd as (col & Hcol & Hd).
  destruct (columns df !! cname) as [col'|]; [|done]. injection Hcol as ->.
  destruct col as [[|]|times].
  - by injection Hd as <-.
  - done.
  - by apply mapR_Forall2.
Qed.

Lemma read_block_dates s ys xs offset bands b :
  read_block L2FLAGS s (ys, xs) offset bands = Ok b ->
  exists jd mo,
    np.reshape (tm_yday <$> np.slice (dates s) (offset.1 * xs, (offset.1 + ys) * xs))
      (ys, xs) = Ok jd /\
    np.reshape (tm_mon <$> np.slice (dates s) (offset.1 * xs, (offset.1 + ys) * xs))
      (ys, xs) = Ok mo /\
    jday b = Some (jday_pixels jd) /\ month b = Some mo.
Proof.
  intros Hb. unfold read_block in Hb. cbv beta iota zeta in Hb.
  inv_result Hb. all: by eexists _, _.
Qed.

(** X8. In a block of a source that was constructed, the day of the year and
    the month of pixel [(y, x)] are those of the text of the date in row
    [(o + y) * xsize + x] of the file, parsed with the format of the
    construction. *)
Theorem jday_of_timestamp w a log s log' ys xs offset bands b (y x : nat) :
  __init__ BANDS_MERIS w a log = (Ok s, log') ->
  read_block L2FLAGS s (ys, xs) offset bands = Ok b ->
  0 <= offset.1 -> Z.of_nat y < ys -> Z.of_nat x < xs ->
  exists cname times t d jd,
    header (kw.headers a) "DATETIME" = Ok cname /\
    columns (csv s) !! cname = Some (ObjCol times) /\
    times !! Z.to_nat ((offset.1 + Z.of_nat y) * xs + Z.of_nat x) = Some t /\
    strptime t (kw.datetime_fmt a) = Ok d /\
    jday b = Some (jday_pixels jd) /\
    np.at2 jd y x = Some (tm_yday d) /\
    at2o (month b) y x = Some (tm_mon d).
Proof.
  intros Hs Hb Ho Hy Hx.
  apply init_Ok in Hs
    as (BANDS & bn & smile & log1 & cols & df & dates &
        _ & _ & _ & _ & _ & _ & Hd & -> & _).
  destruct (read_block_dates _ _ _ _ _ _ Hb) as (jd & mo & Hjd & Hmo & Hj & Hm).
  destruct (dates_at tm_yday _ _ _ _ _ y x Hjd Ho Hy Hx) as (dj & Hdj & Hjat).
  destruct (dates_at tm_mon _ _ _ _ _ y x Hmo Ho Hy Hx) as (dm & Hdm & Hmat).
  simpl in Hdj, Hdm.
  destruct (dates !! _) as [d|] eqn:Hdate; [|done].
  injection Hdj as <-. injection Hdm as <-.
  destruct (parse_dates_Ok _ _ _ Hd) as (cname & Hc & Hcol). simpl.
  destruct (columns df !! cname) as [[v|times]|] eqn:Hcc; [| |done].
  { destruct Hcol as [_ ->]. done. }
  destruct (Forall2_lookup_r _ _ _ _ _ Hcol Hdate) as (t & Ht & Hparse).
  exists cname, times, t, d, jd. rewrite Hm. by repeat split.
Qed.

End dates_of_rows.


(** ** The rows of the file and the tiles *)

Section tiles_and_rows.
Context {RT : Runtime}.
Variable BANDS_MERIS : list Z.
Import Level1_ASCII Blocking.

Lemma check_square_exact n sq :
  check_square n sq = Ok tt -> sq <> 0 /\ n = n `div` sq * sq.
Proof.
  unfold check_square. repeat case_decide; try done. intros _.
  split; [done|]. pose proof (Z.div_mod n sq ltac:(done)). lia.
Qed.

Lemma pixel_of_index W B r :
  0 < W -> 0 < B -> 0 <= r ->
  forall i y x, 0 <= i -> 0 <= y < B -> 0 <= x < W ->
    (i * B + y) * W + x = r ->
    i = (r `div` W) `div` B /\ y = (r `div` W) `mod` B /\ x = r `mod` W.
Proof.
  intros HW HB Hr i y x Hi Hy Hx Hrow.
  assert (Hq : r `div` W = i * B + y).
  { symmetry. apply (Z.div_unique r W _ x); lia. }
  assert (Hx' : x = r `mod` W).
  { apply (Z.mod_unique r W (i * B + y) x); lia. }
  rewrite Hq. split; [|split; [|done]].
  - apply (Z.div_unique _ B i y); lia.
  - apply (Z.mod_unique _ B i y); lia.
Qed.

(** X9. The tiles of a source that was constructed go through the rows of the
    file once: every row of the file is the row of one pixel of one tile,
    and of no other. *)
Theorem rows_of_tiles w a log s log' :
  __init__ BANDS_MERIS w a log = (Ok s, log') ->
  0 < kw.square a -> 0 < kw.blocksize a ->
  exists ts,
    tiles (height s) (width s) (blocksize s) = Ok ts /\
    forall r, 0 <= r < nrows (csv s) ->
      exists (i : nat) t y x,
        ts !! i = Some t /\
        0 <= y < tile_height t /\ 0 <= x < tile_width t /\
        (tile_row t + y) * tile_width t + x = r /\
        forall (i' : nat) t' y' x',
          ts !! i' = Some t' ->
          0 <= y' < tile_height t' -> 0 <= x' < tile_width t' ->
          (tile_row t' + y') * tile_width t' + x' = r ->
          i' = i /\ y' = y /\ x' = x.
Proof.
  intros Hs HW HB.
  apply init_Ok in Hs
    as (BANDS & bn & smile & log1 & cols & df & dates &
        _ & _ & _ & _ & _ & Hsq & _ & -> & _).
  apply check_square_exact in Hsq as [_ Hn]. simpl.
  set (W := kw.square a) in *. set (B := kw.blocksize a) in *.
  set (H := nrows df `div` W) in *.
  pose proof (ceil_div_bounds H B HB) as Hc.
  exists (tile H W B (ceil_div H B) <$> xrange (ceil_div H B)). split.
  { unfold tiles, nblocks. by rewrite decide_False by lia. }
  intros r Hr.
  assert (Hlook : forall (i : nat) t,
            (tile H W B (ceil_div H B) <$> xrange (ceil_div H B)) !! i = Some t ->
            Z.of_nat i < ceil_div H B /\
            t = ((Z.min B (H - Z.of_nat i * B), W), (Z.of_nat i * B, 0))).
  { intros i t Hi.
    assert (Hlt : Z.of_nat i < ceil_div H B).
    { apply lookup_lt_Some in Hi. rewrite length_fmap in Hi.
      unfold xrange in Hi. rewrite length_seqZ in Hi. lia. }
    split; [done|].
    pose proof (tiles_lookup H W B (Z.of_nat i) HB ltac:(lia)) as Ht.
    rewrite Nat2Z.id in Ht. congruence. }
  pose proof (Z.div_mod r W ltac:(lia)) as Hdm.
  pose proof (Z.mod_pos_bound r W HW) as Hm.
  set (q := r `div` W) in *.
  assert (Hq : 0 <= q < H).
  { split; [apply Z.div_pos; lia|]. apply Z.div_lt_upper_bound; lia. }
  pose proof (Z.div_mod q B ltac:(lia)) as Hdm'.
  pose proof (Z.mod_pos_bound q B HB) as Hm'.
  assert (Hi : 0 <= q `div` B < ceil_div H B).
  { split; [apply Z.div_pos; lia|]. nia. }
  exists (Z.to_nat (q `div` B)), ((Z.min B (H - q `div` B * B), W), (q `div` B * B, 0)),
         (q `mod` B), (r `mod` W).
  split; [by apply tiles_lookup|].
  unfold tile_height, tile_width, tile_row. cbn [fst snd].
  split; [lia|]. split; [lia|]. split; [lia|].
  intros i' t' y' x' Ht' Hy' Hx' Hrow.
  apply Hlook in Ht' as [Hi' ->]. cbn [fst snd] in *.
  destruct (pixel_of_index W B r HW HB ltac:(lia) (Z.of_nat i') y' x')
    as (Hi'' & -> & ->); [lia|lia|lia|done|].
  fold q in Hi''. split; [lia|done].
Qed.

End tiles_and_rows.


(** ** Reading a whole extraction *)

Section whole_file.
Context {RT : Runtime}.
Variable BANDS_MERIS : list Z.
Variable L2FLAGS : L2FLAGS_t.
Import Level1_ASCII.

(** The fields that [read_block] reads for a sensor outside the MERIS
    family, by their headers, and the columns that it reads: those of the
    fields and those of the bands. *)
Definition fields_read (s : Source) : list string :=
  ["LAT"; "LON"; "SZA"; "VZA"]
  ++ (if relative_azimuth s then ["RAA"] else ["SAA"; "VAA"])
  ++ ["OZONE"]
  ++ (if wind_module s then ["WIND"] else ["ZONAL_WIND"; "MERID_WIND"])
  ++ ["SURFACE_PRESSURE"].

Definition columns_read (s : Source) (bands : list Z) : list string :=
  omap (fun f => headers s !! f) (fields_read s)
  ++ omap (fun b => band_names s !! b) bands.

(** A column of numbers, one for each row of the file. *)
Definition numbers (df : DataFrame) (cname : string) : Prop :=
  exists v, columns df !! cname = Some (NumCol v) /\ Z.of_nat (length v) = nrows df.

Lemma slice_whole {A} (l : list A) n :
  Z.of_nat (length l) = n -> np.slice l (0, n) = l.
Proof.
  intros Hn. rewrite slice_inside by lia.
  rewrite drop_0, take_ge; [done|lia].
Qed.

Lemma reshape_whole {A} (l : list A) H W :
  0 <= H -> 0 <= W -> Z.of_nat (length l) = H * W ->
  is_Ok (np.reshape (np.slice l (0 * W, (0 + H) * W)) (H, W)).
Proof.
  intros HH HW Hl. rewrite slice_whole by lia.
  eexists. by apply reshape_intro.
Qed.

Lemma csv_block_whole s cname H W :
  0 <= H -> 0 <= W -> nrows (csv s) = H * W -> numbers (csv s) cname ->
  is_Ok (csv_block s cname (0 * W, (0 + H) * W) (H, W)).
Proof.
  intros HH HW Hn (v & Hv & Hl). unfold csv_block, getitem. rewrite Hv.
  cbn. apply reshape_whole; lia.
Qed.

Lemma get_field_whole s fname cname H W :
  0 <= H -> 0 <= W -> nrows (csv s) = H * W ->
  headers s !! fname = Some cname -> numbers (csv s) cname ->
  is_Ok (get_field s fname (0 * W, (0 + H) * W) (H, W)).
Proof.
  intros HH HW Hn Hh Hc. unfold get_field, header, getitem. rewrite Hh.
  destruct (csv_block_whole s cname H W HH HW Hn Hc) as [arr Harr].
  rewrite bind_Ok_eq, Harr. by eexists.
Qed.

Lemma raw_field_whole s fname cname H W :
  0 <= H -> 0 <= W -> nrows (csv s) = H * W ->
  headers s !! fname = Some cname -> numbers (csv s) cname ->
  header (headers s) fname = Ok cname /\
  is_Ok (csv_block s cname (0 * W, (0 + H) * W) (H, W)).
Proof.
  intros HH HW Hn Hh Hc. split; [|by apply csv_block_whole].
  unfold header, getitem. by rewrite Hh.
Qed.

Lemma assign_bands_Ok {A} (plane_of : Z -> result (list (list A))) bands :
  (forall band, band ∈ bands -> is_Ok (plane_of band)) ->
  forall arr i, is_Ok (assign_bands plane_of arr i bands).
Proof.
  induction bands as [|band rest IH]; intros Hp arr i; simpl; [by eexists|].
  destruct (Hp band) as [plane ->]; [apply list_elem_of_here|].
  rewrite bind_Ok_eq. apply IH. intros b Hb. apply Hp. by apply list_elem_of_further.
Qed.

Lemma mapR_is_Ok {A B} (f : A -> result B) (l : list A) :
  Forall (fun a => is_Ok (f a)) l -> is_Ok (mapR f l).
Proof.
  induction 1 as [|a l [b Hb] _ [bs Hbs]]; simpl; [by eexists|].
  rewrite Hb, bind_Ok_eq, Hbs. by eexists.
Qed.

Lemma band_slice_Ok {A} (arr : list (list (list A))) ys xs nb (i : nat) :
  np.shape3 arr ys xs nb -> Z.of_nat i < nb -> is_Ok (band_slice arr nb i).
Proof.
  intros [_ Harr] Hi. unfold band_slice. rewrite decide_True by done.
  unfold np.get_band. apply mapR_is_Ok.
  eapply Forall_impl; [exact Harr|]. intros row [_ Hrow]. apply mapR_is_Ok.
  eapply Forall_impl; [exact Hrow|]. intros px Hpx. simpl in *.
  destruct (lookup_lt_is_Some_2 px i) as [v ->]; [lia|]. by eexists.
Qed.

Lemma assemble_columns_headers a bn cols :
  assemble_columns a bn = Ok cols ->
  forall fname,
    fname ∈ ["LAT"; "LON"; "DATETIME"; "OZONE"; "SURFACE_PRESSURE"; "SZA"; "VZA"]%string
            ++ (if kw.relative_azimuth a then ["RAA"] else ["SAA"; "VAA"])%string
            ++ (if kw.wind_module a then ["WIND"] else ["ZONAL_WIND"; "MERID_WIND"])%string ->
    exists cname, kw.headers a !! fname = Some cname /\ cname ∈ cols.
Proof.
  unfold assemble_columns. intros Hc.
  apply bind_Ok in Hc as (c1 & H1 & Hc). apply bind_Ok in Hc as (c2 & H2 & Hc).
  apply bind_Ok in Hc as (c3 & H3 & Hc). apply bind_Ok in Hc as (c4 & H4 & [= <-]).
  assert (Hin : forall fname cname,
            header (kw.headers a) fname = Ok cname -> kw.headers a !! fname = Some cname).
  { intros fname cname. unfold header, getitem.
    by destruct (kw.headers a !! fname); intros [= ->]. }
  intros fname Hf. rewrite !elem_of_app in Hf. destruct Hf as [Hf|[Hf|Hf]].
  - apply mapR_Forall2 in H1. apply list_elem_of_lookup in Hf as [i Hi].
    destruct (Forall2_lookup_l _ _ _ _ _ H1 Hi) as (cname & Hc1 & Hh).
    exists cname. split; [by apply Hin|].
    rewrite elem_of_app. left. by eapply list_elem_of_lookup_2.
  - destruct (kw.relative_azimuth a).
    + apply list_elem_of_singleton in Hf as ->.
      apply bind_Ok in H2 as (r & Hr & [= <-]). exists r. split; [by apply Hin|].
      rewrite !elem_of_app. right. left. apply list_elem_of_here.
    + apply bind_Ok in H2 as (sa & Hsa & H2). apply bind_Ok in H2 as (va & Hva & [= <-]).
      apply elem_of_cons in Hf as [->|Hf]; [|apply list_elem_of_singleton in Hf as ->].
      * exists sa. split; [by apply Hin|]. rewrite !elem_of_app. right. left.
        apply list_elem_of_here.
      * exists va. split; [by apply Hin|]. rewrite !elem_of_app. right. left.
        apply list_elem_of_further, list_elem_of_here.
  - destruct (kw.wind_module a).
    + apply list_elem_of_singleton in Hf as ->.
      apply bind_Ok in H3 as (r & Hr & [= <-]). exists r. split; [by apply Hin|].
      rewrite !elem_of_app. right. right. left. apply list_elem_of_here.
    + apply bind_Ok in H3 as (z & Hz & H3). apply bind_Ok in H3 as (m & Hm & [= <-]).
      apply elem_of_cons in Hf as [->|Hf]; [|apply list_elem_of_singleton in Hf as ->].
      * exists z. split; [by apply Hin|]. rewrite !elem_of_app. right. right. left.
        apply list_elem_of_here.
      * exists m. split; [by apply Hin|]. rewrite !elem_of_app. right. right. left.
        apply list_elem_of_further, list_elem_of_here.
Qed.

End whole_file.


Section whole_file_read.
Context {RT : Runtime}.
Variable BANDS_MERIS : list Z.
Variable L2FLAGS : L2FLAGS_t.
Import Level1_ASCII.

Lemma dates_whole {B} (f : datetime -> B) (dates : list datetime) H W :
  0 <= H -> 0 <= W -> Z.of_nat (length dates) = H * W ->
  is_Ok (np.reshape (f <$> np.slice dates (0 * W, (0 + H) * W)) (H, W)).
Proof.
  intros HH HW Hl. rewrite slice_fmap. apply reshape_whole; [done..|].
  by rewrite length_fmap.
Qed.

Lemma field_column s bands fname cname :
  fname ∈ fields_read s -> headers s !! fname = Some cname ->
  cname ∈ columns_read s bands.
Proof.
  intros Hf Hh. unfold columns_read. rewrite elem_of_app. left.
  apply list_elem_of_omap. by exists fname.
Qed.

Lemma band_column s bands band name :
  band ∈ bands -> band_names s !! band = Some name ->
  name ∈ columns_read s bands.
Proof.
  intros Hb Hn. unfold columns_read. rewrite elem_of_app. right.
  apply list_elem_of_omap. by exists band.
Qed.

Ltac mem := rewrite ?elem_of_app, ?elem_of_cons; tauto.

(** The whole source as one block. *)
Lemma read_whole s H W bands :
  0 <= H -> 0 <= W -> nrows (csv s) = H * W ->
  Z.of_nat (length (dates s)) = nrows (csv s) ->
  is_meris (sensor s) = false ->
  TOAR s = "reflectance"%string \/ TOAR s = "radiance"%string ->
  bands <> [] ->
  (forall fname, fname ∈ fields_read s -> is_Some (headers s !! fname)) ->
  (forall band, band ∈ bands -> is_Some (band_names s !! band)) ->
  Forall (numbers (csv s)) (columns_read s bands) ->
  is_Ok (read_block L2FLAGS s (H, W) (0, 0) bands).
Proof.
  intros HH HW Hn Hd Hm HT Hb Hfields Hbands Hnum.
  rewrite Forall_forall in Hnum.
  assert (Hfield : forall fname, fname ∈ fields_read s ->
            exists cname, headers s !! fname = Some cname /\ numbers (csv s) cname).
  { intros fname Hf. destruct (Hfields fname Hf) as [cname Hc].
    exists cname. split; [done|]. apply Hnum. by eapply field_column. }
  assert (Hget : forall fname, fname ∈ fields_read s ->
            is_Ok (get_field s fname (0 * W, (0 + H) * W) (H, W))).
  { intros fname Hf. destruct (Hfield fname Hf) as (cname & Hc & Hnc).
    by eapply get_field_whole. }
  assert (Hraw : forall fname, fname ∈ fields_read s ->
            exists cname, header (headers s) fname = Ok cname /\
              is_Ok (csv_block s cname (0 * W, (0 + H) * W) (H, W))).
  { intros fname Hf. destruct (Hfield fname Hf) as (cname & Hc & Hnc).
    exists cname. by eapply raw_field_whole. }
  assert (Hnb : 0 < Z.of_nat (length bands)) by (destruct bands; [done|simpl; lia]).
  unfold fields_read in Hget, Hraw.
  destruct (np.full3 H W (Z.of_nat (length bands)) (float32 nan)) as [wl0|] eqn:Hwl0.
  2:{ unfold np.full3 in Hwl0. by rewrite decide_True in Hwl0 by lia. }
  destruct (np.full3 H W (Z.of_nat (length bands)) nan) as [TOA0|] eqn:HTOA0.
  2:{ unfold np.full3 in HTOA0. by rewrite decide_True in HTOA0 by lia. }
  destruct (assign_bands_Ok (TOA_band s (0 * W, (0 + H) * W) (H, W)) bands)
    with (arr := TOA0) (i := 0%nat) as [TOA HTOA].
  { intros band Hband. destruct (Hbands band Hband) as [name Hname].
    unfold TOA_band, getitem. rewrite Hname, bind_Ok_eq.
    apply csv_block_whole; [done..|]. apply Hnum. by eapply band_column. }
  assert (HTOAs : np.shape3 TOA H W (Z.of_nat (length bands))).
  { eapply assign_bands_shape; [exact HTOA|by apply full3_shape in HTOA0 as [? _]|].
    intros band plane. by apply TOA_band_shape. }
  destruct (band_slice_Ok TOA H W _ 0 HTOAs Hnb) as [toa0 Htoa0].
  destruct (dates_whole tm_yday (dates s) H W) as [jd Hjd]; [lia..|].
  destruct (dates_whole tm_mon (dates s) H W) as [mo Hmo]; [lia..|].
  destruct (np.full2 (H, W) 0) as [bm0|] eqn:Hbm0.
  2:{ unfold np.full2 in Hbm0. by rewrite decide_True in Hbm0 by (simpl; lia). }
  destruct (Hget "LAT"%string) as [lat Hlat]; [mem|].
  destruct (Hget "LON"%string) as [lon Hlon]; [mem|].
  destruct (Hget "SZA"%string) as [sz Hsz]; [mem|].
  destruct (Hget "VZA"%string) as [vz Hvz]; [mem|].
  destruct (Hraw "OZONE"%string) as (coz & Hcoz & [oz Hoz]); [mem|].
  destruct (Hraw "SURFACE_PRESSURE"%string) as (cpr & Hcpr & [pr Hpr]); [mem|].
  unfold read_block. cbv beta iota zeta. cbn [fst snd].
  destruct (relative_azimuth s) eqn:Hra; destruct (wind_module s) eqn:Hwm.
  all: cbn [app] in Hget, Hraw.
  all: try (destruct (Hget "RAA"%string) as [ra Hraa]; [mem|];
            pose proof (eq_refl : raa (Some ra) None None = Ok ra)).
  all: try (destruct (Hget "SAA"%string) as [sa Hsaa]; [mem|];
            destruct (Hget "VAA"%string) as [va Hvaa]; [mem|];
            pose proof (eq_refl : raa None (Some sa) (Some va)
                                  = Ok (np.zip2 absdiff sa va))).
  all: try (destruct (Hraw "WIND"%string) as (cw & Hcw & [wi Hwi]); [mem|]).
  all: try (destruct (Hraw "ZONAL_WIND"%string) as (cz & Hcz & [zw Hzw]); [mem|];
            destruct (Hraw "MERID_WIND"%string) as (cm & Hcm & [mw Hmw]); [mem|]).
  all: clear Hget Hraw Hfield Hfields Hnum Hbands.
  all: destruct (decide (TOAR s = "reflectance"%string)) as [C1|C1];
         [|destruct (decide (TOAR s = "radiance"%string)) as [C2|C2];
           [|by destruct HT]].
  all: eexists; run_steps.
Qed.

End whole_file_read.


Section whole_file_blocks.
Context {RT : Runtime}.
Variable BANDS_MERIS : list Z.
Variable L2FLAGS : L2FLAGS_t.
Import Level1_ASCII.

Lemma numbers_nonneg df cname : numbers df cname -> 0 <= nrows df.
Proof. intros (v & _ & <-). lia. Qed.

Lemma parse_dates_length a df dates :
  parse_dates a df = Ok dates ->
  (forall cname col,
     kw.headers a !! "DATETIME"%string = Some cname ->
     columns df !! cname = Some col -> column_length col = nrows df) ->
  Z.of_nat (length dates) = nrows df.
Proof.
  intros Hd Hlen. destruct (parse_dates_Ok _ _ _ Hd) as (cname & Hc & Hcol).
  unfold header, getitem in Hc.
  destruct (kw.headers a !! "DATETIME"%string) as [c|] eqn:Hh; [|done].
  injection Hc as ->.
  destruct (columns df !! cname) as [[v|times]|] eqn:Hcc; [| |done].
  - destruct Hcol as [-> ->]. by rewrite <- (Hlen _ _ eq_refl Hcc).
  - rewrite <- (Hlen _ _ eq_refl Hcc). simpl.
    by rewrite (Forall2_length _ _ _ Hcol).
Qed.

(** X10. An extraction of a sensor outside the MERIS family is read whole, and
    without an exception, when the file is as the reader expects it:
    the source was constructed with a positive [square] and a positive
    block size and with one of the two modes; the column of the dates and
    the columns of the fields and of the bands that are read have one entry
    for each row of the file, numbers for the fields and the bands; and the
    bands asked for are a non-empty list of bands of the source.  The
    iteration then gives [ceil(height/blocksize)] blocks. *)
Theorem extraction_read_whole w a log s log' bands :
  __init__ BANDS_MERIS w a log = (Ok s, log') ->
  is_meris (sensor s) = false ->
  0 < kw.square a -> 0 < kw.blocksize a ->
  TOAR s = "reflectance"%string \/ TOAR s = "radiance"%string ->
  bands <> [] ->
  (forall band, band ∈ bands -> is_Some (band_names s !! band)) ->
  Forall (numbers (csv s)) (columns_read s bands) ->
  (forall cname col,
     headers s !! "DATETIME"%string = Some cname ->
     columns (csv s) !! cname = Some col -> column_length col = nrows (csv s)) ->
  exists bs,
    blocks L2FLAGS s bands = (bs, None) /\
    Z.of_nat (length bs) = Blocking.ceil_div (height s) (blocksize s).
Proof.
  intros Hs Hm HW HB HT Hb Hbands Hnum Htimes.
  apply init_Ok in Hs
    as (BANDS & bn & smile & log1 & cols & df & ds &
        _ & _ & _ & Hcols & _ & Hsq & Hd & Hsrc & _).
  apply check_square_exact in Hsq as [_ Hn].
  assert (Hh : headers s = kw.headers a) by by subst s.
  assert (Hcsv : csv s = df) by by subst s.
  assert (Hdates : dates s = ds) by by subst s.
  assert (Hheight : height s = nrows df `div` kw.square a) by by subst s.
  assert (Hwidth : width s = kw.square a) by by subst s.
  assert (Hbs : blocksize s = kw.blocksize a) by by subst s.
  assert (Hra : relative_azimuth s = kw.relative_azimuth a) by by subst s.
  assert (Hwm : wind_module s = kw.wind_module a) by by subst s.
  clear Hsrc.
  assert (Hfields : forall fname, fname ∈ fields_read s -> is_Some (headers s !! fname)).
  { intros fname Hf. rewrite Hh.
    destruct (assemble_columns_headers a bn cols Hcols fname) as (cname & -> & _);
      [|done].
    unfold fields_read in Hf. rewrite Hra, Hwm in Hf.
    revert Hf. rewrite !elem_of_app, !elem_of_cons. tauto. }
  assert (Hrows : 0 <= nrows df).
  { destruct (Hfields "LAT"%string) as [cname Hc].
    { unfold fields_read. rewrite !elem_of_app, !elem_of_cons. tauto. }
    rewrite Forall_forall in Hnum. rewrite <- Hcsv.
    eapply numbers_nonneg, Hnum, field_column; [|done].
    unfold fields_read. rewrite !elem_of_app, !elem_of_cons. tauto. }
  assert (Hlen : Z.of_nat (length (dates s)) = nrows (csv s)).
  { rewrite Hdates, Hcsv. apply (parse_dates_length a); [done|].
    intros cname col Hc Hcol. rewrite <- Hh in Hc. rewrite <- Hcsv in Hcol |- *.
    by eapply Htimes. }
  set (H := height s). set (W := width s). set (B := blocksize s).
  assert (HH : 0 <= H).
  { unfold H. rewrite Hheight. apply Z.div_pos; lia. }
  destruct (read_whole L2FLAGS s H W bands) as [full Hfull]; try done.
  { unfold W. lia. }
  { rewrite Hcsv. unfold H, W. rewrite Hheight, Hwidth. exact Hn. }
  assert (HB' : 0 < B) by (unfold B; lia).
  pose proof (ceil_div_bounds H B HB') as Hc'.
  set (g := fun t : (Z * Z) * (Z * Z) => window_block t.2.1 t.1.1 full).
  exists (g <$> (Blocking.tile H W B (Blocking.ceil_div H B)
                   <$> Blocking.xrange (Blocking.ceil_div H B))).
  split.
  - unfold blocks, Blocking.blocks, Blocking.tiles, Blocking.nblocks.
    fold H W B. rewrite decide_False by lia. rewrite bind_Ok_eq.
    apply yield_all_Ok. intros t Ht.
    apply list_elem_of_fmap in Ht as (i & -> & Hi).
    apply elem_of_seqZ in Hi.
    rewrite tile_eq_min by lia. unfold g. cbn [fst snd].
    eapply ascii_read_block_window; [|exact Hfull].
    unfold tile_in. unfold W. nia.
  - rewrite !length_fmap. unfold Blocking.xrange. rewrite length_seqZ. nia.
Qed.

End whole_file_blocks.


(** ** The pixels of a block and the scene of the product *)

Section pixels_of_scene.
Context {RT : Runtime}.
Variable L2FLAGS : L2FLAGS_t.
Import Level1_MERIS.

(** The value of a dataset of the product at a line and a column of the
    scene. *)
Definition dataset (s : Source) (name : string) (line col : Z) : option float :=
  (fun band => band line col) <$> get_band (prod s) name.

Lemma read_as_array_at band scene xo yo width height arr (y x : nat) :
  read_as_array band scene xo yo width height = Ok arr ->
  Z.of_nat y < height -> Z.of_nat x < width ->
  np.at2 arr y x = Some (band (yo + Z.of_nat y) (xo + Z.of_nat x)).
Proof.
  unfold read_as_array. case_decide; [|done]. intros [= <-] Hy Hx.
  unfold np.at2. rewrite list_lookup_fmap, lookup_seqZ_lt by lia. simpl.
  rewrite list_lookup_fmap, lookup_seqZ_lt by lia. simpl. do 3 f_equal; lia.
Qed.

Lemma read_band_at s name ys xs offset arr (y x : nat) :
  read_band s name (ys, xs) offset = Ok arr ->
  Z.of_nat y < ys -> Z.of_nat x < xs ->
  holds (np.at2 arr y x)
    (dataset s name (sline s + offset.1 + Z.of_nat y) (offset.2 + Z.of_nat x)).
Proof.
  unfold read_band, dataset. destruct offset as [yo xo].
  destruct (get_band (prod s) name) as [band|]; [|done]. intros Harr Hy Hx.
  eexists. split; [done|]. simpl.
  rewrite (read_as_array_at _ _ _ _ _ _ _ _ _ Harr Hy Hx). do 2 f_equal; lia.
Qed.

Lemma Ltoa_band_at s ys xs offset band plane (y x : nat) :
  Ltoa_band s (ys, xs) offset band = Ok plane ->
  Z.of_nat y < ys -> Z.of_nat x < xs ->
  holds (np.at2 plane y x)
    (band_names s !! band ≫= fun name =>
       dataset s name (sline s + offset.1 + Z.of_nat y) (offset.2 + Z.of_nat x)).
Proof.
  unfold Ltoa_band, getitem. intros Hp Hy Hx.
  destruct (band_names s !! band) as [name|]; [|done]. simpl in *.
  by apply (read_band_at _ _ ys xs).
Qed.

(** X11. Pixel [(y, x)] of a block read at [offset] holds the values of the
    datasets of the product at line [sline + offset.1 + y] and column
    [offset.2 + x] of the scene, as they are stored; the wind speed is
    the modulus of its two components; the radiance of a band is the
    dataset of its name.  The day of the year is the one of the
    product, and there is no month. *)
Theorem pixel_of_scene s ys xs offset bands b (y x : nat) :
  read_block L2FLAGS s (ys, xs) offset bands = Ok b ->
  Z.of_nat y < ys -> Z.of_nat x < xs ->
  let line := sline s + offset.1 + Z.of_nat y in
  let col := offset.2 + Z.of_nat x in
  holds (at2o (latitude b) y x) (dataset s "latitude" line col) /\
  holds (at2o (longitude b) y x) (dataset s "longitude" line col) /\
  holds (at2o (sza b) y x) (dataset s "sun_zenith" line col) /\
  holds (at2o (vza b) y x) (dataset s "view_zenith" line col) /\
  holds (at2o (saa b) y x) (dataset s "sun_azimuth" line col) /\
  holds (at2o (vaa b) y x) (dataset s "view_azimuth" line col) /\
  holds (at2o (ozone b) y x) (dataset s "ozone" line col) /\
  holds (at2o (surf_press b) y x) (dataset s "atm_press" line col) /\
  holds (at2o (wind_speed b) y x)
    (z ← dataset s "zonal_wind" line col;
     m ← dataset s "merid_wind" line col; Some (hypot2 z m)) /\
  (forall (k : nat) band, bands !! k = Some band ->
     holds (Ltoa b ≫= fun c => np.at3 c y x k)
       (band_names s !! band ≫= fun name => dataset s name line col)) /\
  _raa b = None /\ Rtoa b = None /\ month b = None /\
  jday b = Some (jday_scene (tm_yday (date s))).
Proof.
  intros Hb Hy Hx line col.
  pose proof (meris_read_block_bands L2FLAGS _ _ _ _ _ _ Hb) as (di & _ & HL & _).
  unfold read_block in Hb. cbv beta iota zeta in Hb. inv_result Hb.
  repeat match goal with
  | E : read_band _ _ (_, _) _ = Ok _ |- _ =>
      apply (fun E => read_band_at _ _ _ _ _ _ y x E Hy Hx) in E
  end.
  simpl. do 8 (split; [done|]).
  split.
  { repeat match goal with E : holds _ (dataset _ _ _ _) |- _ =>
      destruct E as (? & ? & ?) end.
    subst line col.
    repeat match goal with E : dataset _ _ _ _ = Some _ |- _ => rewrite E end.
    simpl. eexists. split; [done|].
    rewrite at2_zip2.
    repeat match goal with E : np.at2 _ _ _ = Some _ |- _ => rewrite E end.
    done. }
  split; [|done].
  intros k band Hk. destruct HL as (c & Hc & Hplanes).
  unfold TOA in Hc. simpl in Hc. injection Hc as <-.
  destruct (Hplanes k band Hk) as (plane & Hplane & Hat). simpl.
  rewrite (Hat y x) by done. by apply (Ltoa_band_at _ ys xs).
Qed.

End pixels_of_scene.

(** ** The lines of the scene and the tiles *)

Section tiles_and_lines.
Context {RT : Runtime}.
Import Level1_MERIS Blocking.



End tiles_and_lines.


(** ** The date of a product *)

Section sensing_date.
Context {RT : Runtime}.
Import Level1_MERIS.

(** The string has no dash. *)
Fixpoint dash_free (s : string) : bool :=
  match s with
  | EmptyString => true
  | String c s' => negb (Ascii.eqb c "-") && dash_free s'
  end.

(** [old] occurs nowhere in [s]. *)
Fixpoint absent (old s : string) : Prop :=
  match s with
  | EmptyString => True
  | String _ s' => String.prefix old s = false /\ absent old s'
  end.

Lemma replace_absent old new s : absent old s -> replace_from old new 0 s = s.
Proof.
  induction s as [|c s IH]; [done|]. intros [Hp Hs].
  cbn [replace_from]. rewrite Hp. by rewrite IH.
Qed.

Lemma replace_skip old new u s :
  replace_from old new (String.length u) (u +:+ s) = replace_from old new 0 s.
Proof. induction u as [|c u IH]; [done|]. exact IH. Qed.

Lemma prefix_app old s : String.prefix old (old +:+ s) = true.
Proof.
  induction old as [|c old IH]; [by destruct s|].
  simpl. by destruct (ascii_dec c c).
Qed.

Lemma replace_here c old new s :
  replace_from (String c old) new 0 (String c old +:+ s)
  = new +:+ replace_from (String c old) new 0 s.
Proof.
  pose proof (prefix_app (String c old) s) as Hp.
  change (String c old +:+ s) with (String c (old +:+ s)) in *.
  cbn [replace_from]. rewrite Hp. f_equal.
  cbn [String.length]. rewrite Nat.sub_1_r. cbn [Nat.pred]. apply replace_skip.
Qed.

Lemma dash_free_cons c s :
  dash_free (String c s) = true -> c <> "-"%char /\ dash_free s = true.
Proof.
  cbn [dash_free]. rewrite andb_true_iff, negb_true_iff, Ascii.eqb_neq. tauto.
Qed.

Lemma replace_front old new pre s :
  dash_free pre = true ->
  replace_from (String "-" old) new 0 (pre +:+ s)
  = pre +:+ replace_from (String "-" old) new 0 s.
Proof.
  induction pre as [|c pre IH]; [done|].
  intros [Hc Hpre]%dash_free_cons.
  change (String c pre +:+ ?u) with (String c (pre +:+ u)).
  cbn [replace_from String.prefix].
  destruct (ascii_dec "-" c) as [<-|_]; [done|]. by rewrite IH.
Qed.

(** A string with a dash is no prefix of a string without. *)
Lemma prefix_dash_free u s :
  dash_free s = true -> dash_free u = false -> String.prefix u s = false.
Proof.
  revert s. induction u as [|a u IH]; [done|]. intros [|b s]; [done|].
  intros [Hb Hs]%dash_free_cons Hu. cbn [String.prefix].
  destruct (ascii_dec a b) as [->|_]; [|done]. apply IH; [done|].
  cbn [dash_free] in Hu. apply andb_false_iff in Hu as [Hu|Hu]; [|done].
  apply negb_false_iff, Ascii.eqb_eq in Hu. done.
Qed.

Lemma dash_free_absent old s :
  dash_free s = true -> dash_free old = false -> absent old s.
Proof.
  intros Hs Hold. induction s as [|c s IH]; [done|].
  split; [by apply prefix_dash_free|].
  apply dash_free_cons in Hs as [_ Hs]. by apply IH.
Qed.

Lemma replace_hit old new pre post :
  dash_free pre = true -> dash_free post = true ->
  replace_from (String "-" old) new 0 (pre +:+ String "-" old +:+ post)
  = pre +:+ new +:+ post.
Proof.
  intros Hpre Hpost. rewrite replace_front, replace_here by done.
  rewrite replace_absent; [done|]. by apply dash_free_absent.
Qed.

Lemma replace_miss old new pre mid post :
  dash_free pre = true ->
  absent (String "-" old) (mid +:+ post) ->
  replace_from (String "-" old) new 0 (pre +:+ mid +:+ post) = pre +:+ mid +:+ post.
Proof.
  intros Hpre Hmid. rewrite replace_front by done. by rewrite replace_absent.
Qed.

(** The twelve replacements turn the month of the string into its number,
    and leave the rest of the string. *)
Lemma month_number old new pre post :
  (old, new) ∈ months ->
  dash_free pre = true -> dash_free post = true ->
  fold_left (fun d m => replace m.1 m.2 d) months (pre +:+ old +:+ post)
  = pre +:+ new +:+ post.
Proof.
  intros Hm Hpre Hpost. unfold months in *. cbn [fold_left fst snd]. unfold replace.
  assert (Hpost' : forall u, dash_free u = false -> String.prefix u post = false).
  { intros u Hu. by apply prefix_dash_free. }
  assert (Hend : forall u, dash_free u = false -> absent u post).
  { intros u Hu. by apply dash_free_absent. }
  repeat (apply elem_of_cons in Hm as [[= -> ->]|Hm];
    [repeat match goal with
       |- context [replace_from ?o ?n 0 (pre +:+ ?mid +:+ post)] =>
         first [ rewrite (replace_hit _ n pre post Hpre Hpost)
               | rewrite (replace_miss _ n pre mid post Hpre);
                 [|cbn [absent String.app];
                   repeat split;
                   first [ reflexivity | by apply Hpost' | by apply Hend ]] ]
     end; reflexivity|]).
  by apply elem_of_nil in Hm.
Qed.

Lemma fold_absent (l : list (string * string)) s :
  Forall (fun m => absent m.1 s) l ->
  fold_left (fun d m => replace m.1 m.2 d) l s = s.
Proof.
  induction 1 as [|m l Hm _ IH]; [done|].
  cbn [fold_left]. unfold replace at 2. by rewrite replace_absent.
Qed.

(** X13. The date of a source is the sensing start of its product, read as
    day-month-year with the month as a number: an upper-case English
    month between dashes, in a string with no other dash, is turned into
    its number and the rest of the string is left; a string with none of
    the twelve months is read as it is. *)
Theorem date_of_sensing_start w filename sl el bs log s log' :
  __init__ w filename sl el bs log = (Ok s, log') ->
  (forall old new pre post,
     (old, new) ∈ months ->
     SENSING_START (prod s) = pre +:+ old +:+ post ->
     dash_free pre = true -> dash_free post = true ->
     strptime (pre +:+ new +:+ post) "%d-%m-%Y %H:%M:%S.%f" = Ok (date s)) /\
  (Forall (fun m => absent m.1 (SENSING_START (prod s))) months ->
   strptime (SENSING_START (prod s)) "%d-%m-%Y %H:%M:%S.%f" = Ok (date s)).
Proof.
  intros Hs.
  apply meris_init_Ok in Hs as (prod & F0 & dw & date & _ & _ & _ & Hd & -> & _).
  simpl. split.
  - intros old new pre post Hm Hstart Hpre Hpost.
    by rewrite Hstart, (month_number old new) in Hd.
  - intros Hnone. by rewrite fold_absent in Hd.
Qed.

End sensing_date.


(** ** A read that fails *)

Section failing_read.
Context {RT : Runtime}.
Variable L2FLAGS : L2FLAGS_t.
Import Blocking.

(** What the generator of the blocks has done when it stops: the blocks it
    yielded are the reads of the first tiles, in their order; it stops
    without an exception after the last tile, and otherwise with the
    exception of the read of the next tile. *)
Definition stops_at {B} (read : Z * Z -> Z * Z -> result B)
    (ts : list ((Z * Z) * (Z * Z))) (out : gen B) : Prop :=
  Forall2 (fun t b => read t.1 t.2 = Ok b) (take (length out.1) ts) out.1 /\
  match out.2 with
  | None => length out.1 = length ts
  | Some e => exists t, ts !! length out.1 = Some t /\ read t.1 t.2 = Raise e
  end.

Lemma yield_all_stops {B} (read : Z * Z -> Z * Z -> result B) ts :
  stops_at read ts (yield_all (fun t => read t.1 t.2) ts).
Proof.
  unfold stops_at. induction ts as [|t ts [IH1 IH2]]; [by split|].
  cbn [yield_all]. destruct (read t.1 t.2) as [b|e] eqn:Hread.
  - cbn [fst snd length take]. split; [by constructor|].
    destruct (yield_all _ ts).2; [done|]. by rewrite IH2.
  - cbn [fst snd length take]. split; [constructor|]. by exists t.
Qed.

(** X14. The blocks of a source, of either class, whatever the reads do: the
    tiles are read in their order until a read raises; the blocks of the
    tiles before it have been yielded, the exception of the read ends the
    generator, and no tile after it is read. *)
Theorem blocks_until_error :
  (forall s bands ts,
     tiles (Level1_ASCII.height s) (Level1_ASCII.width s) (Level1_ASCII.blocksize s)
       = Ok ts ->
     stops_at (fun size offset => Level1_ASCII.read_block L2FLAGS s size offset bands)
       ts (Level1_ASCII.blocks L2FLAGS s bands)) /\
  (forall s bands ts,
     tiles (Level1_MERIS.height s) (Level1_MERIS.width s) (Level1_MERIS.blocksize s)
       = Ok ts ->
     stops_at (fun size offset => Level1_MERIS.read_block L2FLAGS s size offset bands)
       ts (Level1_MERIS.blocks L2FLAGS s bands)).
Proof.
  split; intros s bands ts Hts.
  - unfold Level1_ASCII.blocks, blocks. rewrite Hts.
    apply (yield_all_stops
             (fun size offset => Level1_ASCII.read_block L2FLAGS s size offset bands)).
  - unfold Level1_MERIS.blocks, blocks. rewrite Hts.
    apply (yield_all_stops
             (fun size offset => Level1_MERIS.read_block L2FLAGS s size offset bands)).
Qed.

End failing_read.


(** ** The properties on the examples *)

Module More_examples.
Import binary64.
Import Examples.
Import Level1_ASCII.

Definition seawifs_log : list event :=
  Eval vm_compute in (__init__ BANDS_MERIS (files extraction) seawifs_args []).2.

Lemma seawifs_run :
  __init__ BANDS_MERIS (files extraction) seawifs_args [] = (Ok seawifs, seawifs_log).
Proof. reflexivity. Qed.

Definition meris_log : list event :=
  Eval vm_compute in
    (Level1_MERIS.__init__ product_files "MER_RR__1P.N1" 0 (-1) 2 []).2.

Lemma meris_run :
  Level1_MERIS.__init__ product_files "MER_RR__1P.N1" 0 (-1) 2 [] = (Ok meris, meris_log).
Proof. reflexivity. Qed.

Lemma blocks_degenerate_witness :
  blocks flags (with_blocksize seawifs 0) [412; 443] = ([], Some ZeroDivisionError) /\
  blocks flags (with_blocksize seawifs (-1)) [412; 443] = ([], None).
Proof.
  split.
  - apply (proj1 (blocks_degenerate flags)). reflexivity.
  - apply (proj1 (blocks_degenerate flags)). right. split; [reflexivity|discriminate].
Defined.

Lemma construction_reads_witness :
  exists cols,
    assemble_columns meris_args (band_names meris_of_extraction) = Ok cols /\
    [ReadTable "/work/auxdata/meris/smile/v2/sun_spectral_flux_rr.txt";
     ReadTable "/work/auxdata/meris/smile/v2/central_wavelen_rr.txt";
     ReadCsv "extraction.csv" ";"
       ["LAT"; "LON"; "TIME"; "OZONE_ECMWF"; "PRESS_ECMWF"; "SUN_ZENITH";
        "VIEW_ZENITH"; "DELTA_AZIMUTH"; "WINDM"; "DETECTOR"; "TOAR_01"]]%string
    = [] ++ (ReadTable <$> smile_files (files meris_extraction) meris_args)
         ++ [ReadCsv "extraction.csv" ";" cols].
Proof.
  destruct (construction_reads BANDS_MERIS _ _ _ _ _ meris_of_extraction_constructed)
    as (cols & Hcols & Hlog & _).
  exists cols. split; [exact Hcols|exact Hlog].
Defined.

Lemma band_columns_by_position_witness :
  exists BANDS,
    resolve_bands BANDS_MERIS seawifs_args = Ok BANDS /\
    forall b, is_Some (band_names seawifs !! b) <-> b ∈ BANDS.
Proof.
  destruct (band_columns_by_position BANDS_MERIS _ _ _ _ _ seawifs_run)
    as (BANDS & HB & Hkeys & _).
  exists BANDS. split; [exact HB|exact Hkeys].
Defined.

Lemma ascii_read_block_needs_band_witness : [412; 443] <> @nil Z.
Proof.
  exact (ascii_read_block_needs_band flags _ _ _ _ _ seawifs_block_read).
Defined.

Lemma block_bands_of_sensor_witness :
  (exists BANDS,
     resolve_bands BANDS_MERIS seawifs_args = Ok BANDS /\
     forall band, band ∈ [412; 443] -> band ∈ BANDS) /\
  (forall band, band ∈ [443] -> band ∈ meris_bands).
Proof.
  split.
  - exact (proj1 (block_bands_of_sensor BANDS_MERIS flags)
             _ _ _ _ _ _ _ _ _ seawifs_run seawifs_block_read).
  - exact (proj2 (block_bands_of_sensor BANDS_MERIS flags)
             _ _ _ _ _ _ _ _ _ _ _ _ meris_run meris_block_read).
Defined.

Lemma pixel_of_row_witness :
  holds (at2o (latitude seawifs_block) 1 1) (float32 <$> field_cell seawifs "LAT" 3) /\
  holds (at2o (longitude seawifs_block) 1 1) (float32 <$> field_cell seawifs "LON" 3).
Proof.
  destruct (pixel_of_row flags seawifs 3 2 (0, 0) [412; 443] seawifs_block 1 1
              seawifs_block_read) as (Hlat & Hlon & _); [simpl; lia|lia|lia|].
  split; [exact Hlat|exact Hlon].
Defined.

Lemma jday_of_timestamp_witness :
  exists cname times t d jd,
    header (kw.headers seawifs_args) "DATETIME" = Ok cname /\
    columns (csv seawifs) !! cname = Some (ObjCol times) /\
    times !! 3%nat = Some t /\
    strptime t (kw.datetime_fmt seawifs_args) = Ok d /\
    jday seawifs_block = Some (jday_pixels jd) /\
    np.at2 jd 1 1 = Some (tm_yday d) /\
    at2o (month seawifs_block) 1 1 = Some (tm_mon d).
Proof.
  apply (jday_of_timestamp BANDS_MERIS flags _ _ _ _ _ 3 2 (0, 0) [412; 443]
           seawifs_block 1 1 seawifs_run seawifs_block_read); simpl; lia.
Defined.

Lemma rows_of_tiles_witness :
  exists ts,
    Blocking.tiles (height seawifs) (width seawifs) (blocksize seawifs) = Ok ts /\
    forall r, 0 <= r < nrows (csv seawifs) ->
      exists (i : nat) t y x,
        ts !! i = Some t /\
        0 <= y < Blocking.tile_height t /\ 0 <= x < Blocking.tile_width t /\
        (Blocking.tile_row t + y) * Blocking.tile_width t + x = r /\
        forall (i' : nat) t' y' x',
          ts !! i' = Some t' ->
          0 <= y' < Blocking.tile_height t' -> 0 <= x' < Blocking.tile_width t' ->
          (Blocking.tile_row t' + y') * Blocking.tile_width t' + x' = r ->
          i' = i /\ y' = y /\ x' = x.
Proof.
  apply (rows_of_tiles BANDS_MERIS _ _ _ _ _ seawifs_run); reflexivity.
Defined.

Lemma seawifs_numbers :
  Forall (numbers (csv seawifs)) (columns_read seawifs [412; 443]).
Proof.
  repeat constructor; eexists; (split; [reflexivity|reflexivity]).
Qed.

Lemma extraction_read_whole_witness :
  exists bs,
    blocks flags seawifs [412; 443] = (bs, None) /\
    Z.of_nat (length bs) = Blocking.ceil_div (height seawifs) (blocksize seawifs).
Proof.
  apply (extraction_read_whole BANDS_MERIS flags _ _ _ _ _ _ seawifs_run).
  - reflexivity.
  - reflexivity.
  - reflexivity.
  - right. reflexivity.
  - discriminate.
  - intros band Hband.
    apply elem_of_cons in Hband as [->|Hband]; [by eexists|].
    apply elem_of_cons in Hband as [->|Hband]; [by eexists|].
    by apply elem_of_nil in Hband.
  - exact seawifs_numbers.
  - intros cname col Hh Hc.
    assert (cname = "TIME"%string) as -> by (vm_compute in Hh; congruence).
    assert (col = ObjCol (replicate 6 the_time)) as ->.
    { apply (inj Some). rewrite <- Hc. reflexivity. }
    reflexivity.
Defined.

Lemma pixel_of_scene_witness :
  holds (at2o (latitude meris_block) 1 1) (dataset meris "latitude" 2 1) /\
  holds (at2o (longitude meris_block) 1 1) (dataset meris "longitude" 2 1).
Proof.
  destruct (pixel_of_scene flags meris 2 2 (1, 0) [443] meris_block 1 1
              meris_block_read) as (Hlat & Hlon & _); [lia|lia|].
  split; [exact Hlat|exact Hlon].
Defined.


Lemma date_of_sensing_start_witness :
  strptime "01-05-2005 09:28:49.000000" "%d-%m-%Y %H:%M:%S.%f"
  = Ok (Level1_MERIS.date meris).
Proof.
  apply (proj1 (date_of_sensing_start product_files "MER_RR__1P.N1" 0 (-1) 2 []
                  meris meris_log meris_run) "-MAY-" "-05-" "01"
           "2005 09:28:49.000000"%string);
    [do 4 apply list_elem_of_further; apply list_elem_of_here
    |reflexivity|reflexivity|reflexivity].
Defined.

Lemma blocks_until_error_witness :
  stops_at (fun size offset => read_block flags seawifs size offset [412; 443])
    [((2, 2), (0, 0)); ((1, 2), (2, 0))] (blocks flags seawifs [412; 443]).
Proof. apply (proj1 (blocks_until_error flags)). reflexivity. Defined.

End More_examples.
